(** * Med_RAG: the agentic workflow controller and its fallback-aware generator

    A shallow embedding of [src/llm_manager.py], [src/rag_agent.py] and
    [src/system_manager.py].

    - Python [str] is [string]; [str.lower] is the ASCII lowering, which
      agrees with Python's on every text as far as the three keywords
      matched by the evaluate stage are concerned.
    - Python [float] is the binary64 primitive [float]; decimal literals
      are rounded to the nearest double exactly as Python reads them.
    - Python [int] is [Z].
    - A [dict] keyed by strings is an insertion-ordered association list.
    - The language-model backends and the vector index are external; they
      are oracles, and every call to them is recorded in an event log that
      the model threads through a small state monad. An oracle answers
      [Raises] where the Python call raises an exception.
    - The graph engine behind [StateGraph] is a library: a run is modelled
      as it reads in [_build_workflow], one node per superstep. The state
      a node returns is the one the next node receives. The branch
      function of a conditional edge only chooses the next node: the
      engine hands it a state of its own, and what it assigns there is
      not seen by any node. The engine's bound on supersteps is a
      parameter.
    - The settings of [config.py] that matter here, the API keys and
      [CONFIDENCE_THRESHOLD], are parameters. *)

From Stdlib Require Import String Ascii List ZArith Bool Lia DecimalString.
From Stdlib Require Import Floats.PrimFloat.
Import ListNotations.

#[local] Set Warnings "-inexact-float".
Local Open Scope list_scope.
Local Open Scope string_scope.

(** ** Python values *)

Module Py.

Definition nl : string := String (ascii_of_nat 10) EmptyString.

(** A triple-quoted literal, line by line. *)
Definition lines (l : list string) : string := String.concat nl l.

Definition lower_ascii (c : ascii) : ascii :=
  let n := nat_of_ascii c in
  if (Nat.leb 65 n && Nat.leb n 90)%bool then ascii_of_nat (n + 32) else c.

(** [s.lower()] *)
Fixpoint lower (s : string) : string :=
  match s with
  | EmptyString => EmptyString
  | String c s' => String (lower_ascii c) (lower s')
  end.

(** [needle in hay] *)
Fixpoint contains (needle hay : string) : bool :=
  match hay with
  | EmptyString => String.prefix needle EmptyString
  | String _ hay' => (String.prefix needle hay || contains needle hay')%bool
  end.

(** Truth value of a [str]. *)
Definition truthy (s : string) : bool :=
  match s with EmptyString => false | String _ _ => true end.

(** Truth value of an optional [str] such as an environment setting. *)
Definition truthy_opt (s : option string) : bool :=
  match s with Some s => truthy s | None => false end.

Definition is_some {A} (o : option A) : bool :=
  match o with Some _ => true | None => false end.

(** [a or b] on objects that are truthy whenever they are not [None]. *)
Definition or_ {A} (a b : option A) : option A :=
  match a with Some _ => a | None => b end.

(** [str(n)] for a length. *)
Definition str_of_nat (n : nat) : string :=
  NilZero.string_of_uint (Nat.to_uint n).

(** [min(a, b)]: the first argument unless the second is smaller. *)
Definition min (a b : float) : float :=
  if PrimFloat.ltb b a then b else a.

(** Dictionaries with string keys, in insertion order. *)
Definition dict (V : Type) : Type := list (string * V).

Fixpoint get {V} (d : dict V) (k : string) : option V :=
  match d with
  | [] => None
  | (k', v) :: d' => if String.eqb k' k then Some v else get d' k
  end.

(** [d.get(k, default)] *)
Definition get_or {V} (d : dict V) (k : string) (default : V) : V :=
  match get d k with Some v => v | None => default end.

(** [d[k] = v] *)
Fixpoint set {V} (d : dict V) (k : string) (v : V) : dict V :=
  match d with
  | [] => [(k, v)]
  | (k', v') :: d' =>
      if String.eqb k' k then (k', v) :: d' else (k', v') :: set d' k v
  end.

(** The result of a call that may raise. *)
Inductive Outcome (A : Type) : Type :=
| Returns (a : A)
| Raises (msg : string).
Arguments Returns {A} a.
Arguments Raises {A} msg.

Definition raised {A} (o : Outcome A) : bool :=
  match o with Returns _ => false | Raises _ => true end.

End Py.

Import Py(Outcome, Returns, Raises).

(** ** External collaborators and the event log *)

(** The three chat-model objects the manager may hold. *)
Inductive LLM : Type :=
| ChatGoogleGenerativeAI
| ChatOpenAI
| ChatOllama.

(** [langchain.schema.Document] *)
Record Document : Type := mkDocument {
  page_content : string;
  metadata : Py.dict string
}.

(** What the program asks of the outside world. *)
Inductive Event : Type :=
| Search (query : string)
| Invoke (llm : LLM) (prompt : string).

Definition Log : Type := list Event.

(** The chat models a log shows as invoked, in order. *)
Fixpoint invoked (log : Log) : list LLM :=
  match log with
  | [] => []
  | Invoke llm _ :: log' => llm :: invoked log'
  | Search _ :: log' => invoked log'
  end.

(** The events of invoking each of the named models once, in order. *)
Definition invocations (prompt : string) (l : list (string * LLM)) : Log :=
  map (fun x => Invoke (snd x) prompt) l.

(** Computations that append to the log. *)
Definition M (A : Type) : Type := Log -> A * Log.

Definition ret {A} (a : A) : M A := fun log => (a, log).

Definition bind {A B} (c : M A) (k : A -> M B) : M B :=
  fun log => let (a, log') := c log in k a log'.

Declare Scope m_scope.
Delimit Scope m_scope with m.
Notation "x <- c ;; k" := (bind c (fun x => k))
  (at level 61, c at next level, right associativity) : m_scope.
Local Open Scope m_scope.

(** ** [llm_manager.py] *)

(** The dictionaries [generate_response] and [evaluate_response_quality]
    return; [None] is an absent key. *)
Module LLMResult.
Record t : Type := mk {
  success : bool;
  response : option string;
  provider : option string;
  error : option string;
  evaluation : option string
}.

Definition ok (text tag : string) : t :=
  mk true (Some text) (Some tag) None None.

Definition failed (msg : string) : t :=
  mk false None None (Some msg) None.
End LLMResult.

Module LLMManager.

Record t : Type := mk {
  google_llm : option LLM;
  openai_llm : option LLM;
  ollama_llm : option LLM;
  current_llm : option LLM
}.

Definition set_google_llm (self : t) (v : option LLM) : t :=
  mk v (openai_llm self) (ollama_llm self) (current_llm self).
Definition set_openai_llm (self : t) (v : option LLM) : t :=
  mk (google_llm self) v (ollama_llm self) (current_llm self).
Definition set_ollama_llm (self : t) (v : option LLM) : t :=
  mk (google_llm self) (openai_llm self) v (current_llm self).
Definition set_current_llm (self : t) (v : option LLM) : t :=
  mk (google_llm self) (openai_llm self) (ollama_llm self) v.

(** The attributes as [__init__] sets them before [initialize_llms]. *)
Definition blank : t := mk None None None None.

Section Construction.

(** [Config.GOOGLE_API_KEY], [Config.OPENAI_API_KEY] *)
Variable GOOGLE_API_KEY OPENAI_API_KEY : option string.

(** Whether building the given chat-model object raises. *)
Variable constructor_raises : LLM -> bool.

(** One guarded assignment of the outer [try] body: [inl] when the
    constructor raised, the object being left as it was. *)
Definition init_google (self : t) : t + t :=
  if Py.truthy_opt GOOGLE_API_KEY then
    if constructor_raises ChatGoogleGenerativeAI then inl self
    else inr (set_google_llm self (Some ChatGoogleGenerativeAI))
  else inr self.

Definition init_openai (self : t) : t + t :=
  if Py.truthy_opt OPENAI_API_KEY then
    if constructor_raises ChatOpenAI then inl self
    else inr (set_openai_llm self (Some ChatOpenAI))
  else inr self.

(** The inner [try]: a failure is logged and the slot set to [None]. *)
Definition init_ollama (self : t) : t :=
  if constructor_raises ChatOllama then set_ollama_llm self None
  else set_ollama_llm self (Some ChatOllama).

(** The outer [except] handler. *)
Definition init_except (self : t) : t :=
  set_current_llm self (Py.or_ (openai_llm self) (ollama_llm self)).

Definition initialize_llms (self : t) : t :=
  match init_google self with
  | inl self => init_except self
  | inr self =>
      match init_openai self with
      | inl self => init_except self
      | inr self =>
          let self := init_ollama self in
          set_current_llm self
            (Py.or_ (Py.or_ (google_llm self) (openai_llm self))
                    (ollama_llm self))
      end
  end.

(** [LLMManager()] *)
Definition new : t := initialize_llms blank.

End Construction.

Definition get_llm (self : t) (provider : string) : option LLM :=
  if (String.eqb provider "google" && Py.is_some (google_llm self))%bool
  then google_llm self
  else if (String.eqb provider "openai" && Py.is_some (openai_llm self))%bool
  then openai_llm self
  else if (String.eqb provider "ollama" && Py.is_some (ollama_llm self))%bool
  then ollama_llm self
  else if String.eqb provider "auto" then current_llm self
  else None.

(** The list the [except] branch of [generate_response] builds. *)
Definition fallback_providers (self : t) (provider : string)
  : list (string * LLM) :=
  ((if negb (String.eqb provider "google") then
      match google_llm self with Some l => [("google", l)] | None => [] end
    else [])
   ++ (if negb (String.eqb provider "openai") then
         match openai_llm self with Some l => [("openai", l)] | None => [] end
       else [])
   ++ (if negb (String.eqb provider "ollama") then
         match ollama_llm self with Some l => [("ollama", l)] | None => [] end
       else []))%list.

Section Generation.

(** [backend n llm prompt]: what [llm.invoke] does when it is the
    [n]-th event of the run. *)
Variable backend : nat -> LLM -> string -> Outcome string.

Definition invoke (llm : LLM) (prompt : string) : M (Outcome string) :=
  fun log => (backend (List.length log) llm prompt, (log ++ [Invoke llm prompt])%list).

(** The [for] loop over the fallback providers. *)
Fixpoint try_fallbacks (prompt : string) (l : list (string * LLM))
  : M LLMResult.t :=
  match l with
  | [] => ret (LLMResult.failed "All LLM providers failed")
  | (fallback_name, fallback_llm) :: l' =>
      r <- invoke fallback_llm prompt ;;
      match r with
      | Returns content =>
          ret (LLMResult.ok content ("fallback-" ++ fallback_name))
      | Raises _ => try_fallbacks prompt l'
      end
  end.

Definition generate_response (self : t) (prompt provider : string)
  : M LLMResult.t :=
  match get_llm self provider with
  | None => ret (LLMResult.failed "No LLM available")
  | Some llm =>
      r <- invoke llm prompt ;;
      match r with
      | Returns content =>
          ret (LLMResult.ok content
                 (if negb (String.eqb provider "auto") then provider
                  else "auto-selected"))
      | Raises _ =>
          try_fallbacks prompt (fallback_providers self provider)
      end
  end.

Definition medical_prompt (query context : string) : string :=
  Py.lines [
    "You are a medical AI assistant. Please provide a comprehensive, accurate, and evidence-based response to the following medical query.";
    "";
    "Query: " ++ query;
    "";
    "Context from medical documents:";
    context;
    "";
    "Please provide a detailed response that:";
    "1. Directly addresses the query";
    "2. References specific information from the provided context";
    "3. Maintains medical accuracy and professionalism";
    "4. Includes relevant source citations where possible";
    "";
    "Response:" ].

Definition generate_medical_response (self : t) (query context : string)
  : M LLMResult.t :=
  generate_response self (medical_prompt query context) "auto".

Definition evaluation_prompt (query response context : string) : string :=
  Py.lines [
    "Evaluate the quality of this medical AI response:";
    "";
    "Query: " ++ query;
    "";
    "Response: " ++ response;
    "";
    "Context used: " ++ context;
    "";
    "Rate the response on:";
    "1. Relevance to the query (0-10)";
    "2. Accuracy of medical information (0-10)";
    "3. Use of provided context (0-10)";
    "4. Overall helpfulness (0-10)";
    "";
    "Provide a brief assessment and overall score (0-10):" ].

Definition evaluate_response_quality
  (self : t) (query response context : string) : M LLMResult.t :=
  result <- generate_response self
              (evaluation_prompt query response context) "auto" ;;
  if LLMResult.success result then
    ret (LLMResult.mk true None None None (LLMResult.response result))
  else ret result.

End Generation.

End LLMManager.

(** ** [rag_agent.py] *)

(** The dictionary a [process_query] call returns; [None] is an absent key
    or the value [None]. *)
Module QueryResult.
Record t : Type := mk {
  success : bool;
  query : option string;
  response : option string;
  confidence : option float;
  sources : option (list string);
  evaluation : option (Py.dict string);
  workflow_steps : option string;
  error : option string;
  message : option string
}.
End QueryResult.

Module RAGAgent.

(** [AgentState] *)
Record AgentState : Type := mkState {
  query : string;
  retrieved_documents : list Document;
  context : string;
  response : string;
  confidence : float;
  sources : list string;
  evaluation : Py.dict string;
  error : string;
  step : string;
  improvement_count : Z
}.

Definition set_retrieved_documents (s : AgentState) (v : list Document) :=
  mkState (query s) v (context s) (response s) (confidence s) (sources s)
          (evaluation s) (error s) (step s) (improvement_count s).
Definition set_context (s : AgentState) (v : string) :=
  mkState (query s) (retrieved_documents s) v (response s) (confidence s)
          (sources s) (evaluation s) (error s) (step s) (improvement_count s).
Definition set_response (s : AgentState) (v : string) :=
  mkState (query s) (retrieved_documents s) (context s) v (confidence s)
          (sources s) (evaluation s) (error s) (step s) (improvement_count s).
Definition set_confidence (s : AgentState) (v : float) :=
  mkState (query s) (retrieved_documents s) (context s) (response s) v
          (sources s) (evaluation s) (error s) (step s) (improvement_count s).
Definition set_sources (s : AgentState) (v : list string) :=
  mkState (query s) (retrieved_documents s) (context s) (response s)
          (confidence s) v (evaluation s) (error s) (step s)
          (improvement_count s).
Definition set_evaluation (s : AgentState) (v : Py.dict string) :=
  mkState (query s) (retrieved_documents s) (context s) (response s)
          (confidence s) (sources s) v (error s) (step s)
          (improvement_count s).
Definition set_error (s : AgentState) (v : string) :=
  mkState (query s) (retrieved_documents s) (context s) (response s)
          (confidence s) (sources s) (evaluation s) v (step s)
          (improvement_count s).
Definition set_step (s : AgentState) (v : string) :=
  mkState (query s) (retrieved_documents s) (context s) (response s)
          (confidence s) (sources s) (evaluation s) (error s) v
          (improvement_count s).
Definition set_improvement_count (s : AgentState) (v : Z) :=
  mkState (query s) (retrieved_documents s) (context s) (response s)
          (confidence s) (sources s) (evaluation s) (error s) (step s) v.

(** [AgentState(query=query)]: every other field at its default. *)
Definition initial_state (query : string) : AgentState :=
  mkState query [] "" "" 0.0%float [] [] "" "start" 0%Z.

(** The agent object; its vector store is the retrieval oracle. *)
Record t : Type := mk {
  llm_manager : LLMManager.t
}.

(** The nodes of the compiled graph, [END] included. *)
Inductive Node : Type :=
| retrieve
| analyze
| generate
| evaluate
| improve
| END.

(** The mapping given to [add_conditional_edges]. *)
Definition conditional_edges : Py.dict Node :=
  [("improve", improve); ("end", END)].

Definition analysis_prompt (state : AgentState) : string :=
  Py.lines [
    "Analyze this medical query and determine:";
    "1. Query type (factual, analytical, comparative, etc.)";
    "2. Required information depth";
    "3. Potential challenges or ambiguities";
    "4. Recommended approach for response generation";
    "";
    "Query: " ++ query state;
    "";
    "Context available: "
      ++ Py.str_of_nat (List.length (retrieved_documents state))
      ++ " document chunks";
    "";
    "Provide a brief analysis:" ].

Definition improvement_prompt (state : AgentState) : string :=
  Py.lines [
    "The previous response to this query received a low confidence score.";
    "Please improve the response by addressing any identified issues.";
    "";
    "Original Query: " ++ query state;
    "";
    "Previous Response: " ++ response state;
    "";
    "Evaluation Feedback: "
      ++ Py.get_or (evaluation state) "quality_assessment"
           "No specific feedback available";
    "";
    "Context: " ++ context state;
    "";
    "Please provide an improved, more accurate, and comprehensive response:" ].

(** One entry of [context_parts]. *)
Definition context_part (doc : Document) : string :=
  "Source: " ++ Py.get_or (metadata doc) "source" "unknown"
  ++ " (Chunk " ++ Py.get_or (metadata doc) "chunk_id" "unknown" ++ ")"
  ++ Py.nl ++ page_content doc ++ Py.nl.

(** The confidence the evaluate stage reads off an assessment. *)
Definition keyword_confidence (assessment : string) : float :=
  if Py.contains "confidence" (Py.lower assessment) then 0.9%float
  else if Py.contains "good" (Py.lower assessment) then 0.8%float
  else if Py.contains "adequate" (Py.lower assessment) then 0.6%float
  else 0.5%float.

(** The confidences a run can show: the literals the stages assign and
    what the improve stage's increment makes of them. *)
Definition confidence_values : list float :=
  [0.0; 0.1; 0.2; 0.30000000000000004; 0.4; 0.5; 0.6; 0.7;
   0.7999999999999999; 0.8999999999999999; 0.95; 0.8; 0.9]%float.

(** Whether a configuration of a run is an entry into [improve]. *)
Definition is_improve (c : Node * AgentState * Log) : bool :=
  match fst (fst c) with improve => true | _ => false end.

Section Workflow.

Variable backend : nat -> LLM -> string -> Outcome string.

(** [self.vector_store.similarity_search]. *)
Variable similarity_search : string -> Outcome (list Document).

(** [Config.CONFIDENCE_THRESHOLD] *)
Variable CONFIDENCE_THRESHOLD : float.

(** The number of supersteps the graph engine allows before it gives
    up with a recursion error. *)
Variable recursion_limit : nat.

(** Whether the engine hands the final state back as a [dict]. *)
Variable final_state_is_dict : bool.

Variable self : t.

Definition search (query : string) : M (Outcome (list Document)) :=
  fun log => (similarity_search query, (log ++ [Search query])%list).

Definition _retrieve_documents (state : AgentState) : M AgentState :=
  let state := set_step state "retrieve" in
  r <- search (query state) ;;
  match r with
  | Returns documents =>
      match documents with
      | [] => ret (set_error state "No relevant documents found")
      | _ :: _ =>
          let state := set_retrieved_documents state documents in
          let state :=
            set_sources state
              (map (fun doc => Py.get_or (metadata doc) "source" "unknown")
                   documents) in
          let context_parts := map context_part documents in
          ret (set_context state (String.concat Py.nl context_parts))
      end
  | Raises e =>
      ret (set_error state ("Error in document retrieval: " ++ e))
  end.

Definition _analyze_query (state : AgentState) : M AgentState :=
  let state := set_step state "analyze" in
  analysis_result <-
    LLMManager.generate_response backend (llm_manager self)
      (analysis_prompt state) "auto" ;;
  if LLMResult.success analysis_result then
    match LLMResult.response analysis_result with
    | Some text =>
        ret (set_evaluation state
               (Py.set (evaluation state) "query_analysis" text))
    | None => ret (set_error state "Error in query analysis: 'response'")
    end
  else ret state.

Definition _generate_response (state : AgentState) : M AgentState :=
  let state := set_step state "generate" in
  if negb (Py.truthy (context state)) then
    ret (set_error state "No context available for response generation")
  else
    response_result <-
      LLMManager.generate_medical_response backend (llm_manager self)
        (query state) (context state) ;;
    if LLMResult.success response_result then
      match LLMResult.response response_result with
      | Some text => ret (set_confidence (set_response state text) 0.8%float)
      | None =>
          ret (set_error state "Error in response generation: 'response'")
      end
    else
      ret (set_error state
             ("Response generation failed: "
              ++ match LLMResult.error response_result with
                 | Some e => e
                 | None => "Unknown error"
                 end)).

Definition _evaluate_response (state : AgentState) : M AgentState :=
  let state := set_step state "evaluate" in
  if negb (Py.truthy (response state)) then
    ret (set_error state "No response to evaluate")
  else
    evaluation_result <-
      LLMManager.evaluate_response_quality backend (llm_manager self)
        (query state) (response state) (context state) ;;
    if LLMResult.success evaluation_result then
      match LLMResult.evaluation evaluation_result with
      | Some assessment =>
          let state :=
            set_evaluation state
              (Py.set (evaluation state) "quality_assessment" assessment) in
          ret (set_confidence state (keyword_confidence assessment))
      | None =>
          ret (set_confidence
                 (set_error state
                    "Error in response evaluation: 'response'")
                 0.5%float)
      end
    else ret (set_confidence state 0.5%float).

Definition _should_improve (state : AgentState) : string * AgentState :=
  if (3 <=? improvement_count state)%Z then ("end", state)
  else if PrimFloat.ltb (confidence state) CONFIDENCE_THRESHOLD then
    ("improve",
     set_improvement_count state (improvement_count state + 1)%Z)
  else ("end", state).

Definition _improve_response (state : AgentState) : M AgentState :=
  let state := set_step state "improve" in
  improvement_result <-
    LLMManager.generate_response backend (llm_manager self)
      (improvement_prompt state) "auto" ;;
  if LLMResult.success improvement_result then
    match LLMResult.response improvement_result with
    | Some text =>
        ret (set_confidence (set_response state text)
               (Py.min 0.95%float (confidence state + 0.1)%float))
    | None =>
        ret (set_error state "Error in response improvement: 'response'")
    end
  else ret state.

(** One superstep of the graph built by [_build_workflow]: the node's
    function, then the edge out of it. The next node receives the state
    the node returned; the branch function after [evaluate] is asked for
    its label only, the state it updated is dropped by the engine. *)
Definition superstep (n : Node) (state : AgentState)
  : M (Outcome (Node * AgentState)) :=
  match n with
  | retrieve =>
      state <- _retrieve_documents state ;; ret (Returns (analyze, state))
  | analyze =>
      state <- _analyze_query state ;; ret (Returns (generate, state))
  | generate =>
      state <- _generate_response state ;; ret (Returns (evaluate, state))
  | evaluate =>
      state <- _evaluate_response state ;;
      let (branch, _) := _should_improve state in
      match Py.get conditional_edges branch with
      | Some n' => ret (Returns (n', state))
      | None => ret (Raises ("KeyError: " ++ branch))
      end
  | improve =>
      state <- _improve_response state ;; ret (Returns (evaluate, state))
  | END => ret (Returns (END, state))
  end.

(** [self.workflow.invoke], from node [n] with [fuel] supersteps left.
    When they are used up the engine raises its recursion error, whose
    message is the library's and stands abridged here. *)
Fixpoint invoke_from (fuel : nat) (n : Node) (state : AgentState)
  : M (Outcome AgentState) :=
  match n with
  | END => ret (Returns state)
  | _ =>
      match fuel with
      | O => ret (Raises "Recursion limit reached")
      | S fuel' =>
          r <- superstep n state ;;
          match r with
          | Returns (n', state') => invoke_from fuel' n' state'
          | Raises e => ret (Raises e)
          end
      end
  end.

(** The configurations [invoke_from] passes through: the node about to
    run, the state it receives and the log so far. *)
Fixpoint visited (fuel : nat) (n : Node) (state : AgentState) (log : Log)
  : list (Node * AgentState * Log) :=
  (n, state, log) ::
  match n with
  | END => []
  | _ =>
      match fuel with
      | O => []
      | S fuel' =>
          match superstep n state log with
          | (Returns (n', state'), log') => visited fuel' n' state' log'
          | (Raises _, _) => []
          end
      end
  end.

Definition workflow_invoke (initial : AgentState) : M (Outcome AgentState) :=
  invoke_from recursion_limit retrieve initial.

Definition process_query (query : string) : M QueryResult.t :=
  r <- workflow_invoke (initial_state query) ;;
  match r with
  | Returns final_state =>
      ret (QueryResult.mk true (Some query)
             (if final_state_is_dict then
                if Py.truthy (response final_state)
                then Some (response final_state) else None
              else Some (response final_state))
             (Some (confidence final_state))
             (Some (sources final_state))
             (Some (evaluation final_state))
             (Some (step final_state))
             (Some (error final_state))
             None)
  | Raises e =>
      ret (QueryResult.mk false (Some query) None (Some 0.0%float)
             (Some []) (Some []) (Some "N/A") (Some e) None)
  end.

End Workflow.

End RAGAgent.

(** ** [system_manager.py] *)

Module SystemManager.

Record t : Type := mk {
  rag_agent : option RAGAgent.t;
  is_initialized : bool;
  documents_processed : bool
}.

Section Queries.

Variable backend : nat -> LLM -> string -> Outcome string.
Variable similarity_search : string -> Outcome (list Document).
Variable CONFIDENCE_THRESHOLD : float.
Variable recursion_limit : nat.
Variable final_state_is_dict : bool.

Definition process_query (self : t) (query : string) : M QueryResult.t :=
  if negb (is_initialized self) then
    ret (QueryResult.mk false None None None None None None
           (Some "System not initialized")
           (Some "Please initialize the system first"))
  else
    match rag_agent self with
    | Some agent =>
        RAGAgent.process_query backend similarity_search
          CONFIDENCE_THRESHOLD recursion_limit final_state_is_dict
          agent query
    | None =>
        ret (QueryResult.mk false (Some query) None None None None None
               (Some "'NoneType' object has no attribute 'process_query'")
               (Some "Query processing failed"))
    end.

End Queries.

End SystemManager.

(** ** The specification's wording, and concrete worlds *)

Module Spec.

(** The keyword policy as the specification words it: plain containment
    in the assessment text as returned. *)
Definition keyword_confidence (assessment : string) : float :=
  if Py.contains "confidence" assessment then 0.9%float
  else if Py.contains "good" assessment then 0.8%float
  else if Py.contains "adequate" assessment then 0.6%float
  else 0.5%float.


(** The fallback order of the specification: the configured providers
    other than the one just tried, in priority order. *)
Definition fallback_order (self : LLMManager.t) (tried : LLM) : list LLM :=
  filter (fun l => match l, tried with
                   | ChatGoogleGenerativeAI, ChatGoogleGenerativeAI
                   | ChatOpenAI, ChatOpenAI
                   | ChatOllama, ChatOllama => false
                   | _, _ => true
                   end)
    (match LLMManager.google_llm self with Some l => [l] | None => [] end
     ++ match LLMManager.openai_llm self with Some l => [l] | None => [] end
     ++ match LLMManager.ollama_llm self with Some l => [l] | None => [] end).

End Spec.

Module Scenario.

(** Every backend is down. *)
Definition all_down : nat -> LLM -> string -> Outcome string :=
  fun _ _ _ => Raises "connection refused".

(** Every backend answers with the same short text. *)
Definition always (text : string) : nat -> LLM -> string -> Outcome string :=
  fun _ _ _ => Returns text.

(** Google is down, the others answer. *)
Definition google_down : nat -> LLM -> string -> Outcome string :=
  fun _ llm _ =>
    match llm with
    | ChatGoogleGenerativeAI => Raises "quota exceeded"
    | ChatOpenAI => Returns "from openai"
    | ChatOllama => Returns "from ollama"
    end.

(** The index holds nothing relevant. *)
Definition no_documents : string -> Outcome (list Document) :=
  fun _ => Returns [].

(** The index holds one chunk. *)
Definition one_document : string -> Outcome (list Document) :=
  fun _ => Returns [mkDocument "Aspirin inhibits platelet aggregation."
                      [("source", "pharm.pdf"); ("chunk_id", "0")]].

(** Only a Google key is set and no local Ollama server can be built. *)
Definition google_only : LLMManager.t :=
  LLMManager.new (Some "g-key") None
    (fun l => match l with ChatOllama => true | _ => false end).

(** Both keys are set and every constructor works. *)
Definition all_three : LLMManager.t :=
  LLMManager.new (Some "g-key") (Some "o-key") (fun _ => false).

(** Both keys are set; building the OpenAI client raises. *)
Definition openai_constructor_fails : LLMManager.t :=
  LLMManager.new (Some "g-key") (Some "o-key")
    (fun l => match l with ChatOpenAI => true | _ => false end).

Definition ready (m : LLMManager.t) : SystemManager.t :=
  SystemManager.mk (Some (RAGAgent.mk m)) true true.

Definition uninitialized : SystemManager.t :=
  SystemManager.mk None false false.

End Scenario.

(** ** The rest of [llm_manager.py] *)

Module llm_manager.

Section Models.

(** [Config.DEFAULT_MODEL], [Config.FALLBACK_MODEL], [Config.OLLAMA_MODEL],
    [Config.OLLAMA_BASE_URL] *)
Variable DEFAULT_MODEL FALLBACK_MODEL OLLAMA_MODEL OLLAMA_BASE_URL : string.

(** [LLMManager.get_available_models] *)
Definition get_available_models (self : LLMManager.t)
  : Py.dict (Py.dict string) :=
  let models := [] in
  let models :=
    if Py.is_some (LLMManager.google_llm self) then
      Py.set models "google"
        [("model", DEFAULT_MODEL); ("status", "available")]
    else models in
  let models :=
    if Py.is_some (LLMManager.openai_llm self) then
      Py.set models "openai"
        [("model", FALLBACK_MODEL); ("status", "available")]
    else models in
  let models :=
    if Py.is_some (LLMManager.ollama_llm self) then
      Py.set models "ollama"
        [("model", OLLAMA_MODEL); ("status", "available");
         ("base_url", OLLAMA_BASE_URL)]
    else models in
  models.

End Models.

End llm_manager.

(** ** Reading an event log *)

(** The queries a log shows as put to the index, in order. *)
Fixpoint searches (log : Log) : list string :=
  match log with
  | [] => []
  | Search q :: log' => q :: searches log'
  | Invoke _ _ :: log' => searches log'
  end.

(** Whether an event is the invocation of a chat model with the prompt. *)
Definition is_invoke_of (prompt : string) (e : Event) : bool :=
  match e with
  | Invoke _ p => String.eqb p prompt
  | Search _ => false
  end.

(** The names a provider tag of a generation result can take. *)
Definition provider_tags : list string :=
  ["google"; "openai"; "ollama"; "auto-selected";
   "fallback-google"; "fallback-openai"; "fallback-ollama"].

(** The source name the retrieve stage reads off a chunk. *)
Definition source_of (doc : Document) : string :=
  Py.get_or (metadata doc) "source" "unknown".

(** ** More Python values *)

#[local] Set Warnings "-register-all".

(** The values the status dictionaries hold. *)
Inductive Value : Type :=
| VBool (b : bool)
| VInt (n : Z)
| VFloat (x : float)
| VStr (s : string)
| VDict (d : list (string * Value)).

Module PyStr.

(** [c.isspace()] for a character below 256: the ASCII white space and
    separators, NEL and the no-break space. *)
Definition isspace (c : ascii) : bool :=
  let n := nat_of_ascii c in
  ((Nat.leb 9 n && Nat.leb n 13) || (Nat.leb 28 n && Nat.leb n 32)
   || Nat.eqb n 133 || Nat.eqb n 160)%bool.

(** [s.lstrip()] *)
Fixpoint lstrip (s : string) : string :=
  match s with
  | EmptyString => EmptyString
  | String c s' => if isspace c then lstrip s' else s
  end.

(** [s.rstrip()] *)
Fixpoint rstrip (s : string) : string :=
  match s with
  | EmptyString => EmptyString
  | String c s' =>
      match rstrip s' with
      | EmptyString => if isspace c then EmptyString else String c EmptyString
      | r => String c r
      end
  end.

(** [s.strip()] *)
Definition strip (s : string) : string := rstrip (lstrip s).

(** [s.split()]: the maximal runs of characters that are not white space. *)
Fixpoint split (s : string) : list string :=
  match s with
  | EmptyString => []
  | String c s' =>
      if isspace c then split s'
      else
        match s' with
        | EmptyString => [String c EmptyString]
        | String c' _ =>
            if isspace c' then String c EmptyString :: split s'
            else
              match split s' with
              | w :: ws => String c w :: ws
              | [] => [String c EmptyString]
              end
        end
  end.

(** [s.replace(c, '')] for a single character [c]. *)
Fixpoint remove (c : ascii) (s : string) : string :=
  match s with
  | EmptyString => EmptyString
  | String c' s' =>
      if Ascii.eqb c' c then remove c s' else String c' (remove c s')
  end.

(** [c in s] for a single character [c]. *)
Fixpoint occurs (c : ascii) (s : string) : bool :=
  match s with
  | EmptyString => false
  | String c' s' => (Ascii.eqb c' c || occurs c s')%bool
  end.

(** A word: a non-empty string without white space. *)
Definition is_word (s : string) : bool :=
  match s with
  | EmptyString => false
  | String _ _ =>
      forallb (fun c => negb (isspace c)) (list_ascii_of_string s)
  end.

(** Whether a string is empty or starts with something other than white
    space. *)
Definition starts_clean (s : string) : Prop :=
  match s with
  | EmptyString => True
  | String c _ => isspace c = false
  end.

(** [d.update(other)] *)
Definition update {V} (d other : Py.dict V) : Py.dict V :=
  fold_left (fun d kv => Py.set d (fst kv) (snd kv)) other d.

(** [enumerate(l)] *)
Fixpoint enumerate_from {A} (i : nat) (l : list A) : list (nat * A) :=
  match l with
  | [] => []
  | x :: l' => (i, x) :: enumerate_from (S i) l'
  end.

End PyStr.

(** ** [vector_store.py] *)

Module vector_store.

(** A Chroma collection object; what it holds is the index's business. *)
Inductive Chroma : Type := collection (id : nat).

(** [VectorStore]: the attribute that changes is [vector_store]. *)
Record t : Type := mk {
  vector_store : option Chroma
}.

(** [VectorStore()], when its constructor returns. *)
Definition new : t := mk None.

Definition collection_name : string := "medical_documents".

Section Index.

(** [Config.TOP_K_RETRIEVAL], [Config.EMBEDDING_MODEL] *)
Variable TOP_K_RETRIEVAL : Z.
Variable EMBEDDING_MODEL : string.

(** The Chroma library and the embedding model. *)
Variable from_documents : list Document -> Outcome Chroma.
Variable persist : Chroma -> Outcome unit.
Variable chroma_similarity_search :
  Chroma -> string -> Z -> Outcome (list Document).
Variable chroma_similarity_search_with_score :
  Chroma -> string -> Z -> Outcome (list (Document * float)).
Variable count : Chroma -> Outcome Z.
Variable embed_query : string -> Outcome (list float).

(** The file system and the persisted collection, as
    [load_existing_vector_store] finds them. *)
Variable directory_exists sqlite_exists : bool.
Variable open_persisted : Outcome Chroma.

(** [create_vector_store]: the outcome, and the object afterwards (an
    exception is logged and raised again). *)
Definition create_vector_store (self : t) (documents : list Document)
  : Outcome unit * t :=
  match from_documents documents with
  | Raises e => (Raises e, self)
  | Returns c =>
      let self := mk (Some c) in
      match persist c with
      | Raises e => (Raises e, self)
      | Returns _ => (Returns tt, self)
      end
  end.

Definition load_existing_vector_store (self : t) : bool * t :=
  if directory_exists then
    if sqlite_exists then
      match open_persisted with
      | Raises _ => (false, mk None)
      | Returns c =>
          let self := mk (Some c) in
          match count c with
          | Returns _ => (true, self)
          | Raises _ => (false, mk None)
          end
      end
    else (false, self)
  else (false, self).

Definition similarity_search (self : t) (query : string) (k : option Z)
  : Outcome (list Document) :=
  match vector_store self with
  | None => Raises "Vector store not initialized"
  | Some store =>
      let k := match k with None => TOP_K_RETRIEVAL | Some k => k end in
      match chroma_similarity_search store query k with
      | Returns results => Returns results
      | Raises _ => Returns []
      end
  end.

Definition similarity_search_with_score
  (self : t) (query : string) (k : option Z)
  : Outcome (list (Document * float)) :=
  match vector_store self with
  | None => Raises "Vector store not initialized"
  | Some store =>
      let k := match k with None => TOP_K_RETRIEVAL | Some k => k end in
      match chroma_similarity_search_with_score store query k with
      | Returns results => Returns results
      | Raises _ => Returns []
      end
  end.

Definition get_collection_stats (self : t) : Py.dict Value :=
  match vector_store self with
  | None => [("error", VStr "Vector store not initialized")]
  | Some store =>
      match count store with
      | Raises e => [("error", VStr e)]
      | Returns n =>
          match embed_query "test" with
          | Raises e => [("error", VStr e)]
          | Returns v =>
              [("total_documents", VInt n);
               ("collection_name", VStr collection_name);
               ("embedding_dimension", VInt (Z.of_nat (List.length v)));
               ("embedding_model", VStr EMBEDDING_MODEL)]
          end
      end
  end.

End Index.

End vector_store.

(** ** The rest of [rag_agent.py] *)

Module rag_agent.

(** The agent as [RAGAgent.__init__] builds it: a vector store of its
    own beside the language-model manager. *)
Record t : Type := mk {
  vector_store : vector_store.t;
  agent : RAGAgent.t
}.

Section Init.

Variable GOOGLE_API_KEY OPENAI_API_KEY : option string.
Variable constructor_raises : LLM -> bool.

(** [RAGAgent()], when the constructors it calls return. *)
Definition new : t :=
  mk vector_store.new
     (RAGAgent.mk (LLMManager.new GOOGLE_API_KEY OPENAI_API_KEY
                     constructor_raises)).

End Init.

Section Retrieval.

Variable TOP_K_RETRIEVAL : Z.
Variable chroma_similarity_search :
  vector_store.Chroma -> string -> Z -> Outcome (list Document).

(** [self.vector_store.similarity_search(state.query)], as the retrieve
    stage calls it. *)
Definition similarity_search (self : t) (query : string)
  : Outcome (list Document) :=
  vector_store.similarity_search TOP_K_RETRIEVAL chroma_similarity_search
    (vector_store self) query None.

End Retrieval.

Section Status.

(** The settings [get_system_status] shows. *)
Variable CHUNK_SIZE CHUNK_OVERLAP TOP_K_RETRIEVAL : Z.
Variable CONFIDENCE_THRESHOLD : float.
Variable EMBEDDING_MODEL : string.
Variable DEFAULT_MODEL FALLBACK_MODEL OLLAMA_MODEL OLLAMA_BASE_URL : string.
Variable count : vector_store.Chroma -> Outcome Z.
Variable embed_query : string -> Outcome (list float).

(** The models dictionary as a value. *)
Definition models_value (models : Py.dict (Py.dict string)) : Value :=
  VDict (map (fun kv =>
                (fst kv,
                 VDict (map (fun e => (fst e, VStr (snd e))) (snd kv))))
             models).

(** [RAGAgent.get_system_status] *)
Definition get_system_status (self : t) : Py.dict Value :=
  [("vector_store",
    VDict (vector_store.get_collection_stats EMBEDDING_MODEL count
             embed_query (vector_store self)));
   ("llm_models",
    models_value
      (llm_manager.get_available_models DEFAULT_MODEL FALLBACK_MODEL
         OLLAMA_MODEL OLLAMA_BASE_URL (RAGAgent.llm_manager (agent self))));
   ("config",
    VDict [("chunk_size", VInt CHUNK_SIZE);
           ("chunk_overlap", VInt CHUNK_OVERLAP);
           ("top_k_retrieval", VInt TOP_K_RETRIEVAL);
           ("confidence_threshold", VFloat CONFIDENCE_THRESHOLD)])].

End Status.

End rag_agent.

(** ** [document_processor.py] *)

Module document_processor.

(** A path the directory listing yields: [pdf_file.name] and
    [str(pdf_file)]. *)
Record PdfFile : Type := mkPdf {
  name : string;
  path : string
}.

(** What [get_document_summary] gives as average: the integer 0, or the
    float Python rounds the quotient of the two integers to. *)
Inductive Average : Type :=
| zero
| quotient (total_text_length total_chunks : Z).

(** The dictionary [get_document_summary] returns. *)
Record Summary : Type := mkSummary {
  total_documents : nat;
  total_chunks : nat;
  total_text_length : nat;
  average_chunk_length : Average;
  sources : Py.dict Z
}.

(** The loop body counting a source. *)
Definition count_source (sources : Py.dict Z) (doc : Document) : Py.dict Z :=
  let source := Py.get_or (metadata doc) "source" "unknown" in
  let sources :=
    if Py.is_some (Py.get sources source) then sources
    else Py.set sources source 0%Z in
  Py.set sources source (Py.get_or sources source 0 + 1)%Z.

Definition option_string_dec (a b : option string) : {a = b} + {a <> b}.
Proof. decide equality. apply string_dec. Defined.

Definition get_document_summary (documents : list Document) : Summary :=
  let total_chunks := List.length documents in
  let total_text_length :=
    fold_left (fun n doc => n + String.length (page_content doc))
      documents 0 in
  let sources := fold_left count_source documents [] in
  mkSummary
    (List.length
       (nodup option_string_dec
          (map (fun doc => Py.get (metadata doc) "source") documents)))
    total_chunks
    total_text_length
    (if Nat.ltb 0 total_chunks
     then quotient (Z.of_nat total_text_length) (Z.of_nat total_chunks)
     else zero)
    sources.

(** [preprocess_text] *)
Definition preprocess_text (text : string) : string :=
  let text := String.concat " " (PyStr.split text) in
  let text := PyStr.remove (ascii_of_nat 0) text in
  PyStr.strip text.

Section Processing.

(** The directory listing, the PDF reader (the pages' texts, each of
    which may fail to extract), the file sizes and the text splitter. *)
Variable list_pdfs : Outcome (list PdfFile).
Variable read_pages : string -> Outcome (list (Outcome string)).
Variable stat_size : string -> Outcome nat.
Variable split_documents : Document -> Outcome (list Document).

(** The loop over the pages: [text += page.extract_text() + "\n"]. *)
Fixpoint join_pages (pages : list (Outcome string)) (text : string)
  : Outcome string :=
  match pages with
  | [] => Returns text
  | Returns t :: pages' => join_pages pages' (text ++ t ++ Py.nl)
  | Raises e :: _ => Raises e
  end.

Definition extract_text_from_pdf (pdf_path : string) : Outcome string :=
  match read_pages pdf_path with
  | Raises e => Raises e
  | Returns pages =>
      match join_pages pages "" with
      | Returns text => Returns (PyStr.strip text)
      | Raises e => Raises e
      end
  end.

(** The body of the loop over the files: the document, or nothing when
    anything in it raised. *)
Definition document_of (pdf_file : PdfFile) : option Document :=
  match extract_text_from_pdf (path pdf_file) with
  | Raises _ => None
  | Returns text =>
      match stat_size (path pdf_file) with
      | Raises _ => None
      | Returns size =>
          Some (mkDocument text
                  [("source", name pdf_file);
                   ("file_path", path pdf_file);
                   ("file_size", Py.str_of_nat size);
                   ("type", "pdf")])
      end
  end.

Definition process_pdf_documents : Outcome (list Document) :=
  match list_pdfs with
  | Raises e => Raises e
  | Returns pdf_files =>
      Returns (flat_map (fun f => match document_of f with
                                  | Some doc => [doc]
                                  | None => []
                                  end) pdf_files)
  end.

(** The metadata a chunk gets: values are kept as the text they print
    as. The splitter gives every chunk a metadata dictionary of its own
    (a copy of the document's), so the update of one chunk does not show
    in another. *)
Definition stamp (total : nat) (i : nat) (chunk : Document) : Document :=
  mkDocument (page_content chunk)
    (PyStr.update (metadata chunk)
       [("chunk_id", Py.str_of_nat i);
        ("total_chunks", Py.str_of_nat total);
        ("chunk_size", Py.str_of_nat (String.length (page_content chunk)))]).

(** The chunks one document contributes. *)
Definition chunks_of (doc : Document) : list Document :=
  match split_documents doc with
  | Raises _ => []
  | Returns chunks =>
      map (fun ic => stamp (List.length chunks) (fst ic) (snd ic))
          (PyStr.enumerate_from 0 chunks)
  end.

Definition chunk_documents (documents : list Document) : list Document :=
  flat_map chunks_of documents.

End Processing.

End document_processor.

(** ** The rest of [system_manager.py] *)

Module system_manager.

(** [SystemManager], with the vector store it owns. *)
Record t : Type := mk {
  vector_store : vector_store.t;
  rag_agent : option rag_agent.t;
  is_initialized : bool;
  documents_processed : bool
}.

Definition set_vector_store (self : t) (v : vector_store.t) : t :=
  mk v (rag_agent self) (is_initialized self) (documents_processed self).
Definition set_rag_agent (self : t) (v : option rag_agent.t) : t :=
  mk (vector_store self) v (is_initialized self) (documents_processed self).
Definition set_is_initialized (self : t) (v : bool) : t :=
  mk (vector_store self) (rag_agent self) v (documents_processed self).
Definition set_documents_processed (self : t) (v : bool) : t :=
  mk (vector_store self) (rag_agent self) (is_initialized self) v.

(** [SystemManager()], when the constructors it calls return. *)
Definition new : t := mk vector_store.new None false false.

(** The coordinator as [SystemManager.process_query] reads it. *)
Definition as_manager (self : t) : SystemManager.t :=
  SystemManager.mk (option_map rag_agent.agent (rag_agent self))
    (is_initialized self) (documents_processed self).

(** The collaborators' work a call sets off. *)
Inductive Call : Type :=
| validate_config_call
| load_existing_vector_store_call
| process_pdf_documents_call
| chunk_documents_call
| create_vector_store_call
| delete_collection_call
| build_agent_call.

(** The dictionary [initialize_system] and [rebuild_vector_store]
    return. *)
Module Result.
Record t : Type := mk {
  success : bool;
  message : option string;
  error : option string;
  documents_processed : option bool;
  vector_store_loaded : option bool
}.
End Result.

(** The dictionary [test_system] returns. *)
Module TestResult.
Record t : Type := mk {
  error : option string;
  test_query : option string;
  result : option QueryResult.t;
  system_working : option bool
}.
End TestResult.

Section Coordinator.

(** [Config.validate_config()] and the constructors [RAGAgent()] calls. *)
Variable validate_config : Outcome unit.
Variable agent_constructor : Outcome unit.
Variable GOOGLE_API_KEY OPENAI_API_KEY : option string.
Variable constructor_raises : LLM -> bool.

(** The document processor's and the vector store's collaborators. *)
Variable list_pdfs : Outcome (list document_processor.PdfFile).
Variable read_pages : string -> Outcome (list (Outcome string)).
Variable stat_size : string -> Outcome nat.
Variable split_documents : Document -> Outcome (list Document).
Variable from_documents : list Document -> Outcome vector_store.Chroma.
Variable persist : vector_store.Chroma -> Outcome unit.
Variable count : vector_store.Chroma -> Outcome Z.
Variable directory_exists sqlite_exists : bool.
Variable open_persisted : Outcome vector_store.Chroma.

(** [_process_documents]: its answer, the coordinator afterwards and the
    collaborators' work it set off. *)
Definition _process_documents (self : t) : bool * t * list Call :=
  match document_processor.process_pdf_documents list_pdfs read_pages
          stat_size with
  | Raises _ => (false, self, [process_pdf_documents_call])
  | Returns documents =>
      match documents with
      | [] => (false, self, [process_pdf_documents_call])
      | _ :: _ =>
          let chunked_docs :=
            document_processor.chunk_documents split_documents documents in
          match chunked_docs with
          | [] =>
              (false, self,
               [process_pdf_documents_call; chunk_documents_call])
          | _ :: _ =>
              let (r, store) :=
                vector_store.create_vector_store from_documents persist
                  (vector_store self) chunked_docs in
              (negb (Py.raised r), set_vector_store self store,
               [process_pdf_documents_call; chunk_documents_call;
                create_vector_store_call])
          end
      end
  end.

Definition failed (e message : string) : Result.t :=
  Result.mk false (Some message) (Some e) None None.

Definition initialize_system (self : t) (force_rebuild : bool)
  : Result.t * t * list Call :=
  match validate_config with
  | Raises e =>
      (failed e "System initialization failed", self, [validate_config_call])
  | Returns _ =>
      let '(loaded, self, calls1) :=
        if negb force_rebuild then
          let (loaded, store) :=
            vector_store.load_existing_vector_store count directory_exists
              sqlite_exists open_persisted (vector_store self) in
          (loaded, set_vector_store self store,
           [load_existing_vector_store_call])
        else (false, self, []) in
      let '(ok, self, calls2) :=
        if loaded then (true, set_documents_processed self true, [])
        else
          let '(success, self, calls) := _process_documents self in
          if success then (true, set_documents_processed self true, calls)
          else (false, self, calls) in
      let calls := (validate_config_call :: calls1 ++ calls2)%list in
      if negb ok then
        (failed "Document processing failed" "System initialization failed",
         self, calls)
      else
        match agent_constructor with
        | Raises e =>
            (failed e "System initialization failed", self,
             (calls ++ [build_agent_call])%list)
        | Returns _ =>
            let self :=
              set_rag_agent self
                (Some (rag_agent.new GOOGLE_API_KEY OPENAI_API_KEY
                         constructor_raises)) in
            let self := set_is_initialized self true in
            (Result.mk true (Some "System initialized successfully") None
               (Some (documents_processed self)) (Some true),
             self, (calls ++ [build_agent_call])%list)
        end
  end.

Definition rebuild_vector_store (self : t) : Result.t * t * list Call :=
  let calls0 :=
    if Py.is_some (vector_store.vector_store (vector_store self))
    then [delete_collection_call] else [] in
  let '(success, self, calls) := _process_documents self in
  if success then
    match agent_constructor with
    | Raises e =>
        (Result.mk false None (Some e) None None, self,
         (calls0 ++ calls ++ [build_agent_call])%list)
    | Returns _ =>
        (Result.mk true (Some "Vector store rebuilt successfully") None
           None None,
         set_rag_agent self
           (Some (rag_agent.new GOOGLE_API_KEY OPENAI_API_KEY
                    constructor_raises)),
         (calls0 ++ calls ++ [build_agent_call])%list)
    end
  else
    (Result.mk false None
       (Some "Document processing failed during rebuild") None None,
     self, (calls0 ++ calls)%list).

End Coordinator.

Section Queries.

Variable backend : nat -> LLM -> string -> Outcome string.
Variable CONFIDENCE_THRESHOLD : float.
Variable recursion_limit : nat.
Variable final_state_is_dict : bool.
Variable TOP_K_RETRIEVAL : Z.
Variable chroma_similarity_search :
  vector_store.Chroma -> string -> Z -> Outcome (list Document).

(** The retrieval the coordinator's agent performs (without an agent no
    stage runs and this is never consulted). *)
Definition agent_search (self : t) (query : string)
  : Outcome (list Document) :=
  match rag_agent self with
  | Some a =>
      rag_agent.similarity_search TOP_K_RETRIEVAL chroma_similarity_search
        a query
  | None => Raises ""
  end.

(** [SystemManager.process_query], the agent's retrieval being that of
    its own vector store. *)
Definition process_query (self : t) (query : string) : M QueryResult.t :=
  SystemManager.process_query backend (agent_search self)
    CONFIDENCE_THRESHOLD recursion_limit final_state_is_dict
    (as_manager self) query.

Definition test_query : string :=
  "What is the main topic of these documents?".

Definition test_system (self : t) : M TestResult.t :=
  if negb (is_initialized self) then
    ret (TestResult.mk (Some "System not initialized") None None None)
  else
    result <- process_query self test_query ;;
    ret (TestResult.mk None (Some test_query) (Some result)
           (Some (QueryResult.success result))).

End Queries.

Section Status.

Variable DATA_DIR VECTOR_STORE_DIR : string.
Variable CHUNK_SIZE CHUNK_OVERLAP TOP_K_RETRIEVAL : Z.
Variable CONFIDENCE_THRESHOLD : float.
Variable EMBEDDING_MODEL : string.
Variable DEFAULT_MODEL FALLBACK_MODEL OLLAMA_MODEL OLLAMA_BASE_URL : string.
Variable count : vector_store.Chroma -> Outcome Z.
Variable embed_query : string -> Outcome (list float).

(** [SystemManager.get_system_status] *)
Definition get_system_status (self : t) : Py.dict Value :=
  let status :=
    [("system_initialized", VBool (is_initialized self));
     ("documents_processed", VBool (documents_processed self));
     ("config",
      VDict [("data_directory", VStr DATA_DIR);
             ("vector_store_directory", VStr VECTOR_STORE_DIR);
             ("chunk_size", VInt CHUNK_SIZE);
             ("chunk_overlap", VInt CHUNK_OVERLAP);
             ("top_k_retrieval", VInt TOP_K_RETRIEVAL);
             ("confidence_threshold", VFloat CONFIDENCE_THRESHOLD)])] in
  if is_initialized self then
    match rag_agent self with
    | Some a =>
        PyStr.update status
          (rag_agent.get_system_status CHUNK_SIZE CHUNK_OVERLAP
             TOP_K_RETRIEVAL CONFIDENCE_THRESHOLD EMBEDDING_MODEL
             DEFAULT_MODEL FALLBACK_MODEL OLLAMA_MODEL OLLAMA_BASE_URL
             count embed_query a)
    | None => status
    end
  else status.

End Status.

End system_manager.

(** ** Reading documents and dictionaries *)

(** How many of the documents name the source (or, naming none, count as
    "unknown"). *)
Definition occurrences (source : string) (documents : list Document) : nat :=
  List.length (filter (fun doc => String.eqb (source_of doc) source) documents).

(** The sum of the counts a dictionary holds. *)
Definition sum_counts (d : Py.dict Z) : Z :=
  fold_right (fun kv acc => (snd kv + acc)%Z) 0%Z d.

(** ** More concrete worlds *)

Module World.

Definition aspirin : Document :=
  mkDocument "Aspirin inhibits platelet aggregation."
    [("source", "pharm.pdf"); ("chunk_id", "0")].

(** An index that answers every query with one chunk. *)
Definition chroma_search
  : vector_store.Chroma -> string -> Z -> Outcome (list Document) :=
  fun _ _ _ => Returns [aspirin].

(** An index whose search fails. *)
Definition chroma_down
  : vector_store.Chroma -> string -> Z -> Outcome (list Document) :=
  fun _ _ _ => Raises "index unavailable".

Definition chroma_scores
  : vector_store.Chroma -> string -> Z -> Outcome (list (Document * float)) :=
  fun _ _ _ => Returns [(aspirin, 0.25%float)].

(** Only the local model answers, and never with a keyword. *)
Definition only_ollama : nat -> LLM -> string -> Outcome string :=
  fun _ llm _ =>
    match llm with
    | ChatOllama => Returns "Take aspirin."
    | _ => Raises "quota exceeded"
    end.

(** A vector store with an index loaded. *)
Definition loaded : vector_store.t :=
  vector_store.mk (Some (vector_store.collection 0)).

(** Two PDF files; the second has a damaged page. *)
Definition pdfs : Outcome (list document_processor.PdfFile) :=
  Returns [document_processor.mkPdf "a.pdf" "Data/a.pdf";
           document_processor.mkPdf "b.pdf" "Data/b.pdf"].

Definition no_pdfs : Outcome (list document_processor.PdfFile) := Returns [].

Definition read_pages (path : string) : Outcome (list (Outcome string)) :=
  if String.eqb path "Data/a.pdf"
  then Returns [Returns " Aspirin"; Returns "inhibits "]
  else Returns [Returns "x"; Raises "damaged page"].

Definition stat_size : string -> Outcome nat := fun _ => Returns 1024.

(** A splitter that cuts every document in two. *)
Definition splitter (doc : Document) : Outcome (list Document) :=
  Returns [mkDocument "Aspirin" (metadata doc);
           mkDocument "inhibits" (metadata doc)].

Definition from_documents : list Document -> Outcome vector_store.Chroma :=
  fun _ => Returns (vector_store.collection 1).

Definition persist : vector_store.Chroma -> Outcome unit :=
  fun _ => Returns tt.

Definition persist_fails : vector_store.Chroma -> Outcome unit :=
  fun _ => Raises "disk full".

Definition count : vector_store.Chroma -> Outcome Z := fun _ => Returns 2%Z.

Definition embed_query : string -> Outcome (list float) :=
  fun _ => Returns [0.1; 0.2; 0.3]%float.

(** A coordinator that is initialised and holds a constructed agent. *)
Definition ready : system_manager.t :=
  system_manager.mk loaded
    (Some (rag_agent.new (Some "g-key") None (fun _ => false))) true true.

End World.

(** * Properties *)

Local Open Scope list_scope.


(** ** The model on small inputs *)

Example lower_example : Py.lower "Good ANSWER" = "good answer"%string.
Proof. reflexivity. Qed.

Example contains_example :
  Py.contains "good" "a good one" = true
  /\ Py.contains "good" "Good" = false
  /\ Py.contains "" "" = true.
Proof. repeat split. Qed.

Example first_keyword_wins :
  RAGAgent.keyword_confidence "Good, with high confidence" = 0.9%float
  /\ RAGAgent.keyword_confidence "Adequate but good" = 0.8%float
  /\ RAGAgent.keyword_confidence "ADEQUATE" = 0.6%float
  /\ RAGAgent.keyword_confidence "7/10" = 0.5%float.
Proof. repeat split. Qed.

Example min_example :
  Py.min 0.95 (0.9 + 0.1) = 0.95%float
  /\ Py.min 0.95 (0.5 + 0.1) = 0.6%float.
Proof. split; reflexivity. Qed.

Example dict_example :
  Py.set (Py.set [("a", 1)] "b" 2) "a" 3 = [("a", 3); ("b", 2)]%string
  /\ Py.get_or [("a", 1)]%string "c" 0 = 0.
Proof. split; reflexivity. Qed.

Example google_only_example :
  Scenario.google_only
  = LLMManager.mk (Some ChatGoogleGenerativeAI) None None
      (Some ChatGoogleGenerativeAI).
Proof. reflexivity. Qed.

(** One chunk is found and the assessment says "Good": the run ends after
    the first evaluation, with the answer and confidence 0.8. *)
Example fast_path_example :
  map (fun c => fst (fst c))
      (RAGAgent.visited (Scenario.always "Good answer") Scenario.one_document
         0.7%float (RAGAgent.mk Scenario.all_three) 25 RAGAgent.retrieve
         (RAGAgent.initial_state "q") [])
  = [RAGAgent.retrieve; RAGAgent.analyze; RAGAgent.generate;
     RAGAgent.evaluate; RAGAgent.END]
  /\ QueryResult.response
       (fst (RAGAgent.process_query (Scenario.always "Good answer")
               Scenario.one_document 0.7%float 25 true
               (RAGAgent.mk Scenario.all_three) "q" []))
     = Some "Good answer"%string.
Proof. split; vm_compute; reflexivity. Qed.

(** Every backend is down and the engine allows eight supersteps: the
    counter the nodes see stays at 0, and the run goes round between
    [evaluate] and [improve] until the engine stops it. *)
Example exhausted_example :
  map (fun c => (fst (fst c), RAGAgent.improvement_count (snd (fst c))))
      (RAGAgent.visited Scenario.all_down Scenario.one_document
         0.7%float (RAGAgent.mk Scenario.all_three) 8 RAGAgent.retrieve
         (RAGAgent.initial_state "q") [])
  = [(RAGAgent.retrieve, 0); (RAGAgent.analyze, 0); (RAGAgent.generate, 0);
     (RAGAgent.evaluate, 0); (RAGAgent.improve, 0); (RAGAgent.evaluate, 0);
     (RAGAgent.improve, 0); (RAGAgent.evaluate, 0); (RAGAgent.improve, 0)]%Z
  /\ Py.raised
       (fst (RAGAgent.invoke_from Scenario.all_down Scenario.one_document
               0.7%float (RAGAgent.mk Scenario.all_three) 8 RAGAgent.retrieve
               (RAGAgent.initial_state "q") []))
     = true.
Proof. split; vm_compute; reflexivity. Qed.

(** ** The fallback-aware generator *)

Section GenerationFacts.

Variable backend : nat -> LLM -> string -> Outcome string.

Lemma raised_true {A} (o : Outcome A) :
  Py.raised o = true -> exists e, o = Raises e.
Proof. destruct o as [a | e]; [discriminate | eauto]. Qed.

Lemma try_fallbacks_first_success (prompt : string) :
  forall l i log name llm text,
    nth_error l i = Some (name, llm) ->
    (forall j nm lj, j < i -> nth_error l j = Some (nm, lj) ->
       Py.raised (backend (List.length log + j) lj prompt) = true) ->
    backend (List.length log + i) llm prompt = Returns text ->
    LLMManager.try_fallbacks backend prompt l log
    = (LLMResult.ok text ("fallback-" ++ name)%string,
       log ++ invocations prompt (firstn (S i) l)).
Proof.
  induction l as [| [nm0 l0] l IH]; intros i log name llm text Hn Hprev Hok.
  - destruct i; discriminate.
  - destruct i as [| i]; simpl in Hn.
    + injection Hn as -> ->. rewrite Nat.add_0_r in Hok.
      cbn [LLMManager.try_fallbacks]. unfold bind, LLMManager.invoke.
      rewrite Hok. reflexivity.
    + assert (H0 := Hprev 0 nm0 l0 (Nat.lt_0_succ i) eq_refl).
      rewrite Nat.add_0_r in H0. apply raised_true in H0 as [e He].
      cbn [LLMManager.try_fallbacks]. unfold bind, LLMManager.invoke.
      rewrite He.
      rewrite (IH i (log ++ [Invoke l0 prompt]) name llm text Hn).
      * cbn [firstn invocations map snd]. now rewrite <- app_assoc.
      * intros j nm lj Hj Hnth. rewrite length_app. cbn [length].
        replace (List.length log + 1 + j) with (List.length log + S j) by lia.
        apply (Hprev (S j) nm lj); [lia | exact Hnth].
      * rewrite length_app. cbn [length].
        now replace (List.length log + 1 + i) with (List.length log + S i) by lia.
Qed.

Lemma try_fallbacks_all_fail (prompt : string) :
  forall l log,
    (forall j nm lj, nth_error l j = Some (nm, lj) ->
       Py.raised (backend (List.length log + j) lj prompt) = true) ->
    LLMManager.try_fallbacks backend prompt l log
    = (LLMResult.failed "All LLM providers failed",
       log ++ invocations prompt l).
Proof.
  induction l as [| [nm0 l0] l IH]; intros log Hall.
  - cbn. now rewrite app_nil_r.
  - assert (H0 := Hall 0 nm0 l0 eq_refl).
    rewrite Nat.add_0_r in H0. apply raised_true in H0 as [e He].
    cbn [LLMManager.try_fallbacks]. unfold bind, LLMManager.invoke.
    rewrite He. rewrite IH.
    + cbn [invocations map snd]. now rewrite <- app_assoc.
    + intros j nm lj Hnth. rewrite length_app. cbn [length].
      replace (List.length log + 1 + j) with (List.length log + S j) by lia.
      now apply (Hall (S j) nm lj).
Qed.

Lemma try_fallbacks_failed_inv (prompt : string) :
  forall l log,
    LLMResult.success (fst (LLMManager.try_fallbacks backend prompt l log))
    = false ->
    forall j nm lj, nth_error l j = Some (nm, lj) ->
      Py.raised (backend (List.length log + j) lj prompt) = true.
Proof.
  induction l as [| [nm0 l0] l IH]; intros log Hfail j nm lj Hnth.
  - destruct j; discriminate.
  - cbn [LLMManager.try_fallbacks] in Hfail.
    unfold bind, LLMManager.invoke in Hfail.
    destruct (backend (List.length log) l0 prompt) as [text | e] eqn:E.
    + discriminate Hfail.
    + destruct j as [| j]; simpl in Hnth.
      * injection Hnth as <- <-. now rewrite Nat.add_0_r, E.
      * specialize (IH _ Hfail j nm lj Hnth).
        rewrite length_app in IH. cbn [length] in IH.
        now replace (List.length log + S j) with (List.length log + 1 + j) by lia.
Qed.

(** A successful generation always carries its text. *)
Lemma try_fallbacks_success_text (prompt : string) :
  forall l log,
    LLMResult.success (fst (LLMManager.try_fallbacks backend prompt l log))
    = true ->
    exists text,
      LLMResult.response (fst (LLMManager.try_fallbacks backend prompt l log))
      = Some text.
Proof.
  induction l as [| [nm0 l0] l IH]; intros log Hs.
  - discriminate Hs.
  - cbn [LLMManager.try_fallbacks] in *.
    unfold bind, LLMManager.invoke in *.
    destruct (backend (List.length log) l0 prompt) as [text | e].
    + now exists text.
    + now apply IH.
Qed.

Lemma generate_response_success_text (m : LLMManager.t) prompt provider log :
  LLMResult.success
    (fst (LLMManager.generate_response backend m prompt provider log)) = true ->
  exists text,
    LLMResult.response
      (fst (LLMManager.generate_response backend m prompt provider log))
    = Some text.
Proof.
  unfold LLMManager.generate_response.
  destruct (LLMManager.get_llm m provider) as [llm |]; [| discriminate].
  unfold bind, LLMManager.invoke.
  destruct (backend (List.length log) llm prompt) as [text | e].
  - now exists text.
  - apply try_fallbacks_success_text.
Qed.

(** One entry of the fallback list. *)
Lemma in_slot (provider key name : string) (slot : option LLM) (llm : LLM) :
  In (name, llm)
     (if negb (String.eqb provider key) then
        match slot with Some l => [(key, l)] | None => [] end
      else [])
  <-> name <> provider /\ name = key /\ slot = Some llm.
Proof.
  destruct (String.eqb_spec provider key) as [-> | Hne]; cbn.
  - split; [intros [] | intros (H1 & H2 & _); now contradiction H1].
  - destruct slot as [l |]; cbn.
    + split.
      * intros [H | []]. injection H as <- <-.
        repeat split. intros ->. now contradiction Hne.
      * intros (_ & -> & H). injection H as ->. now left.
    + split; [intros [] | intros (_ & _ & H); discriminate H].
Qed.

(** The fallback list holds the configured models whose name is not the
    selector, in the order Google, OpenAI, Ollama. *)
Lemma fallback_providers_spec (m : LLMManager.t) (provider : string) :
  (forall name llm,
      In (name, llm) (LLMManager.fallback_providers m provider)
      <-> name <> provider
          /\ ((name = "google"%string /\ LLMManager.google_llm m = Some llm)
              \/ (name = "openai"%string
                  /\ LLMManager.openai_llm m = Some llm)
              \/ (name = "ollama"%string
                  /\ LLMManager.ollama_llm m = Some llm)))
  /\ exists keep,
       map fst (LLMManager.fallback_providers m provider)
       = filter keep ["google"; "openai"; "ollama"]%string.
Proof.
  split.
  - intros name llm. unfold LLMManager.fallback_providers.
    rewrite !in_app_iff, !in_slot. tauto.
  - exists (fun n =>
              if String.eqb n "google" then
                (negb (String.eqb provider "google")
                 && Py.is_some (LLMManager.google_llm m))%bool
              else if String.eqb n "openai" then
                (negb (String.eqb provider "openai")
                 && Py.is_some (LLMManager.openai_llm m))%bool
              else
                (negb (String.eqb provider "ollama")
                 && Py.is_some (LLMManager.ollama_llm m))%bool).
    unfold LLMManager.fallback_providers.
    cbn [filter String.eqb Ascii.eqb Bool.eqb].
    destruct (String.eqb provider "google"), (String.eqb provider "openai"),
      (String.eqb provider "ollama"), (LLMManager.google_llm m),
      (LLMManager.openai_llm m), (LLMManager.ollama_llm m); reflexivity.
Qed.

(** C4. Once the selector resolves to a primary model: a primary success
    is returned at once and is the only invocation; after a primary
    failure the fallbacks are tried in order, and the first that answers
    is returned, tagged [fallback-<name>]; if the primary and every
    fallback raise, the result is the failure "All LLM providers
    failed"; and a failed result arises in no other way. The fallbacks
    are the configured models whose name is not the selector, in the
    order Google, OpenAI, Ollama: for a selector by name these are the
    other providers, for "auto" every configured model. *)
Theorem generate_response_outcomes :
  forall (m : LLMManager.t) (prompt provider : string) (log : Log) (p : LLM),
    LLMManager.get_llm m provider = Some p ->
    let fallbacks := LLMManager.fallback_providers m provider in
    let result := LLMManager.generate_response backend m prompt provider log in
    (forall name llm,
        In (name, llm) fallbacks
        <-> name <> provider
            /\ ((name = "google"%string
                 /\ LLMManager.google_llm m = Some llm)
                \/ (name = "openai"%string
                    /\ LLMManager.openai_llm m = Some llm)
                \/ (name = "ollama"%string
                    /\ LLMManager.ollama_llm m = Some llm)))
    /\ (exists keep,
           map fst fallbacks = filter keep ["google"; "openai"; "ollama"]%string)
    /\ (forall text,
        backend (List.length log) p prompt = Returns text ->
        LLMResult.success (fst result) = true
        /\ LLMResult.response (fst result) = Some text
        /\ snd result = log ++ [Invoke p prompt])
    /\ (forall i name llm text,
           Py.raised (backend (List.length log) p prompt) = true ->
           nth_error fallbacks i = Some (name, llm) ->
           (forall j nm lj, j < i -> nth_error fallbacks j = Some (nm, lj) ->
              Py.raised (backend (List.length log + 1 + j) lj prompt) = true) ->
           backend (List.length log + 1 + i) llm prompt = Returns text ->
           fst result = LLMResult.ok text ("fallback-" ++ name)%string
           /\ snd result
              = log ++ Invoke p prompt
                       :: invocations prompt (firstn (S i) fallbacks))
    /\ (Py.raised (backend (List.length log) p prompt) = true ->
        (forall j nm lj, nth_error fallbacks j = Some (nm, lj) ->
           Py.raised (backend (List.length log + 1 + j) lj prompt) = true) ->
        fst result = LLMResult.failed "All LLM providers failed")
    /\ (LLMResult.success (fst result) = false ->
        Py.raised (backend (List.length log) p prompt) = true
        /\ (forall j nm lj, nth_error fallbacks j = Some (nm, lj) ->
              Py.raised (backend (List.length log + 1 + j) lj prompt) = true)
        /\ fst result = LLMResult.failed "All LLM providers failed").
Proof.
  intros m prompt provider log p Hp fallbacks result.
  assert (Hlen : List.length (log ++ [Invoke p prompt]) = List.length log + 1)
    by (rewrite length_app; reflexivity).
  assert (Hfail : Py.raised (backend (List.length log) p prompt) = true ->
                  result = LLMManager.try_fallbacks backend prompt fallbacks
                             (log ++ [Invoke p prompt])).
  { intros Hr. apply raised_true in Hr as [e He].
    unfold result, LLMManager.generate_response.
    rewrite Hp. unfold bind, LLMManager.invoke. now rewrite He. }
  split; [exact (proj1 (fallback_providers_spec m provider)) |].
  split; [exact (proj2 (fallback_providers_spec m provider)) |].
  repeat split.
  - unfold result, LLMManager.generate_response.
    rewrite Hp. unfold bind, LLMManager.invoke. now rewrite H.
  - unfold result, LLMManager.generate_response.
    rewrite Hp. unfold bind, LLMManager.invoke. now rewrite H.
  - unfold result, LLMManager.generate_response.
    rewrite Hp. unfold bind, LLMManager.invoke. now rewrite H.
  - rewrite (Hfail H).
    rewrite (try_fallbacks_first_success prompt fallbacks i _ name llm text);
      rewrite ?Hlen; auto.
  - rewrite (Hfail H).
    rewrite (try_fallbacks_first_success prompt fallbacks i _ name llm text);
      rewrite ?Hlen; auto.
    cbn [snd]. now rewrite <- app_assoc.
  - intros Hr Hall. rewrite (Hfail Hr).
    rewrite try_fallbacks_all_fail; [reflexivity |].
    intros j nm lj Hnth. rewrite Hlen. now apply (Hall j nm lj).
  - destruct (backend (List.length log) p prompt) as [text | e] eqn:E;
      [| reflexivity].
    unfold result, LLMManager.generate_response in H.
    rewrite Hp in H. unfold bind, LLMManager.invoke in H.
    rewrite E in H. discriminate H.
  - assert (Hr : Py.raised (backend (List.length log) p prompt) = true).
    { destruct (backend (List.length log) p prompt) as [text | e] eqn:E;
        [| reflexivity].
      unfold result, LLMManager.generate_response in H.
      rewrite Hp in H. unfold bind, LLMManager.invoke in H.
      rewrite E in H. discriminate H. }
    rewrite (Hfail Hr) in H. intros j nm lj Hnth.
    rewrite <- Hlen. now apply (try_fallbacks_failed_inv prompt fallbacks _ H j nm).
  - assert (Hr : Py.raised (backend (List.length log) p prompt) = true).
    { destruct (backend (List.length log) p prompt) as [text | e] eqn:E;
        [| reflexivity].
      unfold result, LLMManager.generate_response in H.
      rewrite Hp in H. unfold bind, LLMManager.invoke in H.
      rewrite E in H. discriminate H. }
    rewrite (Hfail Hr) in *.
    rewrite try_fallbacks_all_fail; [reflexivity |].
    intros j nm lj Hnth. now apply (try_fallbacks_failed_inv prompt fallbacks _ H j nm).
Qed.

End GenerationFacts.

(** A witness of [generate_response_outcomes]: Google is down, so the
    "auto" request is answered by the OpenAI fallback. *)
Lemma generate_response_outcomes_witness :
  fst (LLMManager.generate_response Scenario.google_down Scenario.all_three
         "p" "auto" [])
  = LLMResult.ok "from openai" "fallback-openai".
Proof.
  refine (proj1 (proj1 (proj2 (proj2 (proj2
            (generate_response_outcomes Scenario.google_down Scenario.all_three
               "p" "auto" [] ChatGoogleGenerativeAI eq_refl))))
            1 "openai" ChatOpenAI "from openai" eq_refl eq_refl _ eq_refl)).
  intros j nm lj Hj Hnth.
  destruct j as [| j]; [| lia].
  injection Hnth as <- <-. reflexivity.
Defined.

(** C2. With the "auto" selector the fallback list is built from the
    selector's name, not from the model it resolved to: the model just
    tried is tried again. Here only Google is configured and it is down. *)
Theorem auto_selector_retries_primary :
  forall (prompt : string) (log : Log),
    LLMManager.get_llm Scenario.google_only "auto" = Some ChatGoogleGenerativeAI
    /\ map snd (LLMManager.fallback_providers Scenario.google_only "auto")
       = [ChatGoogleGenerativeAI]
    /\ Spec.fallback_order Scenario.google_only ChatGoogleGenerativeAI = []
    /\ LLMManager.generate_response Scenario.all_down Scenario.google_only
         prompt "auto" log
       = (LLMResult.failed "All LLM providers failed",
          log ++ [Invoke ChatGoogleGenerativeAI prompt;
                  Invoke ChatGoogleGenerativeAI prompt]).
Proof.
  intros prompt log. repeat split.
  unfold LLMManager.generate_response, bind, LLMManager.invoke. cbn.
  now rewrite <- app_assoc.
Qed.

(** For a provider requested by name the code does build the
    specification's fallback order: the other configured models. *)
Lemma named_provider_fallbacks :
  forall (G O : option string) (raises : LLM -> bool) (provider : string) (p : LLM),
    let m := LLMManager.new G O raises in
    In provider ["google"; "openai"; "ollama"]%string ->
    LLMManager.get_llm m provider = Some p ->
    map snd (LLMManager.fallback_providers m provider) = Spec.fallback_order m p
    /\ ~ In p (map snd (LLMManager.fallback_providers m provider)).
Proof.
  intros G O raises provider p m Hin.
  unfold m, LLMManager.new, LLMManager.initialize_llms, LLMManager.init_google,
    LLMManager.init_openai, LLMManager.init_ollama, LLMManager.init_except.
  destruct (Py.truthy_opt G), (Py.truthy_opt O),
    (raises ChatGoogleGenerativeAI), (raises ChatOpenAI), (raises ChatOllama);
    destruct Hin as [<- | [<- | [<- | []]]]; cbn; intros Hp;
    try discriminate Hp; injection Hp as <-; cbn;
    (split; [reflexivity | intuition discriminate]).
Qed.

(** C10. Both keys are set and building the OpenAI client raises: Google
    was built and answers to its name, yet the handler's
    [openai_llm or ollama_llm] leaves "auto" unresolved, and generation
    fails without a single backend call. *)
Theorem auto_unresolved_with_google_available :
  forall (backend : nat -> LLM -> string -> Outcome string)
         (prompt : string) (log : Log),
    let m := Scenario.openai_constructor_fails in
    LLMManager.google_llm m = Some ChatGoogleGenerativeAI
    /\ LLMManager.get_llm m "google" = Some ChatGoogleGenerativeAI
    /\ LLMManager.current_llm m = None
    /\ LLMManager.get_llm m "auto" = None
    /\ LLMManager.generate_response backend m prompt "auto" log
       = (LLMResult.failed "No LLM available", log).
Proof. intros backend prompt log. repeat split. Qed.

(** When no guarded constructor raises, "auto" is the first model built,
    in the order Google, OpenAI, Ollama. *)
Lemma auto_resolves_first_available :
  forall (G O : option string) (raises : LLM -> bool),
    raises ChatGoogleGenerativeAI = false ->
    raises ChatOpenAI = false ->
    let m := LLMManager.new G O raises in
    LLMManager.get_llm m "auto"
    = Py.or_ (Py.or_ (LLMManager.google_llm m) (LLMManager.openai_llm m))
             (LLMManager.ollama_llm m).
Proof.
  intros G O raises HG HO m.
  unfold m, LLMManager.new, LLMManager.initialize_llms, LLMManager.init_google,
    LLMManager.init_openai, LLMManager.init_ollama.
  rewrite HG, HO.
  now destruct (Py.truthy_opt G), (Py.truthy_opt O), (raises ChatOllama).
Qed.

(** A provider requested by name that was not built resolves to nothing. *)
Lemma unconfigured_provider_unresolved :
  forall (m : LLMManager.t),
    (LLMManager.google_llm m = None -> LLMManager.get_llm m "google" = None)
    /\ (LLMManager.openai_llm m = None -> LLMManager.get_llm m "openai" = None)
    /\ (LLMManager.ollama_llm m = None -> LLMManager.get_llm m "ollama" = None).
Proof.
  intros m. unfold LLMManager.get_llm.
  repeat split; intros ->; cbn;
    now destruct (LLMManager.google_llm m), (LLMManager.openai_llm m),
      (LLMManager.ollama_llm m).
Qed.

(** An unresolved selector fails at once, the log untouched. *)
Lemma unresolved_fails_immediately :
  forall (backend : nat -> LLM -> string -> Outcome string)
         (m : LLMManager.t) (prompt provider : string) (log : Log),
    LLMManager.get_llm m provider = None ->
    LLMManager.generate_response backend m prompt provider log
    = (LLMResult.failed "No LLM available", log).
Proof.
  intros backend m prompt provider log H.
  unfold LLMManager.generate_response. now rewrite H.
Qed.

(** ** The workflow state machine *)

(** Unfold a stage down to its generation call and split on every test. *)
Ltac stage_cases :=
  unfold RAGAgent._retrieve_documents, RAGAgent._analyze_query,
    RAGAgent._generate_response, RAGAgent._evaluate_response,
    RAGAgent._improve_response, RAGAgent.search,
    LLMManager.generate_medical_response,
    LLMManager.evaluate_response_quality, bind, ret;
  repeat match goal with
    | |- context [let (_, _) := ?c in _] => destruct c eqn:?
    | |- context [if ?b then _ else _] => destruct b eqn:?
    | |- context [match ?x with _ => _ end] => destruct x eqn:?
    end.

Section WorkflowFacts.

Variable backend : nat -> LLM -> string -> Outcome string.
Variable similarity_search : string -> Outcome (list Document).
Variable CONFIDENCE_THRESHOLD : float.
Variable self : RAGAgent.t.

Local Abbreviation _retrieve_documents :=
  (RAGAgent._retrieve_documents similarity_search).
Local Abbreviation _analyze_query := (RAGAgent._analyze_query backend self).
Local Abbreviation _generate_response :=
  (RAGAgent._generate_response backend self).
Local Abbreviation _evaluate_response :=
  (RAGAgent._evaluate_response backend self).
Local Abbreviation _improve_response :=
  (RAGAgent._improve_response backend self).
Local Abbreviation _should_improve :=
  (RAGAgent._should_improve CONFIDENCE_THRESHOLD).
Local Abbreviation superstep :=
  (RAGAgent.superstep backend similarity_search CONFIDENCE_THRESHOLD self).
Local Abbreviation invoke_from :=
  (RAGAgent.invoke_from backend similarity_search CONFIDENCE_THRESHOLD self).
Local Abbreviation visited :=
  (RAGAgent.visited backend similarity_search CONFIDENCE_THRESHOLD self).

(** *** The stages leave the attempt counter alone *)

Lemma retrieve_keeps_count s log :
  RAGAgent.improvement_count (fst (_retrieve_documents s log))
  = RAGAgent.improvement_count s.
Proof. stage_cases; reflexivity. Qed.

Lemma analyze_keeps_count s log :
  RAGAgent.improvement_count (fst (_analyze_query s log))
  = RAGAgent.improvement_count s.
Proof. stage_cases; reflexivity. Qed.

Lemma generate_keeps_count s log :
  RAGAgent.improvement_count (fst (_generate_response s log))
  = RAGAgent.improvement_count s.
Proof. stage_cases; reflexivity. Qed.

Lemma evaluate_keeps_count s log :
  RAGAgent.improvement_count (fst (_evaluate_response s log))
  = RAGAgent.improvement_count s.
Proof. stage_cases; reflexivity. Qed.

Lemma improve_keeps_count s log :
  RAGAgent.improvement_count (fst (_improve_response s log))
  = RAGAgent.improvement_count s.
Proof. stage_cases; reflexivity. Qed.

(** *** The branch decision *)

Lemma should_improve_cases s :
  (_should_improve s
   = ("improve"%string,
      RAGAgent.set_improvement_count s (RAGAgent.improvement_count s + 1))
   /\ (RAGAgent.improvement_count s < 3)%Z
   /\ PrimFloat.ltb (RAGAgent.confidence s) CONFIDENCE_THRESHOLD = true)
  \/ (_should_improve s = ("end"%string, s)
      /\ ((3 <= RAGAgent.improvement_count s)%Z
          \/ PrimFloat.ltb (RAGAgent.confidence s) CONFIDENCE_THRESHOLD
             = false)).
Proof.
  unfold RAGAgent._should_improve.
  destruct (Z.leb_spec 3 (RAGAgent.improvement_count s)).
  - right. auto.
  - destruct (PrimFloat.ltb _ _) eqn:E; [left | right]; auto.
Qed.

(** The superstep out of [evaluate], spelled out. *)
Lemma superstep_evaluate s log :
  superstep RAGAgent.evaluate s log
  = let s1 := fst (_evaluate_response s log) in
    let log1 := snd (_evaluate_response s log) in
    if (3 <=? RAGAgent.improvement_count s1)%Z
    then (Returns (RAGAgent.END, s1), log1)
    else if PrimFloat.ltb (RAGAgent.confidence s1) CONFIDENCE_THRESHOLD
    then (Returns (RAGAgent.improve, s1), log1)
    else (Returns (RAGAgent.END, s1), log1).
Proof.
  unfold RAGAgent.superstep, bind.
  destruct (_evaluate_response s log) as [s1 log1]. cbn [fst snd].
  unfold RAGAgent._should_improve.
  destruct (3 <=? RAGAgent.improvement_count s1)%Z; [reflexivity |].
  destruct (PrimFloat.ltb _ _); reflexivity.
Qed.

(** The fixed edges, spelled out. *)
Lemma superstep_retrieve s log :
  superstep RAGAgent.retrieve s log
  = (Returns (RAGAgent.analyze, fst (_retrieve_documents s log)),
     snd (_retrieve_documents s log)).
Proof.
  unfold RAGAgent.superstep, bind.
  now destruct (_retrieve_documents s log).
Qed.

Lemma superstep_analyze s log :
  superstep RAGAgent.analyze s log
  = (Returns (RAGAgent.generate, fst (_analyze_query s log)),
     snd (_analyze_query s log)).
Proof.
  unfold RAGAgent.superstep, bind. now destruct (_analyze_query s log).
Qed.

Lemma superstep_generate s log :
  superstep RAGAgent.generate s log
  = (Returns (RAGAgent.evaluate, fst (_generate_response s log)),
     snd (_generate_response s log)).
Proof.
  unfold RAGAgent.superstep, bind. now destruct (_generate_response s log).
Qed.

Lemma superstep_improve s log :
  superstep RAGAgent.improve s log
  = (Returns (RAGAgent.evaluate, fst (_improve_response s log)),
     snd (_improve_response s log)).
Proof.
  unfold RAGAgent.superstep, bind. now destruct (_improve_response s log).
Qed.

(** *** Invariants of a run *)

(** A property of configurations kept by every superstep holds of every
    configuration a run passes through. *)
Lemma visited_invariant (P : RAGAgent.Node -> RAGAgent.AgentState -> Log -> Prop) :
  (forall n s log n' s' log',
      P n s log -> n <> RAGAgent.END ->
      superstep n s log = (Returns (n', s'), log') -> P n' s' log') ->
  forall fuel n s log,
    P n s log ->
    Forall (fun c => P (fst (fst c)) (snd (fst c)) (snd c))
           (visited fuel n s log).
Proof.
  intros Hstep. induction fuel as [| fuel IH]; intros n s log HP.
  - destruct n; cbn; repeat constructor; exact HP.
  - destruct n; cbn [RAGAgent.visited]; constructor; try exact HP;
      try constructor;
      match goal with
      | |- context [superstep ?n s log] =>
          destruct (superstep n s log) as [[[n' s'] | e] log'] eqn:E;
          [ apply IH; apply (Hstep n s log n' s' log' HP);
            [discriminate | exact E]
          | constructor ]
      end.
Qed.

(** The outcome of a run is a configuration it passed through. *)
Lemma invoke_from_visited :
  forall fuel n s log final log',
    invoke_from fuel n s log = (Returns final, log') ->
    In (RAGAgent.END, final, log') (visited fuel n s log).
Proof.
  induction fuel as [| fuel IH]; intros n s log final log' H.
  - destruct n; cbn in H; try discriminate H.
    injection H as <- <-. now left.
  - destruct n; cbn [RAGAgent.invoke_from] in H; unfold bind in H;
      cbn [RAGAgent.visited];
      try (injection H as <- <-; now left);
      right;
      match type of H with
      | context [superstep ?n s log] =>
          destruct (superstep n s log) as [[[n' s'] | e] l1] eqn:E;
          [ now apply IH | discriminate H ]
      end.
Qed.

(** *** Confidence along a run *)

Lemma retrieve_keeps_confidence s log :
  RAGAgent.confidence (fst (_retrieve_documents s log))
  = RAGAgent.confidence s.
Proof. stage_cases; reflexivity. Qed.

Lemma analyze_keeps_confidence s log :
  RAGAgent.confidence (fst (_analyze_query s log)) = RAGAgent.confidence s.
Proof. stage_cases; reflexivity. Qed.

Lemma generate_confidence s log :
  RAGAgent.confidence (fst (_generate_response s log)) = 0.8%float
  \/ RAGAgent.confidence (fst (_generate_response s log))
     = RAGAgent.confidence s.
Proof. stage_cases; cbn; auto. Qed.

Lemma keyword_confidence_values a :
  In (RAGAgent.keyword_confidence a) [0.9; 0.8; 0.6; 0.5]%float.
Proof.
  unfold RAGAgent.keyword_confidence.
  destruct (Py.contains "confidence" _); [now left |].
  destruct (Py.contains "good" _); [now right; left |].
  destruct (Py.contains "adequate" _); [now right; right; left |].
  now right; right; right; left.
Qed.

Lemma evaluate_confidence s log :
  In (RAGAgent.confidence (fst (_evaluate_response s log)))
     [0.9; 0.8; 0.6; 0.5]%float
  \/ RAGAgent.confidence (fst (_evaluate_response s log))
     = RAGAgent.confidence s.
Proof.
  unfold RAGAgent._evaluate_response, LLMManager.evaluate_response_quality,
    bind, ret.
  destruct (negb _); [now right |].
  destruct (LLMManager.generate_response _ _ _ _ _) as [r l1].
  destruct (LLMResult.success r) eqn:Hs; cbn; rewrite ?Hs; cbn.
  - destruct (LLMResult.response r); cbn.
    + left. apply keyword_confidence_values.
    + left. now right; right; right; left.
  - left. now right; right; right; left.
Qed.

Lemma improve_confidence s log :
  RAGAgent.confidence (fst (_improve_response s log))
  = Py.min 0.95 (RAGAgent.confidence s + 0.1)
  \/ RAGAgent.confidence (fst (_improve_response s log))
     = RAGAgent.confidence s.
Proof. stage_cases; cbn; auto. Qed.

(** The improve stage's increment keeps a confidence among the listed
    values and never lowers it. *)
Lemma increment_closed c :
  In c RAGAgent.confidence_values ->
  In (Py.min 0.95 (c + 0.1)) RAGAgent.confidence_values
  /\ PrimFloat.leb c (Py.min 0.95 (c + 0.1)) = true
  /\ PrimFloat.leb c c = true.
Proof.
  unfold RAGAgent.confidence_values. cbn [In]. intros H.
  repeat (destruct H as [<- | H]; [vm_compute; intuition |]).
  destruct H.
Qed.

Lemma confidence_in_values :
  forall fuel query log,
    Forall (fun c => In (RAGAgent.confidence (snd (fst c)))
                        RAGAgent.confidence_values)
           (visited fuel RAGAgent.retrieve (RAGAgent.initial_state query) log).
Proof.
  intros fuel query log0.
  apply (visited_invariant
           (fun _ s _ => In (RAGAgent.confidence s)
                            RAGAgent.confidence_values));
    [| now left].
  intros n s log n' s' log' HP Hn E. destruct n.
  - rewrite superstep_retrieve in E. injection E as <- <- <-.
    now rewrite retrieve_keeps_confidence.
  - rewrite superstep_analyze in E. injection E as <- <- <-.
    now rewrite analyze_keeps_confidence.
  - rewrite superstep_generate in E. injection E as <- <- <-.
    destruct (generate_confidence s log) as [-> | ->]; [| exact HP].
    vm_compute. intuition.
  - rewrite superstep_evaluate in E. cbn zeta in E.
    assert (H1 : In (RAGAgent.confidence (fst (_evaluate_response s log)))
                    RAGAgent.confidence_values).
    { destruct (evaluate_confidence s log) as [H | ->]; [| exact HP].
      cbn [In] in H.
      destruct H as [<- | [<- | [<- | [<- | []]]]]; vm_compute; intuition. }
    destruct (3 <=? _)%Z; [injection E as <- <- <-; exact H1 |].
    destruct (PrimFloat.ltb _ _); injection E as <- <- <-; exact H1.
  - rewrite superstep_improve in E. injection E as <- <- <-.
    destruct (improve_confidence s log) as [-> | ->]; [| exact HP].
    now apply increment_closed.
  - now contradiction Hn.
Qed.

(** *** The attempt counter *)

(** The attempt counter of a run never moves: no node assigns it, and
    what the branch function assigns is not handed on. *)
Lemma count_constant :
  forall fuel n s log,
    Forall (fun c => RAGAgent.improvement_count (snd (fst c))
                     = RAGAgent.improvement_count s)
           (visited fuel n s log).
Proof.
  intros fuel n s log.
  apply (visited_invariant
           (fun _ s' _ => RAGAgent.improvement_count s'
                          = RAGAgent.improvement_count s));
    [| reflexivity].
  intros n0 s0 l0 n' s' l' HP Hn E. destruct n0.
  - rewrite superstep_retrieve in E. injection E as <- <- <-.
    now rewrite retrieve_keeps_count.
  - rewrite superstep_analyze in E. injection E as <- <- <-.
    now rewrite analyze_keeps_count.
  - rewrite superstep_generate in E. injection E as <- <- <-.
    now rewrite generate_keeps_count.
  - rewrite superstep_evaluate in E. cbn zeta in E.
    pose proof (evaluate_keeps_count s0 l0) as Hc.
    destruct (3 <=? _)%Z; [injection E as <- <- <-; congruence |].
    destruct (PrimFloat.ltb _ _); injection E as <- <- <-; congruence.
  - rewrite superstep_improve in E. injection E as <- <- <-.
    now rewrite improve_keeps_count.
  - now contradiction Hn.
Qed.

(** C3. The ceiling is lost. The branch function does add one to the
    counter when it answers "improve", and the improve stage leaves the
    counter alone, as the specification has it; but the state the branch
    function updated is not the one the next node receives. The counter is
    therefore 0 at every configuration of every run, the test against 3
    never fires, and the attempts are not bounded by 3: with every
    backend down and 25 supersteps allowed, [improve] is entered eleven
    times. *)
Theorem improvement_count_lost :
  (forall fuel query log,
      Forall (fun c => RAGAgent.improvement_count (snd (fst c)) = 0%Z)
             (visited fuel RAGAgent.retrieve
                (RAGAgent.initial_state query) log))
  /\ (forall s log,
         let s1 := fst (_evaluate_response s log) in
         exists n',
           fst (superstep RAGAgent.evaluate s log) = Returns (n', s1)
           /\ RAGAgent.improvement_count s1 = RAGAgent.improvement_count s
           /\ ((n' = RAGAgent.improve
                /\ fst (_should_improve s1) = "improve"%string
                /\ RAGAgent.improvement_count (snd (_should_improve s1))
                   = (RAGAgent.improvement_count s + 1)%Z)
               \/ (n' = RAGAgent.END
                   /\ fst (_should_improve s1) = "end"%string
                   /\ RAGAgent.improvement_count (snd (_should_improve s1))
                      = RAGAgent.improvement_count s)))
  /\ (forall s log,
         RAGAgent.improvement_count (fst (_improve_response s log))
         = RAGAgent.improvement_count s)
  /\ (let run :=
        RAGAgent.visited Scenario.all_down Scenario.one_document 0.7%float
          (RAGAgent.mk Scenario.all_three) 25 RAGAgent.retrieve
          (RAGAgent.initial_state "q") [] in
      List.length (filter RAGAgent.is_improve run) = 11
      /\ forallb (fun c => (RAGAgent.improvement_count (snd (fst c)) =? 0)%Z)
           run = true).
Proof.
  split; [| split; [| split]].
  - intros fuel query log0.
    exact (count_constant fuel RAGAgent.retrieve
             (RAGAgent.initial_state query) log0).
  - intros s log s1. unfold s1. rewrite superstep_evaluate. cbn zeta.
    pose proof (evaluate_keeps_count s log) as Hc.
    unfold RAGAgent._should_improve.
    destruct (3 <=? _)%Z;
      [eexists; split; [reflexivity | split; [exact Hc | right; auto]] |].
    destruct (PrimFloat.ltb _ _).
    + eexists; split; [reflexivity | split; [exact Hc | left]].
      cbn. rewrite Hc. auto.
    + eexists; split; [reflexivity | split; [exact Hc | right; auto]].
  - apply improve_keeps_count.
  - split; vm_compute; reflexivity.
Qed.

(** C7. When the improvement call succeeds the stage takes its text as
    the response and sets the confidence to [min(0.95, confidence + 0.1)];
    when it fails, response and confidence are what they were; and at
    every entry into [improve] along a run, the confidence after the
    stage is not below the confidence before it. *)
Theorem improve_stage_effect :
  (forall s log,
      let result :=
        fst (LLMManager.generate_response backend (RAGAgent.llm_manager self)
               (RAGAgent.improvement_prompt s) "auto" log) in
      let s' := fst (_improve_response s log) in
      if LLMResult.success result then
        exists text,
          LLMResult.response result = Some text
          /\ RAGAgent.response s' = text
          /\ RAGAgent.confidence s'
             = Py.min 0.95 (RAGAgent.confidence s + 0.1)
      else
        RAGAgent.response s' = RAGAgent.response s
        /\ RAGAgent.confidence s' = RAGAgent.confidence s)
  /\ (forall fuel query log,
         Forall (fun c =>
                   match fst (fst c) with
                   | RAGAgent.improve =>
                       PrimFloat.leb
                         (RAGAgent.confidence (snd (fst c)))
                         (RAGAgent.confidence
                            (fst (_improve_response (snd (fst c)) (snd c))))
                       = true
                   | _ => True
                   end)
                (visited fuel RAGAgent.retrieve
                   (RAGAgent.initial_state query) log)).
Proof.
  split.
  - intros s log result s'.
    pose proof (generate_response_success_text backend
                  (RAGAgent.llm_manager self) (RAGAgent.improvement_prompt s)
                  "auto" log) as Htext.
    fold result in Htext. unfold s', RAGAgent._improve_response, bind, ret.
    change (RAGAgent.improvement_prompt (RAGAgent.set_step s "improve"))
      with (RAGAgent.improvement_prompt s).
    unfold result in *.
    destruct (LLMManager.generate_response _ _ _ _ _) as [r l1].
    cbn [fst] in *.
    destruct (LLMResult.success r).
    + destruct (Htext eq_refl) as [text Ht]. rewrite Ht.
      exists text. cbn. auto.
    + cbn. auto.
  - intros fuel query log0.
    pose proof (confidence_in_values fuel query log0) as Hin.
    apply Forall_forall. intros [[n s] log] Hc.
    rewrite Forall_forall in Hin. specialize (Hin _ Hc).
    cbn [fst snd] in *. destruct n; try exact I.
    destruct (increment_closed _ Hin) as (_ & Hup & Hrefl).
    now destruct (improve_confidence s log) as [-> | ->].
Qed.

(** *** Stages that short-circuit *)

Lemma retrieve_empty s log :
  similarity_search (RAGAgent.query s) = Returns [] ->
  _retrieve_documents s log
  = (RAGAgent.set_error (RAGAgent.set_step s "retrieve")
       "No relevant documents found",
     log ++ [Search (RAGAgent.query s)]).
Proof.
  intros H. unfold RAGAgent._retrieve_documents, bind, RAGAgent.search.
  cbn [RAGAgent.query RAGAgent.set_step]. now rewrite H.
Qed.

Lemma analyze_frame s log :
  let s' := fst (_analyze_query s log) in
  RAGAgent.context s' = RAGAgent.context s
  /\ RAGAgent.response s' = RAGAgent.response s.
Proof. stage_cases; split; reflexivity. Qed.

Lemma generate_no_context s log :
  RAGAgent.context s = ""%string ->
  _generate_response s log
  = (RAGAgent.set_error (RAGAgent.set_step s "generate")
       "No context available for response generation",
     log).
Proof.
  intros H. unfold RAGAgent._generate_response.
  cbn [RAGAgent.context RAGAgent.set_step]. now rewrite H.
Qed.

Lemma evaluate_no_response s log :
  RAGAgent.response s = ""%string ->
  _evaluate_response s log
  = (RAGAgent.set_error (RAGAgent.set_step s "evaluate")
       "No response to evaluate",
     log).
Proof.
  intros H. unfold RAGAgent._evaluate_response.
  cbn [RAGAgent.response RAGAgent.set_step]. now rewrite H.
Qed.

Lemma evaluate_error s log :
  RAGAgent.error (fst (_evaluate_response s log)) = RAGAgent.error s
  \/ RAGAgent.error (fst (_evaluate_response s log))
     = "No response to evaluate"%string.
Proof.
  unfold RAGAgent._evaluate_response, LLMManager.evaluate_response_quality,
    bind, ret.
  destruct (negb _); [now right |].
  match goal with
  | |- context [LLMManager.generate_response backend ?m ?p ?a ?l] =>
      pose proof (generate_response_success_text backend m p a l) as Htext;
      destruct (LLMManager.generate_response backend m p a l) as [r l1]
  end.
  cbn [fst] in Htext.
  destruct (LLMResult.success r) eqn:Hs; cbn; rewrite ?Hs; cbn.
  - destruct (Htext eq_refl) as [text ->]. now left.
  - now left.
Qed.

Lemma improve_keeps_error s log :
  RAGAgent.error (fst (_improve_response s log)) = RAGAgent.error s.
Proof.
  unfold RAGAgent._improve_response, bind, ret.
  match goal with
  | |- context [LLMManager.generate_response backend ?m ?p ?a ?l] =>
      pose proof (generate_response_success_text backend m p a l) as Htext;
      destruct (LLMManager.generate_response backend m p a l) as [r l1]
  end.
  cbn [fst] in Htext.
  destruct (LLMResult.success r).
  - now destruct (Htext eq_refl) as [text ->].
  - reflexivity.
Qed.

(** C9. When retrieval finds nothing and the threshold is positive, the
    fifth configuration of the run is an entry into [improve] with an
    empty response: nothing on the way from [evaluate] to [improve]
    looks at the response. *)
Theorem improve_entered_without_response :
  forall (query : string) (fuel : nat) (log0 : Log),
    similarity_search query = Returns [] ->
    PrimFloat.ltb 0.0 CONFIDENCE_THRESHOLD = true ->
    4 <= fuel ->
    exists s log,
      nth_error (visited fuel RAGAgent.retrieve
                   (RAGAgent.initial_state query) log0) 4
      = Some (RAGAgent.improve, s, log)
      /\ RAGAgent.response s = ""%string.
Proof.
  intros query fuel log0 Hsearch Hthr Hfuel.
  do 4 (destruct fuel as [| fuel]; [lia |]).
  cbn [RAGAgent.visited nth_error].
  rewrite superstep_retrieve,
    (retrieve_empty (RAGAgent.initial_state query) log0 Hsearch).
  cbn [fst snd].
  rewrite superstep_analyze.
  set (s1 := RAGAgent.set_error _ _).
  set (s2 := fst (_analyze_query s1 _)).
  set (l2 := snd (_analyze_query s1 _)).
  assert (H2 : RAGAgent.context s2 = ""%string
               /\ RAGAgent.response s2 = ""%string
               /\ RAGAgent.confidence s2 = 0.0%float
               /\ RAGAgent.improvement_count s2 = 0%Z).
  { unfold s2.
    match goal with
    | |- context [_analyze_query s1 ?l] =>
        destruct (analyze_frame s1 l) as [Hc Hr]
    end.
    rewrite Hc, Hr, analyze_keeps_confidence, analyze_keeps_count.
    repeat split. }
  destruct H2 as (Hc2 & Hr2 & Hf2 & Hn2).
  rewrite superstep_generate, (generate_no_context s2 l2 Hc2). cbn [fst snd].
  rewrite superstep_evaluate. cbn zeta.
  rewrite evaluate_no_response by exact Hr2. cbn [fst snd].
  cbn [RAGAgent.improvement_count RAGAgent.confidence RAGAgent.set_error
         RAGAgent.set_step].
  rewrite Hn2, Hf2, Hthr. cbn [Z.leb Z.compare].
  destruct fuel; eexists _, _; (split; [reflexivity | exact Hr2]).
Qed.

(** C6, as the code has it. With a response to assess: when the
    evaluation call succeeds, the confidence is read off the lowered
    assessment by the first keyword found, "confidence" giving 0.9,
    "good" 0.8, "adequate" 0.6 and none of them 0.5; when it fails, the
    confidence is 0.5. Without a response the stage records
    "No response to evaluate", keeps the confidence and makes no call. *)
Theorem evaluate_stage_confidence :
  forall s log,
    let s' := fst (_evaluate_response s log) in
    (RAGAgent.response s <> ""%string ->
     let result :=
       fst (LLMManager.generate_response backend (RAGAgent.llm_manager self)
              (LLMManager.evaluation_prompt (RAGAgent.query s)
                 (RAGAgent.response s) (RAGAgent.context s))
              "auto" log) in
     if LLMResult.success result then
       exists assessment,
         LLMResult.response result = Some assessment
         /\ RAGAgent.confidence s'
            = (if Py.contains "confidence" (Py.lower assessment) then 0.9
               else if Py.contains "good" (Py.lower assessment) then 0.8
               else if Py.contains "adequate" (Py.lower assessment) then 0.6
               else 0.5)%float
     else RAGAgent.confidence s' = 0.5%float)
    /\ (RAGAgent.response s = ""%string ->
        RAGAgent.error s' = "No response to evaluate"%string
        /\ RAGAgent.confidence s' = RAGAgent.confidence s
        /\ snd (_evaluate_response s log) = log).
Proof.
  intros s log s'. split.
  - intros Hne result.
    pose proof (generate_response_success_text backend
                  (RAGAgent.llm_manager self)
                  (LLMManager.evaluation_prompt (RAGAgent.query s)
                     (RAGAgent.response s) (RAGAgent.context s))
                  "auto" log) as Htext.
    fold result in Htext.
    unfold s', RAGAgent._evaluate_response,
      LLMManager.evaluate_response_quality, bind, ret.
    cbn [RAGAgent.response RAGAgent.query RAGAgent.context RAGAgent.set_step].
    destruct (RAGAgent.response s) as [| c r0] eqn:Hr; [now contradiction Hne |].
    cbn [Py.truthy negb]. unfold result in *.
    destruct (LLMManager.generate_response _ _ _ _ _) as [r l1].
    cbn [fst] in *.
    destruct (LLMResult.success r) eqn:Hs; cbn; rewrite ?Hs; cbn.
    + destruct (Htext eq_refl) as [text Ht]. rewrite Ht.
      exists text. split; reflexivity.
    + reflexivity.
  - intros He. unfold s'. rewrite evaluate_no_response by exact He.
    repeat split.
Qed.

(** *** Every backend down *)

Lemma retrieve_keeps_response s log :
  RAGAgent.response (fst (_retrieve_documents s log)) = RAGAgent.response s.
Proof. stage_cases; reflexivity. Qed.

Section AllDown.

Hypothesis backends_down :
  forall n llm prompt, Py.raised (backend n llm prompt) = true.
Hypothesis threshold_positive :
  PrimFloat.ltb 0.0 CONFIDENCE_THRESHOLD = true.

Lemma generate_response_down (m : LLMManager.t) prompt provider log :
  LLMResult.success
    (fst (LLMManager.generate_response backend m prompt provider log))
  = false.
Proof.
  unfold LLMManager.generate_response.
  destruct (LLMManager.get_llm m provider) as [llm |]; [| reflexivity].
  unfold bind, LLMManager.invoke.
  destruct (raised_true _ (backends_down (List.length log) llm prompt))
    as [e ->].
  rewrite (try_fallbacks_all_fail backend); [reflexivity |].
  intros j nm lj _. apply backends_down.
Qed.

Lemma generate_down s log :
  RAGAgent.response (fst (_generate_response s log)) = RAGAgent.response s
  /\ RAGAgent.confidence (fst (_generate_response s log))
     = RAGAgent.confidence s.
Proof.
  unfold RAGAgent._generate_response, LLMManager.generate_medical_response,
    bind, ret.
  destruct (negb _); [split; reflexivity |].
  match goal with
  | |- context [LLMManager.generate_response backend ?m ?p ?a ?l] =>
      pose proof (generate_response_down m p a l) as Hfail;
      destruct (LLMManager.generate_response backend m p a l) as [r l1]
  end.
  cbn [fst] in Hfail. rewrite Hfail. split; reflexivity.
Qed.

Lemma improve_down s log :
  fst (_improve_response s log) = RAGAgent.set_step s "improve".
Proof.
  unfold RAGAgent._improve_response, bind, ret.
  match goal with
  | |- context [LLMManager.generate_response backend ?m ?p ?a ?l] =>
      pose proof (generate_response_down m p a l) as Hfail;
      destruct (LLMManager.generate_response backend m p a l) as [r l1]
  end.
  cbn [fst] in Hfail. now rewrite Hfail.
Qed.

(** Between [evaluate] and [improve], without a response and with
    confidence 0, a run never leaves the loop. *)
Lemma down_loop :
  forall fuel n s log,
    n = RAGAgent.evaluate \/ n = RAGAgent.improve ->
    RAGAgent.response s = ""%string ->
    RAGAgent.confidence s = 0.0%float ->
    (RAGAgent.improvement_count s < 3)%Z ->
    Py.raised (fst (invoke_from fuel n s log)) = true.
Proof.
  induction fuel as [| fuel IH]; intros n s log Hn Hr Hc Hk.
  - destruct Hn as [-> | ->]; reflexivity.
  - destruct Hn as [-> | ->]; cbn [RAGAgent.invoke_from]; unfold bind.
    + rewrite superstep_evaluate. cbn zeta.
      rewrite evaluate_no_response by exact Hr. cbn [fst snd].
      cbn [RAGAgent.improvement_count RAGAgent.confidence
             RAGAgent.set_error RAGAgent.set_step].
      destruct (Z.leb_spec 3 (RAGAgent.improvement_count s)); [lia |].
      rewrite Hc, threshold_positive.
      apply IH; [now right | exact Hr | exact Hc | exact Hk].
    + rewrite superstep_improve. rewrite improve_down.
      apply IH; [now left | exact Hr | exact Hc | exact Hk].
Qed.

(** With every backend down and a positive threshold no run reaches
    [END], whatever number of supersteps the engine allows. *)
Lemma all_down_never_ends :
  forall fuel query log,
    Py.raised
      (fst (invoke_from fuel RAGAgent.retrieve
              (RAGAgent.initial_state query) log)) = true.
Proof.
  intros fuel query log.
  destruct fuel as [| fuel]; [reflexivity |].
  cbn [RAGAgent.invoke_from]. unfold bind. rewrite superstep_retrieve.
  destruct fuel as [| fuel]; [reflexivity |].
  cbn [RAGAgent.invoke_from]. unfold bind. rewrite superstep_analyze.
  destruct fuel as [| fuel]; [reflexivity |].
  cbn [RAGAgent.invoke_from]. unfold bind. rewrite superstep_generate.
  apply down_loop; [now left | | |].
  - rewrite (proj1 (generate_down _ _)), (proj2 (analyze_frame _ _)).
    now rewrite retrieve_keeps_response.
  - rewrite (proj2 (generate_down _ _)), analyze_keeps_confidence.
    now rewrite retrieve_keeps_confidence.
  - rewrite generate_keeps_count, analyze_keeps_count, retrieve_keeps_count.
    cbn. lia.
Qed.

End AllDown.

(** *** A run whose retrieval finds nothing *)


End WorkflowFacts.

(** ** The session coordinator *)

Section CoordinatorFacts.

Variable backend : nat -> LLM -> string -> Outcome string.
Variable similarity_search : string -> Outcome (list Document).
Variable CONFIDENCE_THRESHOLD : float.
Variable recursion_limit : nat.
Variable final_state_is_dict : bool.

Local Abbreviation process_query :=
  (SystemManager.process_query backend similarity_search
     CONFIDENCE_THRESHOLD recursion_limit final_state_is_dict).

(** C5. A query put to a coordinator that is not initialised gets the
    "System not initialized" failure; the event log is untouched, so
    neither retrieval nor any backend was called. *)
Theorem process_query_not_initialized :
  forall (sm : SystemManager.t) (query : string) (log : Log),
    SystemManager.is_initialized sm = false ->
    process_query sm query log
    = (QueryResult.mk false None None None None None None
         (Some "System not initialized"%string)
         (Some "Please initialize the system first"%string),
       log).
Proof.
  intros sm query log H. unfold SystemManager.process_query.
  now rewrite H.
Qed.


End CoordinatorFacts.

(** ** Concrete runs *)



(** A witness of [process_query_not_initialized]. *)
Lemma process_query_not_initialized_witness :
  SystemManager.process_query (Scenario.always "Good answer")
    Scenario.one_document 0.7%float 25 true Scenario.uninitialized "q" []
  = (QueryResult.mk false None None None None None None
       (Some "System not initialized"%string)
       (Some "Please initialize the system first"%string),
     []).
Proof.
  exact (process_query_not_initialized (Scenario.always "Good answer")
           Scenario.one_document 0.7%float 25 true Scenario.uninitialized
           "q" [] eq_refl).
Defined.

(** C6, as the specification words it, fails on an assessment that
    spells a keyword with a capital: the code lowers the text first. *)
Lemma keyword_policy_counterexample :
  let s := RAGAgent.set_response (RAGAgent.initial_state "q") "Take aspirin." in
  let s' := fst (RAGAgent._evaluate_response (Scenario.always "Good answer")
                   (RAGAgent.mk Scenario.google_only) s []) in
  RAGAgent.confidence s' = 0.8%float
  /\ Spec.keyword_confidence "Good answer" = 0.5%float
  /\ RAGAgent.confidence s' <> Spec.keyword_confidence "Good answer".
Proof.
  repeat split; try reflexivity.
  intros H. vm_compute in H.
  apply (f_equal (fun x => PrimFloat.ltb x 0.6%float)) in H.
  vm_compute in H. discriminate H.
Qed.

(** A witness of [evaluate_stage_confidence]: the assessment
    "Good answer" of a non-empty response gives confidence 0.8. *)
Lemma evaluate_stage_confidence_witness :
  let s := RAGAgent.set_response (RAGAgent.initial_state "q") "Take aspirin." in
  exists assessment,
    assessment = "Good answer"%string
    /\ RAGAgent.confidence
         (fst (RAGAgent._evaluate_response (Scenario.always "Good answer")
                 (RAGAgent.mk Scenario.google_only) s []))
       = (if Py.contains "confidence" (Py.lower assessment) then 0.9
          else if Py.contains "good" (Py.lower assessment) then 0.8
          else if Py.contains "adequate" (Py.lower assessment) then 0.6
          else 0.5)%float.
Proof.
  intros s.
  assert (Hne : RAGAgent.response s <> ""%string) by discriminate.
  destruct (proj1 (evaluate_stage_confidence (Scenario.always "Good answer")
                     (RAGAgent.mk Scenario.google_only) s []) Hne)
    as [assessment [Ha Hc]].
  exists assessment. split; [| exact Hc].
  vm_compute in Ha. now injection Ha as <-.
Defined.

(** C8. The loop is not bounded by the code. With every backend down
    the run never reaches [END], whatever number of supersteps the
    engine allows: it is the engine's limit that stops it, the call to
    the engine raises and [process_query] reports a failure. At the
    limit of 25 supersteps the run has entered [improve] eleven times
    and made 52 calls to the models. The counter that was to stop the
    loop after three attempts is the one of C3. *)
Theorem improve_loop_unbounded :
  forall (recursion_limit : nat) (final_state_is_dict : bool)
         (query : string) (log : Log),
    Py.raised
      (fst (RAGAgent.workflow_invoke Scenario.all_down Scenario.one_document
              0.7%float recursion_limit (RAGAgent.mk Scenario.all_three)
              (RAGAgent.initial_state query) log)) = true
    /\ QueryResult.success
         (fst (RAGAgent.process_query Scenario.all_down Scenario.one_document
                 0.7%float recursion_limit final_state_is_dict
                 (RAGAgent.mk Scenario.all_three) query log)) = false
    /\ (let run :=
          RAGAgent.visited Scenario.all_down Scenario.one_document 0.7%float
            (RAGAgent.mk Scenario.all_three) 25 RAGAgent.retrieve
            (RAGAgent.initial_state "q") [] in
        List.length (filter RAGAgent.is_improve run) = 11
        /\ existsb (fun c => match fst (fst c) with
                             | RAGAgent.END => true
                             | _ => false
                             end) run = false
        /\ List.length
             (invoked
                (snd (RAGAgent.process_query Scenario.all_down
                        Scenario.one_document 0.7%float 25
                        final_state_is_dict (RAGAgent.mk Scenario.all_three)
                        "q" []))) = 52).
Proof.
  intros limit is_dict query log.
  assert (Hrun : Py.raised
                   (fst (RAGAgent.workflow_invoke Scenario.all_down
                           Scenario.one_document 0.7%float limit
                           (RAGAgent.mk Scenario.all_three)
                           (RAGAgent.initial_state query) log)) = true).
  { unfold RAGAgent.workflow_invoke.
    apply all_down_never_ends; [reflexivity | reflexivity]. }
  split; [exact Hrun | split].
  - unfold RAGAgent.process_query, bind.
    destruct (RAGAgent.workflow_invoke _ _ _ _ _ _ _) as [[final | e] l1];
      [discriminate Hrun | reflexivity].
  - repeat split; destruct is_dict; vm_compute; reflexivity.
Qed.

(** A witness of [improve_entered_without_response], with the threshold
    at 0.7 and every backend down. *)
Lemma improve_entered_without_response_witness :
  exists s log,
    nth_error (RAGAgent.visited Scenario.all_down Scenario.no_documents
                 0.7%float (RAGAgent.mk Scenario.google_only) 25
                 RAGAgent.retrieve (RAGAgent.initial_state "q") []) 4
    = Some (RAGAgent.improve, s, log)
    /\ RAGAgent.response s = ""%string.
Proof.
  assert (Hfuel : 4 <= 25) by lia.
  exact (improve_entered_without_response Scenario.all_down
           Scenario.no_documents 0.7%float (RAGAgent.mk Scenario.google_only)
           "q" 25 [] eq_refl eq_refl Hfuel).
Defined.

(** * Further properties of the code *)

(** ** [llm_manager.py] *)

Section MoreGenerationFacts.

Variable backend : nat -> LLM -> string -> Outcome string.

Lemma fallback_providers_names (m : LLMManager.t) (provider : string) :
  Forall (fun x => In (fst x) ["google"; "openai"; "ollama"]%string)
         (LLMManager.fallback_providers m provider)
  /\ List.length (LLMManager.fallback_providers m provider) <= 3.
Proof.
  unfold LLMManager.fallback_providers.
  destruct (negb (String.eqb provider "google")),
    (negb (String.eqb provider "openai")),
    (negb (String.eqb provider "ollama")),
    (LLMManager.google_llm m), (LLMManager.openai_llm m),
    (LLMManager.ollama_llm m); cbn;
    (split; [repeat (apply Forall_cons; [cbn; auto |]); apply Forall_nil
           | lia]).
Qed.

(** What the fallback loop returns and what it adds to the log. *)
Lemma try_fallbacks_shape (prompt : string) :
  forall l log,
    exists k,
      k <= List.length l
      /\ snd (LLMManager.try_fallbacks backend prompt l log)
         = log ++ invocations prompt (firstn k l)
      /\ ((exists text name,
              In name (map fst l)
              /\ fst (LLMManager.try_fallbacks backend prompt l log)
                 = LLMResult.ok text ("fallback-" ++ name)%string)
          \/ fst (LLMManager.try_fallbacks backend prompt l log)
             = LLMResult.failed "All LLM providers failed").
Proof.
  induction l as [| [nm0 l0] l IH]; intros log.
  - exists 0. cbn. rewrite app_nil_r. repeat split; auto.
  - cbn [LLMManager.try_fallbacks]. unfold bind, LLMManager.invoke.
    destruct (backend (List.length log) l0 prompt) as [text | e].
    + exists 1. cbn. repeat split; [lia |].
      left. exists text, nm0. auto.
    + destruct (IH (log ++ [Invoke l0 prompt])) as (k & Hk & Hlog & Hres).
      exists (S k). cbn [List.length firstn invocations map snd].
      repeat split; [lia | |].
      * rewrite Hlog. now rewrite <- app_assoc.
      * destruct Hres as [(text & name & Hin & Hr) | Hr]; [left | now right].
        exists text, name. split; [now right | exact Hr].
Qed.

(** The error of a failed generation. *)
Lemma generate_response_failure_error :
  forall (m : LLMManager.t) (prompt provider : string) (log : Log),
    let r := fst (LLMManager.generate_response backend m prompt provider log) in
    LLMResult.success r = false ->
    LLMResult.error r = Some "No LLM available"%string
    \/ LLMResult.error r = Some "All LLM providers failed"%string.
Proof.
  intros m prompt provider log r. unfold r, LLMManager.generate_response.
  destruct (LLMManager.get_llm m provider) as [llm |]; [| now left].
  unfold bind, LLMManager.invoke.
  destruct (backend (List.length log) llm prompt) as [text | e];
    [discriminate |].
  destruct (try_fallbacks_shape prompt
              (LLMManager.fallback_providers m provider)
              (log ++ [Invoke llm prompt]))
    as (k & _ & _ & [(text & name & _ & ->) | ->]); [discriminate |].
  now right.
Qed.

(** What one generation call adds to the log: invocations only, four at
    most. *)
Lemma generate_response_events :
  forall (m : LLMManager.t) (prompt provider : string) (log : Log),
    exists events,
      snd (LLMManager.generate_response backend m prompt provider log)
      = log ++ events
      /\ searches events = []
      /\ List.length (invoked events) <= 4.
Proof.
  intros m prompt provider log. unfold LLMManager.generate_response.
  destruct (LLMManager.get_llm m provider) as [llm |].
  2:{ exists []. cbn. rewrite app_nil_r. repeat split; lia. }
  unfold bind, LLMManager.invoke.
  assert (Hinv : forall l : list (string * LLM),
             searches (invocations prompt l) = []
             /\ List.length (invoked (invocations prompt l)) = List.length l).
  { unfold invocations.
    induction l as [| x l [IH1 IH2]]; cbn; [now split |].
    split; [exact IH1 | now f_equal]. }
  destruct (backend (List.length log) llm prompt) as [text | e].
  - exists [Invoke llm prompt]. cbn. repeat split; lia.
  - destruct (try_fallbacks_shape prompt
                (LLMManager.fallback_providers m provider)
                (log ++ [Invoke llm prompt])) as (k & Hk & Hlog & _).
    destruct (fallback_providers_names m provider) as [_ Hlen].
    exists (Invoke llm prompt
              :: invocations prompt
                   (firstn k (LLMManager.fallback_providers m provider))).
    destruct (Hinv (firstn k (LLMManager.fallback_providers m provider)))
      as [H1 H2].
    repeat split.
    + rewrite Hlog. now rewrite <- app_assoc.
    + exact H1.
    + cbn. rewrite H2, length_firstn. lia.
Qed.

(** X1. A generation result has one of two shapes. A success carries a
    text and a provider tag and no error; the tag is one of the three
    provider names, "auto-selected", or "fallback-" followed by one of
    the three provider names. A failure carries neither text nor tag, and its error is
    "No LLM available" or "All LLM providers failed". *)
Theorem generate_response_shape :
  forall (m : LLMManager.t) (prompt provider : string) (log : Log),
    let r := fst (LLMManager.generate_response backend m prompt provider log) in
    (exists text tag, r = LLMResult.ok text tag /\ In tag provider_tags)
    \/ r = LLMResult.failed "No LLM available"
    \/ r = LLMResult.failed "All LLM providers failed".
Proof.
  intros m prompt provider log r. unfold r, LLMManager.generate_response.
  destruct (LLMManager.get_llm m provider) as [llm |] eqn:Hllm;
    [| now right; left].
  unfold bind, LLMManager.invoke.
  destruct (backend (List.length log) llm prompt) as [text | e].
  - left. exists text. eexists. split; [reflexivity |].
    unfold LLMManager.get_llm in Hllm. unfold provider_tags.
    destruct (String.eqb_spec provider "google") as [-> | _];
      [cbn; auto |].
    destruct (String.eqb_spec provider "openai") as [-> | _];
      [cbn; auto |].
    destruct (String.eqb_spec provider "ollama") as [-> | _];
      [cbn; auto |].
    cbn [andb] in Hllm.
    destruct (String.eqb provider "auto"); [cbn; auto | discriminate Hllm].
  - destruct (try_fallbacks_shape prompt
                (LLMManager.fallback_providers m provider)
                (log ++ [Invoke llm prompt]))
      as (k & _ & _ & [(text & name & Hin & Hr) | Hr]).
    + left. exists text, ("fallback-" ++ name)%string. split; [exact Hr |].
      right. destruct (fallback_providers_names m provider) as [Hn _].
      rewrite Forall_forall in Hn. apply in_map_iff in Hin as ([nm l] & <- & Hx).
      specialize (Hn _ Hx). cbn in Hn. unfold provider_tags.
      destruct Hn as [<- | [<- | [<- | []]]]; cbn; auto 10.
    + now right; right.
Qed.

(** X2. One generation call only adds invocations of its own prompt to
    the log, at most four of them (the primary and up to three fallbacks),
    and what was logged before is kept; an unresolved selector adds
    nothing. *)
Theorem generate_response_log :
  forall (m : LLMManager.t) (prompt provider : string) (log : Log),
    exists events,
      snd (LLMManager.generate_response backend m prompt provider log)
      = log ++ events
      /\ forallb (is_invoke_of prompt) events = true
      /\ List.length events <= 4
      /\ (LLMManager.get_llm m provider = None <-> events = [])
      /\ searches events = [].
Proof.
  intros m prompt provider log. unfold LLMManager.generate_response.
  destruct (LLMManager.get_llm m provider) as [llm |].
  2:{ exists []. cbn. rewrite app_nil_r. repeat split; auto. }
  unfold bind, LLMManager.invoke.
  assert (Hinv : forall l : list (string * LLM),
             forallb (is_invoke_of prompt) (invocations prompt l) = true
             /\ searches (invocations prompt l) = []).
  { induction l as [| x l [IH1 IH2]]; [now split |]. cbn.
    rewrite String.eqb_refl. now split. }
  destruct (backend (List.length log) llm prompt) as [text | e].
  - exists [Invoke llm prompt]. cbn. rewrite String.eqb_refl.
    repeat split; auto; try lia; discriminate.
  - destruct (try_fallbacks_shape prompt
                (LLMManager.fallback_providers m provider)
                (log ++ [Invoke llm prompt])) as (k & Hk & Hlog & _).
    destruct (fallback_providers_names m provider) as [_ Hlen].
    exists (Invoke llm prompt
              :: invocations prompt
                   (firstn k (LLMManager.fallback_providers m provider))).
    destruct (Hinv (firstn k (LLMManager.fallback_providers m provider)))
      as [H1 H2].
    repeat split; try discriminate.
    + rewrite Hlog. now rewrite <- app_assoc.
    + cbn. now rewrite String.eqb_refl, H1.
    + cbn. unfold invocations. rewrite length_map, length_firstn. lia.
    + exact H2.
Qed.

(** X3. Only four selectors can resolve: a name other than "google",
    "openai", "ollama" and "auto" resolves to nothing whatever is
    configured, and generation with it fails without a backend call. *)
Theorem unknown_selector_unresolved :
  forall (m : LLMManager.t) (prompt provider : string) (log : Log),
    ~ In provider ["google"; "openai"; "ollama"; "auto"]%string ->
    LLMManager.get_llm m provider = None
    /\ LLMManager.generate_response backend m prompt provider log
       = (LLMResult.failed "No LLM available", log).
Proof.
  intros m prompt provider log Hn.
  assert (H : LLMManager.get_llm m provider = None).
  { unfold LLMManager.get_llm.
    destruct (String.eqb_spec provider "google") as [-> | _];
      [exfalso; apply Hn; cbn; auto |].
    destruct (String.eqb_spec provider "openai") as [-> | _];
      [exfalso; apply Hn; cbn; auto |].
    destruct (String.eqb_spec provider "ollama") as [-> | _];
      [exfalso; apply Hn; cbn; auto |].
    destruct (String.eqb_spec provider "auto") as [-> | _];
      [exfalso; apply Hn; cbn; auto |].
    reflexivity. }
  split; [exact H |].
  unfold LLMManager.generate_response. now rewrite H.
Qed.

End MoreGenerationFacts.

(** A witness of [unknown_selector_unresolved]: "anthropic" is not a
    selector, although all three providers are configured. *)
Lemma unknown_selector_unresolved_witness :
  LLMManager.generate_response (Scenario.always "hello") Scenario.all_three
    "p" "anthropic" []
  = (LLMResult.failed "No LLM available", []).
Proof.
  assert (Hn : ~ In "anthropic"%string
                    ["google"; "openai"; "ollama"; "auto"]%string)
    by (cbn; intuition discriminate).
  exact (proj2 (unknown_selector_unresolved (Scenario.always "hello")
                  Scenario.all_three "p" "anthropic" [] Hn)).
Defined.

(** X4. A manager as [LLMManager()] builds it is well formed: each slot is
    empty or holds the client of its own provider, a keyed slot is filled
    only if its key is set, and "auto" is either unresolved or the first
    filled slot in the order Google, OpenAI, Ollama. *)
Theorem constructed_manager_well_formed :
  forall (G O : option string) (raises : LLM -> bool),
    let m := LLMManager.new G O raises in
    (LLMManager.google_llm m = None
     \/ (LLMManager.google_llm m = Some ChatGoogleGenerativeAI
         /\ Py.truthy_opt G = true))
    /\ (LLMManager.openai_llm m = None
        \/ (LLMManager.openai_llm m = Some ChatOpenAI
            /\ Py.truthy_opt O = true))
    /\ (LLMManager.ollama_llm m = None
        \/ LLMManager.ollama_llm m = Some ChatOllama)
    /\ (LLMManager.current_llm m = None
        \/ LLMManager.current_llm m
           = Py.or_ (Py.or_ (LLMManager.google_llm m) (LLMManager.openai_llm m))
                    (LLMManager.ollama_llm m)).
Proof.
  intros G O raises m.
  unfold m, LLMManager.new, LLMManager.initialize_llms, LLMManager.init_google,
    LLMManager.init_openai, LLMManager.init_ollama, LLMManager.init_except.
  destruct (Py.truthy_opt G), (Py.truthy_opt O),
    (raises ChatGoogleGenerativeAI), (raises ChatOpenAI), (raises ChatOllama);
    cbn; auto 10.
Qed.

(** X5. When "auto" resolves to nothing. It does so exactly when the
    Google key is set and building its client raises, or the OpenAI key is
    set and building its client raises, or neither key is set and Ollama
    cannot be built. In the first case the manager is left blank: OpenAI
    and Ollama are never attempted. *)
Theorem auto_unresolved_iff :
  forall (G O : option string) (raises : LLM -> bool),
    let m := LLMManager.new G O raises in
    (LLMManager.get_llm m "auto" = None
     <-> (Py.truthy_opt G && raises ChatGoogleGenerativeAI
          || Py.truthy_opt O && raises ChatOpenAI
          || negb (Py.truthy_opt G) && negb (Py.truthy_opt O)
             && raises ChatOllama)%bool = true)
    /\ ((Py.truthy_opt G && raises ChatGoogleGenerativeAI)%bool = true ->
        m = LLMManager.blank).
Proof.
  intros G O raises m.
  unfold m, LLMManager.new, LLMManager.initialize_llms, LLMManager.init_google,
    LLMManager.init_openai, LLMManager.init_ollama, LLMManager.init_except.
  destruct (Py.truthy_opt G), (Py.truthy_opt O),
    (raises ChatGoogleGenerativeAI), (raises ChatOpenAI), (raises ChatOllama);
    cbn; repeat split; intros; try reflexivity; try discriminate.
Qed.

(** A witness of [auto_unresolved_iff]: the Google key is set and its
    client cannot be built, so nothing is configured although OpenAI and
    Ollama would work. *)
Lemma auto_unresolved_iff_witness :
  LLMManager.new (Some "g-key") (Some "o-key")
    (fun l => match l with ChatGoogleGenerativeAI => true | _ => false end)
  = LLMManager.blank.
Proof.
  exact (proj2 (auto_unresolved_iff (Some "g-key"%string) (Some "o-key"%string)
                  (fun l => match l with
                            | ChatGoogleGenerativeAI => true
                            | _ => false
                            end))
           eq_refl).
Defined.

Section ModelsFacts.

Variable DEFAULT_MODEL FALLBACK_MODEL OLLAMA_MODEL OLLAMA_BASE_URL : string.

Local Abbreviation get_available_models :=
  (llm_manager.get_available_models DEFAULT_MODEL FALLBACK_MODEL
     OLLAMA_MODEL OLLAMA_BASE_URL).

(** X6. [get_available_models] lists exactly the providers a request by
    name resolves to, in the order Google, OpenAI, Ollama, which are the
    providers the fallback list of an "auto" request names; every entry
    is marked "available". *)
Theorem available_models_agree :
  forall (m : LLMManager.t),
    (forall name,
        name <> "auto"%string ->
        Py.is_some (Py.get (get_available_models m) name)
        = Py.is_some (LLMManager.get_llm m name))
    /\ map fst (get_available_models m)
       = map fst (LLMManager.fallback_providers m "auto")
    /\ Forall (fun entry => Py.get (snd entry) "status"
                            = Some "available"%string)
              (get_available_models m).
Proof.
  intros m. split; [| split].
  - intros name Hne. apply String.eqb_neq in Hne.
    unfold llm_manager.get_available_models, LLMManager.get_llm.
    rewrite Hne.
    set (e1 := String.eqb name "google").
    set (e2 := String.eqb name "openai").
    set (e3 := String.eqb name "ollama").
    destruct (LLMManager.google_llm m), (LLMManager.openai_llm m),
      (LLMManager.ollama_llm m);
      cbv [Py.set Py.is_some String.eqb Ascii.eqb Bool.eqb];
      cbn [Py.get];
      rewrite ?(String.eqb_sym "google" name),
        ?(String.eqb_sym "openai" name), ?(String.eqb_sym "ollama" name);
      fold e1 e2 e3; destruct e1, e2, e3; reflexivity.
  - unfold llm_manager.get_available_models, LLMManager.fallback_providers.
    now destruct (LLMManager.google_llm m), (LLMManager.openai_llm m),
      (LLMManager.ollama_llm m).
  - unfold llm_manager.get_available_models.
    destruct (LLMManager.google_llm m), (LLMManager.openai_llm m),
      (LLMManager.ollama_llm m); cbn; repeat constructor.
Qed.

End ModelsFacts.

(** A witness of [available_models_agree]: with only Google configured,
    "openai" is neither listed nor resolved. *)
Lemma available_models_agree_witness :
  Py.is_some (Py.get (llm_manager.get_available_models "gemini" "gpt"
                        "mistral" "http://localhost:11434"
                        Scenario.google_only) "openai")
  = Py.is_some (LLMManager.get_llm Scenario.google_only "openai").
Proof.
  assert (Hne : "openai"%string <> "auto"%string) by discriminate.
  exact (proj1 (available_models_agree "gemini" "gpt" "mistral"
                  "http://localhost:11434" Scenario.google_only)
           "openai"%string Hne).
Defined.

(** ** [rag_agent.py] *)

Lemma searches_app (l1 l2 : Log) :
  searches (l1 ++ l2) = searches l1 ++ searches l2.
Proof.
  induction l1 as [| [q | llm p] l1 IH]; cbn; [reflexivity | |];
    now rewrite IH.
Qed.

Lemma invoked_app (l1 l2 : Log) :
  invoked (l1 ++ l2) = invoked l1 ++ invoked l2.
Proof.
  induction l1 as [| [q | llm p] l1 IH]; cbn; [reflexivity | |];
    now rewrite IH.
Qed.

Lemma concat_starts_nonempty {A} (f : A -> string) (sep : string) :
  forall (x : A) (xs : list A),
    f x <> ""%string -> String.concat sep (map f (x :: xs)) <> ""%string.
Proof.
  intros x xs Hx. cbn [map String.concat].
  destruct (map f xs); [exact Hx |].
  destruct (f x); [now contradiction Hx | discriminate].
Qed.

Section MoreWorkflowFacts.

Variable backend : nat -> LLM -> string -> Outcome string.
Variable similarity_search : string -> Outcome (list Document).
Variable CONFIDENCE_THRESHOLD : float.
Variable self : RAGAgent.t.

Local Abbreviation _retrieve_documents :=
  (RAGAgent._retrieve_documents similarity_search).
Local Abbreviation _analyze_query := (RAGAgent._analyze_query backend self).
Local Abbreviation _generate_response :=
  (RAGAgent._generate_response backend self).
Local Abbreviation _evaluate_response :=
  (RAGAgent._evaluate_response backend self).
Local Abbreviation _improve_response :=
  (RAGAgent._improve_response backend self).
Local Abbreviation superstep :=
  (RAGAgent.superstep backend similarity_search CONFIDENCE_THRESHOLD self).
Local Abbreviation invoke_from :=
  (RAGAgent.invoke_from backend similarity_search CONFIDENCE_THRESHOLD self).
Local Abbreviation visited :=
  (RAGAgent.visited backend similarity_search CONFIDENCE_THRESHOLD self).

(** *** The retrieve stage *)

(** X7. When retrieval returns chunks, the retrieve stage records them,
    lists one source per chunk in order ("unknown" where a chunk names
    none), builds a non-empty context, leaves the error as it was and
    puts exactly one query to the index. *)
Theorem retrieve_records_chunks :
  forall (s : RAGAgent.AgentState) (log : Log) (docs : list Document),
    similarity_search (RAGAgent.query s) = Returns docs ->
    docs <> [] ->
    let s' := fst (_retrieve_documents s log) in
    RAGAgent.retrieved_documents s' = docs
    /\ RAGAgent.sources s' = map source_of docs
    /\ List.length (RAGAgent.sources s') = List.length docs
    /\ RAGAgent.context s' <> ""%string
    /\ RAGAgent.error s' = RAGAgent.error s
    /\ snd (_retrieve_documents s log) = log ++ [Search (RAGAgent.query s)].
Proof.
  intros s log docs Hs Hne s'.
  unfold s', RAGAgent._retrieve_documents, bind, RAGAgent.search.
  cbn [RAGAgent.query RAGAgent.set_step]. rewrite Hs.
  destruct docs as [| d docs]; [now contradiction Hne |].
  cbn [fst snd ret]. repeat split.
  - cbn. now rewrite length_map.
  - cbn [RAGAgent.context RAGAgent.set_context].
    apply concat_starts_nonempty. unfold RAGAgent.context_part. discriminate.
Qed.

(** When retrieval returns nothing or raises, the stage only records
    an error: "No relevant documents found", or "Error in document
    retrieval: " followed by the exception's message; documents, sources
    and context stay as they were. *)
Lemma retrieve_failure_keeps_state :
  forall (s : RAGAgent.AgentState) (log : Log),
    let s' := fst (_retrieve_documents s log) in
    (similarity_search (RAGAgent.query s) = Returns [] ->
     RAGAgent.error s' = "No relevant documents found"%string
     /\ RAGAgent.context s' = RAGAgent.context s
     /\ RAGAgent.sources s' = RAGAgent.sources s
     /\ RAGAgent.retrieved_documents s' = RAGAgent.retrieved_documents s)
    /\ (forall msg,
           similarity_search (RAGAgent.query s) = Raises msg ->
           RAGAgent.error s' = ("Error in document retrieval: " ++ msg)%string
           /\ RAGAgent.context s' = RAGAgent.context s
           /\ RAGAgent.sources s' = RAGAgent.sources s
           /\ RAGAgent.retrieved_documents s'
              = RAGAgent.retrieved_documents s).
Proof.
  intros s log s'.
  unfold s', RAGAgent._retrieve_documents, bind, RAGAgent.search.
  cbn [RAGAgent.query RAGAgent.set_step].
  split; [intros H | intros msg H]; rewrite H; repeat split.
Qed.

(** *** The analyze and generate stages *)

(** X8. The analyze stage is an annotation only: it makes one generation
    call with the analysis prompt and, if that succeeds, stores its text
    under "query_analysis"; whatever the outcome, it sets no error and
    changes nothing but [step] and [evaluation]. *)
Theorem analyze_only_annotates :
  forall (s : RAGAgent.AgentState) (log : Log),
    let result :=
      LLMManager.generate_response backend (RAGAgent.llm_manager self)
        (RAGAgent.analysis_prompt s) "auto" log in
    let s' := fst (_analyze_query s log) in
    snd (_analyze_query s log) = snd result
    /\ s' = RAGAgent.set_evaluation (RAGAgent.set_step s "analyze")
              (RAGAgent.evaluation s')
    /\ (if LLMResult.success (fst result) then
          exists text,
            LLMResult.response (fst result) = Some text
            /\ RAGAgent.evaluation s'
               = Py.set (RAGAgent.evaluation s) "query_analysis" text
        else RAGAgent.evaluation s' = RAGAgent.evaluation s).
Proof.
  intros s log result s'.
  pose proof (generate_response_success_text backend
                (RAGAgent.llm_manager self) (RAGAgent.analysis_prompt s)
                "auto" log) as Htext.
  fold result in Htext. unfold s', RAGAgent._analyze_query, bind, ret.
  change (RAGAgent.analysis_prompt (RAGAgent.set_step s "analyze"))
    with (RAGAgent.analysis_prompt s).
  fold result. destruct result as [r l1]. cbn [fst snd] in *.
  destruct (LLMResult.success r).
  - destruct (Htext eq_refl) as [text Ht]. rewrite Ht. cbn.
    repeat split. now exists text.
  - cbn. repeat split.
Qed.

(** X9. With a context, the generate stage makes one grounded-answer
    call. On success it takes the text as response, sets the confidence
    to 0.8 and leaves the error alone; on failure it leaves response and
    confidence alone and records "Response generation failed: " followed
    by "No LLM available" or "All LLM providers failed" (the default
    "Unknown error" never shows). *)
Theorem generate_stage_effect :
  forall (s : RAGAgent.AgentState) (log : Log),
    RAGAgent.context s <> ""%string ->
    let result :=
      LLMManager.generate_medical_response backend (RAGAgent.llm_manager self)
        (RAGAgent.query s) (RAGAgent.context s) log in
    let s' := fst (_generate_response s log) in
    snd (_generate_response s log) = snd result
    /\ (if LLMResult.success (fst result) then
          LLMResult.response (fst result) = Some (RAGAgent.response s')
          /\ RAGAgent.confidence s' = 0.8%float
          /\ RAGAgent.error s' = RAGAgent.error s
        else
          RAGAgent.response s' = RAGAgent.response s
          /\ RAGAgent.confidence s' = RAGAgent.confidence s
          /\ (RAGAgent.error s'
              = "Response generation failed: No LLM available"%string
              \/ RAGAgent.error s'
                 = "Response generation failed: All LLM providers failed"%string)).
Proof.
  intros s log Hctx result s'.
  pose proof (generate_response_success_text backend
                (RAGAgent.llm_manager self)
                (LLMManager.medical_prompt (RAGAgent.query s)
                   (RAGAgent.context s)) "auto" log) as Htext.
  pose proof (generate_response_failure_error backend
                (RAGAgent.llm_manager self)
                (LLMManager.medical_prompt (RAGAgent.query s)
                   (RAGAgent.context s)) "auto" log) as Herr.
  cbn zeta in Herr.
  unfold s', result, RAGAgent._generate_response, bind, ret,
    LLMManager.generate_medical_response in *.
  cbn [RAGAgent.context RAGAgent.query RAGAgent.set_step].
  destruct (RAGAgent.context s) as [| c ctx] eqn:Hc; [now contradiction Hctx |].
  cbn [Py.truthy negb].
  destruct (LLMManager.generate_response _ _ _ _ _) as [r l1].
  cbn [fst snd] in *.
  destruct (LLMResult.success r).
  - destruct (Htext eq_refl) as [text Ht]. rewrite Ht. cbn. auto.
  - destruct (Herr eq_refl) as [-> | ->]; cbn; auto.
Qed.

(** *** Errors are never cleared *)

(** X10. No stage clears the error field: once a stage has recorded an
    error, every later stage leaves an error in place, also when it
    succeeds itself. *)
Theorem error_is_sticky :
  forall (s : RAGAgent.AgentState) (log : Log),
    RAGAgent.error s <> ""%string ->
    RAGAgent.error (fst (_retrieve_documents s log)) <> ""%string
    /\ RAGAgent.error (fst (_analyze_query s log)) <> ""%string
    /\ RAGAgent.error (fst (_generate_response s log)) <> ""%string
    /\ RAGAgent.error (fst (_evaluate_response s log)) <> ""%string
    /\ RAGAgent.error (fst (_improve_response s log)) <> ""%string
    /\ RAGAgent.error (snd (RAGAgent._should_improve CONFIDENCE_THRESHOLD s))
       <> ""%string.
Proof.
  intros s log He.
  repeat split; unfold RAGAgent._should_improve; stage_cases;
    cbn; try exact He; discriminate.
Qed.

(** *** Whole runs *)

Lemma later_stages_frame (s : RAGAgent.AgentState) (log : Log) :
  (RAGAgent.query (fst (_analyze_query s log)) = RAGAgent.query s
   /\ RAGAgent.sources (fst (_analyze_query s log)) = RAGAgent.sources s)
  /\ (RAGAgent.query (fst (_generate_response s log)) = RAGAgent.query s
      /\ RAGAgent.sources (fst (_generate_response s log))
         = RAGAgent.sources s)
  /\ (RAGAgent.query (fst (_evaluate_response s log)) = RAGAgent.query s
      /\ RAGAgent.sources (fst (_evaluate_response s log))
         = RAGAgent.sources s)
  /\ (RAGAgent.query (fst (_improve_response s log)) = RAGAgent.query s
      /\ RAGAgent.sources (fst (_improve_response s log))
         = RAGAgent.sources s).
Proof. repeat split; stage_cases; reflexivity. Qed.

Lemma evaluate_sets_step (s : RAGAgent.AgentState) (log : Log) :
  RAGAgent.step (fst (_evaluate_response s log)) = "evaluate"%string.
Proof. stage_cases; reflexivity. Qed.

Lemma visited_at_end (fuel : nat) (s : RAGAgent.AgentState) (log : Log) :
  visited fuel RAGAgent.END s log = [(RAGAgent.END, s, log)].
Proof. destruct fuel; reflexivity. Qed.

(** X11. The zero-retry path. The fourth configuration of every run is
    the first entry into [evaluate]. If the confidence that evaluation
    leaves is not below the threshold, the run is exactly retrieve,
    analyze, generate, evaluate, END; if it is below, the next
    configuration is an entry into [improve] with exactly the state
    [evaluate] returned, the attempt counter still at 0. *)
Theorem zero_retry_fast_path :
  forall (query : string) (log : Log) (fuel : nat),
    4 <= fuel ->
    exists s3 l3,
      nth_error (visited fuel RAGAgent.retrieve
                   (RAGAgent.initial_state query) log) 3
      = Some (RAGAgent.evaluate, s3, l3)
      /\ RAGAgent.improvement_count s3 = 0%Z
      /\ (PrimFloat.ltb
            (RAGAgent.confidence (fst (_evaluate_response s3 l3)))
            CONFIDENCE_THRESHOLD = false ->
          map (fun c => fst (fst c))
              (visited fuel RAGAgent.retrieve
                 (RAGAgent.initial_state query) log)
          = [RAGAgent.retrieve; RAGAgent.analyze; RAGAgent.generate;
             RAGAgent.evaluate; RAGAgent.END])
      /\ (PrimFloat.ltb
            (RAGAgent.confidence (fst (_evaluate_response s3 l3)))
            CONFIDENCE_THRESHOLD = true ->
          nth_error (visited fuel RAGAgent.retrieve
                       (RAGAgent.initial_state query) log) 4
          = Some (RAGAgent.improve, fst (_evaluate_response s3 l3),
                  snd (_evaluate_response s3 l3))
          /\ RAGAgent.improvement_count (fst (_evaluate_response s3 l3))
             = 0%Z).
Proof.
  intros query log fuel Hfuel.
  do 4 (destruct fuel as [| fuel]; [lia |]).
  cbn [RAGAgent.visited nth_error].
  rewrite superstep_retrieve, superstep_analyze, superstep_generate.
  set (s1 := fst (_retrieve_documents _ _)).
  set (l1 := snd (_retrieve_documents _ _)).
  set (s2 := fst (_analyze_query s1 l1)).
  set (l2 := snd (_analyze_query s1 l1)).
  set (s3 := fst (_generate_response s2 l2)).
  set (l3 := snd (_generate_response s2 l2)).
  assert (H1 : RAGAgent.improvement_count s1 = 0%Z)
    by (unfold s1; now rewrite retrieve_keeps_count).
  assert (H2 : RAGAgent.improvement_count s2 = 0%Z)
    by (unfold s2; now rewrite analyze_keeps_count).
  assert (H3 : RAGAgent.improvement_count s3 = 0%Z)
    by (unfold s3; now rewrite generate_keeps_count).
  assert (H4 : RAGAgent.improvement_count (fst (_evaluate_response s3 l3))
               = 0%Z)
    by now rewrite evaluate_keeps_count.
  exists s3, l3. split; [reflexivity |]. split; [exact H3 |].
  rewrite superstep_evaluate. cbn zeta. rewrite H4. cbn [Z.leb Z.compare].
  split; intros Hc; rewrite Hc.
  - rewrite visited_at_end. reflexivity.
  - split; [destruct fuel; reflexivity | reflexivity].
Qed.

(** What one stage after [retrieve] adds to the log: the invocations of
    at most one generation call. *)
Lemma stage_events (s : RAGAgent.AgentState) (log : Log) :
  forall stage : RAGAgent.AgentState -> M RAGAgent.AgentState,
    stage = _analyze_query \/ stage = _generate_response
    \/ stage = _evaluate_response \/ stage = _improve_response ->
    exists evs,
      snd (stage s log) = log ++ evs
      /\ searches evs = []
      /\ List.length (invoked evs) <= 4.
Proof.
  intros stage [-> | [-> | [-> | ->]]].
  - unfold RAGAgent._analyze_query, bind, ret.
    destruct (generate_response_events backend (RAGAgent.llm_manager self)
                (RAGAgent.analysis_prompt (RAGAgent.set_step s "analyze"))
                "auto" log) as (evs & H1 & H2 & H3).
    exists evs. split; [| auto].
    destruct (LLMManager.generate_response _ _ _ _ _) as [r l1].
    cbn [snd] in *. subst l1.
    destruct (LLMResult.success r); [| reflexivity].
    destruct (LLMResult.response r); reflexivity.
  - unfold RAGAgent._generate_response, bind, ret,
      LLMManager.generate_medical_response.
    destruct (negb _).
    { exists []. cbn. rewrite app_nil_r. repeat split; lia. }
    match goal with
    | |- context [LLMManager.generate_response backend ?m ?p ?a ?l] =>
        destruct (generate_response_events backend m p a l)
          as (evs & H1 & H2 & H3);
        exists evs; split; [| auto];
        destruct (LLMManager.generate_response backend m p a l) as [r l1]
    end.
    cbn [snd] in *. subst l1.
    destruct (LLMResult.success r); [| reflexivity].
    destruct (LLMResult.response r); reflexivity.
  - unfold RAGAgent._evaluate_response,
      LLMManager.evaluate_response_quality, bind, ret.
    destruct (negb _).
    { exists []. cbn. rewrite app_nil_r. repeat split; lia. }
    match goal with
    | |- context [LLMManager.generate_response backend ?m ?p ?a ?l] =>
        destruct (generate_response_events backend m p a l)
          as (evs & H1 & H2 & H3);
        exists evs; split; [| auto];
        destruct (LLMManager.generate_response backend m p a l) as [r l1]
    end.
    cbn [snd] in *. subst l1.
    destruct (LLMResult.success r) eqn:Hs; cbn; rewrite ?Hs; cbn;
      [| reflexivity].
    destruct (LLMResult.response r); reflexivity.
  - unfold RAGAgent._improve_response, bind, ret.
    match goal with
    | |- context [LLMManager.generate_response backend ?m ?p ?a ?l] =>
        destruct (generate_response_events backend m p a l)
          as (evs & H1 & H2 & H3);
        exists evs; split; [| auto];
        destruct (LLMManager.generate_response backend m p a l) as [r l1]
    end.
    cbn [snd] in *. subst l1.
    destruct (LLMResult.success r); [| reflexivity].
    destruct (LLMResult.response r); reflexivity.
Qed.

Lemma retrieve_log (s : RAGAgent.AgentState) (log : Log) :
  snd (_retrieve_documents s log) = log ++ [Search (RAGAgent.query s)].
Proof.
  unfold RAGAgent._retrieve_documents, bind, RAGAgent.search.
  cbn [RAGAgent.query RAGAgent.set_step].
  destruct (similarity_search (RAGAgent.query s)) as [[| d ds] | e];
    reflexivity.
Qed.

(** The calls a run makes in [fuel] supersteps: one search if it starts
    at [retrieve], and at most four invocations for every other node it
    runs. *)
Lemma invoke_from_cost :
  forall fuel n s log,
    exists events,
      snd (invoke_from fuel n s log) = log ++ events
      /\ searches events
         = match n, fuel with
           | RAGAgent.retrieve, S _ => [RAGAgent.query s]
           | _, _ => []
           end
      /\ List.length (invoked events)
         <= 4 * (fuel - match n with RAGAgent.retrieve => 1 | _ => 0 end).
Proof.
  assert (Hstep : forall fuel n' s log evs,
             (forall n s log,
                 exists events,
                   snd (invoke_from fuel n s log) = log ++ events
                   /\ searches events
                      = match n, fuel with
                        | RAGAgent.retrieve, S _ => [RAGAgent.query s]
                        | _, _ => []
                        end
                   /\ List.length (invoked events)
                      <= 4 * (fuel - match n with
                                     | RAGAgent.retrieve => 1
                                     | _ => 0
                                     end)) ->
             n' <> RAGAgent.retrieve ->
             searches evs = [] ->
             List.length (invoked evs) <= 4 ->
             exists events,
               snd (invoke_from fuel n' s (log ++ evs)) = log ++ events
               /\ searches events = []
               /\ List.length (invoked events) <= 4 * S fuel).
  { intros fuel n' s log evs IH Hn Hs Hl.
    destruct (IH n' s (log ++ evs)) as (events & H1 & H2 & H3).
    exists (evs ++ events).
    rewrite H1, <- app_assoc, searches_app, invoked_app, length_app, Hs, H2.
    destruct n'; try (now contradiction Hn); cbn in *;
      (repeat split; lia). }
  induction fuel as [| fuel IH]; intros n s log.
  - exists []. rewrite app_nil_r. destruct n; cbn; repeat split; lia.
  - destruct n; cbn [RAGAgent.invoke_from]; unfold bind.
    + rewrite superstep_retrieve, retrieve_log.
      destruct (IH RAGAgent.analyze (fst (_retrieve_documents s log))
                  (log ++ [Search (RAGAgent.query s)]))
        as (events & H1 & H2 & H3).
      exists ([Search (RAGAgent.query s)] ++ events).
      rewrite H1, <- app_assoc, searches_app, invoked_app, H2.
      cbn in *. repeat split; lia.
    + rewrite superstep_analyze.
      destruct (stage_events s log _analyze_query) as (evs & -> & Hs & Hl);
        [auto |].
      destruct (Hstep fuel RAGAgent.generate (fst (_analyze_query s log))
                  log evs IH) as (events & H1 & H2 & H3);
        [discriminate | exact Hs | exact Hl |].
      exists events. cbn. repeat split; [exact H1 | exact H2 | lia].
    + rewrite superstep_generate.
      destruct (stage_events s log _generate_response)
        as (evs & -> & Hs & Hl); [auto |].
      destruct (Hstep fuel RAGAgent.evaluate (fst (_generate_response s log))
                  log evs IH) as (events & H1 & H2 & H3);
        [discriminate | exact Hs | exact Hl |].
      exists events. cbn. repeat split; [exact H1 | exact H2 | lia].
    + rewrite superstep_evaluate. cbn zeta.
      destruct (stage_events s log _evaluate_response)
        as (evs & -> & Hs & Hl); [auto |].
      destruct (3 <=? _)%Z; [| destruct (PrimFloat.ltb _ _)];
        match goal with
        | |- context [invoke_from fuel ?n' ?s' (log ++ evs)] =>
            destruct (Hstep fuel n' s' log evs IH)
              as (events & H1 & H2 & H3);
            [discriminate | exact Hs | exact Hl |];
            exists events; cbn;
            repeat split; [exact H1 | exact H2 | lia]
        end.
    + rewrite superstep_improve.
      destruct (stage_events s log _improve_response)
        as (evs & -> & Hs & Hl); [auto 6 |].
      destruct (Hstep fuel RAGAgent.evaluate (fst (_improve_response s log))
                  log evs IH) as (events & H1 & H2 & H3);
        [discriminate | exact Hs | exact Hl |].
      exists events. cbn. repeat split; [exact H1 | exact H2 | lia].
    + exists []. rewrite app_nil_r. cbn. repeat split; lia.
Qed.

(** X12. What a query costs. A run of [process_query] puts exactly one
    query to the index, the user's, and invokes the chat models at most
    four times for every superstep after the first that the engine
    allows, whether the run reaches [END] or is stopped by the engine;
    the log it was given is kept as a prefix. *)
Theorem process_query_cost :
  forall (recursion_limit : nat) (final_state_is_dict : bool)
         (query : string) (log : Log),
    1 <= recursion_limit ->
    exists events,
      snd (RAGAgent.process_query backend similarity_search
             CONFIDENCE_THRESHOLD recursion_limit final_state_is_dict
             self query log)
      = log ++ events
      /\ searches events = [query]
      /\ List.length (invoked events) <= 4 * (recursion_limit - 1).
Proof.
  intros limit is_dict query log Hl.
  destruct (invoke_from_cost limit RAGAgent.retrieve
              (RAGAgent.initial_state query) log)
    as (events & H1 & H2 & H3).
  exists events.
  unfold RAGAgent.process_query, RAGAgent.workflow_invoke, bind.
  destruct (invoke_from limit RAGAgent.retrieve
              (RAGAgent.initial_state query) log) as [[final | e] log'];
    cbn [snd ret] in *;
    (split; [exact H1 | split; [| exact H3]]);
    destruct limit; [lia | exact H2 | lia | exact H2].
Qed.

(** The sources of a final state are those retrieval returned. *)
Lemma final_sources :
  forall (fuel : nat) (query : string) (log : Log) final log',
    invoke_from fuel RAGAgent.retrieve (RAGAgent.initial_state query) log
    = (Returns final, log') ->
    RAGAgent.sources final
    = match similarity_search query with
      | Returns docs => map source_of docs
      | Raises _ => []
      end.
Proof.
  intros fuel query log final log' Hrun.
  set (expected := match similarity_search query with
                   | Returns docs => map source_of docs
                   | Raises _ => []
                   end).
  assert (Hinv : Forall (fun c =>
                           match fst (fst c) with
                           | RAGAgent.retrieve =>
                               RAGAgent.query (snd (fst c)) = query
                               /\ RAGAgent.sources (snd (fst c)) = []
                           | _ => RAGAgent.sources (snd (fst c)) = expected
                           end)
                   (visited fuel RAGAgent.retrieve
                      (RAGAgent.initial_state query) log)).
  { apply (visited_invariant backend similarity_search CONFIDENCE_THRESHOLD
             self
             (fun n s _ =>
                match n with
                | RAGAgent.retrieve =>
                    RAGAgent.query s = query /\ RAGAgent.sources s = []
                | _ => RAGAgent.sources s = expected
                end)); [| now split].
    intros n s l n' s' l' HP Hn E.
    destruct (later_stages_frame s l)
      as ((_ & Ha) & (_ & Hg) & (_ & He) & (_ & Hi)).
    destruct n.
    - destruct HP as [Hq Hs].
      rewrite superstep_retrieve in E. injection E as <- <- <-.
      unfold RAGAgent._retrieve_documents, bind, RAGAgent.search, expected.
      cbn [RAGAgent.query RAGAgent.set_step]. rewrite Hq.
      destruct (similarity_search query) as [[| d ds] | e]; cbn; auto.
    - rewrite superstep_analyze in E. injection E as <- <- <-.
      now rewrite Ha.
    - rewrite superstep_generate in E. injection E as <- <- <-.
      now rewrite Hg.
    - rewrite superstep_evaluate in E. cbn zeta in E.
      destruct (3 <=? _)%Z; [injection E as <- <- <-; now rewrite He |].
      destruct (PrimFloat.ltb _ _); injection E as <- <- <-; cbn;
        now rewrite He.
    - rewrite superstep_improve in E. injection E as <- <- <-.
      now rewrite Hi.
    - now contradiction Hn. }
  rewrite Forall_forall in Hinv.
  exact (Hinv _ (invoke_from_visited backend similarity_search
                   CONFIDENCE_THRESHOLD self _ _ _ _ _ _ Hrun)).
Qed.

(** The error of a final state when retrieval brought no chunk. *)
Lemma no_chunks_error :
  forall (fuel : nat) (query : string) (log : Log) final log',
    (similarity_search query = Returns []
     \/ exists msg, similarity_search query = Raises msg) ->
    invoke_from fuel RAGAgent.retrieve (RAGAgent.initial_state query) log
    = (Returns final, log') ->
    RAGAgent.error final = "No response to evaluate"%string.
Proof.
  intros fuel query log final log' Hsearch Hrun.
  assert (Hinv : Forall (fun c =>
                           match fst (fst c) with
                           | RAGAgent.retrieve =>
                               RAGAgent.query (snd (fst c)) = query
                               /\ RAGAgent.context (snd (fst c)) = ""%string
                               /\ RAGAgent.response (snd (fst c)) = ""%string
                           | RAGAgent.analyze | RAGAgent.generate =>
                               RAGAgent.context (snd (fst c)) = ""%string
                               /\ RAGAgent.response (snd (fst c)) = ""%string
                           | RAGAgent.evaluate =>
                               RAGAgent.response (snd (fst c)) = ""%string
                               \/ RAGAgent.error (snd (fst c))
                                  = "No response to evaluate"%string
                           | RAGAgent.improve | RAGAgent.END =>
                               RAGAgent.error (snd (fst c))
                               = "No response to evaluate"%string
                           end)
                   (visited fuel RAGAgent.retrieve
                      (RAGAgent.initial_state query) log)).
  { apply (visited_invariant backend similarity_search CONFIDENCE_THRESHOLD
             self
             (fun n s _ =>
                match n with
                | RAGAgent.retrieve =>
                    RAGAgent.query s = query
                    /\ RAGAgent.context s = ""%string
                    /\ RAGAgent.response s = ""%string
                | RAGAgent.analyze | RAGAgent.generate =>
                    RAGAgent.context s = ""%string
                    /\ RAGAgent.response s = ""%string
                | RAGAgent.evaluate =>
                    RAGAgent.response s = ""%string
                    \/ RAGAgent.error s = "No response to evaluate"%string
                | RAGAgent.improve | RAGAgent.END =>
                    RAGAgent.error s = "No response to evaluate"%string
                end)); [| cbn; auto].
    intros n s l n' s' l' HP Hn E. destruct n.
    - destruct HP as (Hq & Hc & Hr).
      rewrite superstep_retrieve in E. injection E as <- <- <-.
      unfold RAGAgent._retrieve_documents, bind, RAGAgent.search.
      cbn [RAGAgent.query RAGAgent.set_step]. rewrite Hq.
      destruct Hsearch as [-> | [msg ->]]; cbn; auto.
    - rewrite superstep_analyze in E. injection E as <- <- <-.
      destruct (analyze_frame backend self s l) as [Hc Hr].
      destruct HP. now rewrite Hc, Hr.
    - destruct HP as (Hc & Hr).
      rewrite superstep_generate, generate_no_context in E by exact Hc.
      injection E as <- <- <-. now left.
    - rewrite superstep_evaluate in E. cbn zeta in E.
      assert (He : RAGAgent.error (fst (_evaluate_response s l))
                   = "No response to evaluate"%string).
      { destruct HP as [Hr | He].
        - now rewrite evaluate_no_response.
        - destruct (evaluate_error backend self s l) as [-> | ->]; auto. }
      destruct (3 <=? _)%Z; [injection E as <- <- <-; exact He |].
      destruct (PrimFloat.ltb _ _); injection E as <- <- <-; exact He.
    - rewrite superstep_improve in E. injection E as <- <- <-.
      right. now rewrite improve_keeps_error.
    - now contradiction Hn. }
  rewrite Forall_forall in Hinv.
  exact (Hinv _ (invoke_from_visited backend similarity_search
                   CONFIDENCE_THRESHOLD self _ _ _ _ _ _ Hrun)).
Qed.

(** X13. The query is handed back unchanged. When the run reached
    [END], the sources the result lists are those of the chunks
    retrieval returned for the user's query, one per chunk and in order
    (none when retrieval returned nothing or raised). When the engine
    raised, the result lists no sources, also if chunks were retrieved,
    and has no response. *)
Theorem result_sources :
  forall (recursion_limit : nat) (final_state_is_dict : bool)
         (query : string) (log : Log),
    let r := fst (RAGAgent.process_query backend similarity_search
                    CONFIDENCE_THRESHOLD recursion_limit final_state_is_dict
                    self query log) in
    QueryResult.query r = Some query
    /\ (QueryResult.success r = true ->
        QueryResult.sources r
        = Some (match similarity_search query with
                | Returns docs => map source_of docs
                | Raises _ => []
                end))
    /\ (QueryResult.success r = false ->
        QueryResult.sources r = Some []
        /\ QueryResult.response r = None).
Proof.
  intros limit is_dict query log r.
  unfold r, RAGAgent.process_query, RAGAgent.workflow_invoke, bind.
  destruct (invoke_from limit RAGAgent.retrieve
              (RAGAgent.initial_state query) log)
    as [[final | e] log'] eqn:Hrun; cbn.
  - split; [reflexivity | split; [intros _ | discriminate]].
    now rewrite (final_sources limit query log final log' Hrun).
  - split; [reflexivity | split; [discriminate | auto]].
Qed.

(** The step and the confidence of a final state. *)
Lemma final_step_and_confidence :
  forall (fuel : nat) (query : string) (log : Log) final log',
    invoke_from fuel RAGAgent.retrieve (RAGAgent.initial_state query) log
    = (Returns final, log') ->
    RAGAgent.step final = "evaluate"%string
    /\ PrimFloat.ltb (RAGAgent.confidence final) CONFIDENCE_THRESHOLD
       = false.
Proof.
  intros fuel query log final log' Hrun.
  pose proof (invoke_from_visited backend similarity_search
                CONFIDENCE_THRESHOLD self _ _ _ _ _ _ Hrun) as Hin.
  assert (H : Forall (fun c =>
                        RAGAgent.improvement_count (snd (fst c)) = 0%Z
                        /\ match fst (fst c) with
                           | RAGAgent.END =>
                               RAGAgent.step (snd (fst c))
                               = "evaluate"%string
                               /\ PrimFloat.ltb
                                    (RAGAgent.confidence (snd (fst c)))
                                    CONFIDENCE_THRESHOLD = false
                           | _ => True
                           end)
                (visited fuel RAGAgent.retrieve
                   (RAGAgent.initial_state query) log)).
  { apply (visited_invariant backend similarity_search CONFIDENCE_THRESHOLD
             self
             (fun n s _ =>
                RAGAgent.improvement_count s = 0%Z
                /\ match n with
                   | RAGAgent.END =>
                       RAGAgent.step s = "evaluate"%string
                       /\ PrimFloat.ltb (RAGAgent.confidence s)
                            CONFIDENCE_THRESHOLD = false
                   | _ => True
                   end)); [| now split].
    intros n s l n' s' l' [Hk HP] Hn E. destruct n.
    - rewrite superstep_retrieve in E. injection E as <- <- <-.
      now rewrite retrieve_keeps_count.
    - rewrite superstep_analyze in E. injection E as <- <- <-.
      now rewrite analyze_keeps_count.
    - rewrite superstep_generate in E. injection E as <- <- <-.
      now rewrite generate_keeps_count.
    - rewrite superstep_evaluate in E. cbn zeta in E.
      pose proof (evaluate_keeps_count backend self s l) as Hc.
      rewrite Hk in Hc. rewrite Hc in E. cbn [Z.leb Z.compare] in E.
      destruct (PrimFloat.ltb _ _) eqn:Hlt; injection E as <- <- <-;
        (split; [exact Hc |]); [exact I |].
      split; [apply evaluate_sets_step | exact Hlt].
    - rewrite superstep_improve in E. injection E as <- <- <-.
      now rewrite improve_keeps_count.
    - now contradiction Hn. }
  rewrite Forall_forall in H. exact (proj2 (H _ Hin)).
Qed.

(** X14. A run that reached [END] reports "evaluate" as its workflow
    step, whichever stages ran, and a confidence that is one of the
    listed values, hence between 0 and 0.95, and that is not below the
    threshold: the attempt counter never ends a run. When the engine
    raised, the step is "N/A" and the confidence 0. *)
Theorem result_step_and_confidence :
  forall (recursion_limit : nat) (final_state_is_dict : bool)
         (query : string) (log : Log),
    let r := fst (RAGAgent.process_query backend similarity_search
                    CONFIDENCE_THRESHOLD recursion_limit final_state_is_dict
                    self query log) in
    (QueryResult.success r = true ->
     QueryResult.workflow_steps r = Some "evaluate"%string
     /\ exists c,
          QueryResult.confidence r = Some c
          /\ In c RAGAgent.confidence_values
          /\ PrimFloat.leb 0 c = true
          /\ PrimFloat.leb c 0.95 = true
          /\ PrimFloat.ltb c CONFIDENCE_THRESHOLD = false)
    /\ (QueryResult.success r = false ->
        QueryResult.workflow_steps r = Some "N/A"%string
        /\ QueryResult.confidence r = Some 0.0%float).
Proof.
  intros limit is_dict query log r.
  unfold r, RAGAgent.process_query, RAGAgent.workflow_invoke, bind.
  destruct (invoke_from limit RAGAgent.retrieve
              (RAGAgent.initial_state query) log)
    as [[final | e] log'] eqn:Hrun; cbn;
    [| split; [discriminate | auto]].
  split; [intros _ | discriminate].
  destruct (final_step_and_confidence limit query log final log' Hrun)
    as [Hstep Hthr].
  pose proof (confidence_in_values backend similarity_search
                CONFIDENCE_THRESHOLD self limit query log) as Hconf.
  rewrite Forall_forall in Hconf.
  specialize (Hconf _ (invoke_from_visited backend similarity_search
                         CONFIDENCE_THRESHOLD self _ _ _ _ _ _ Hrun)).
  cbn [fst snd] in Hconf.
  split; [now rewrite Hstep |].
  exists (RAGAgent.confidence final). split; [reflexivity |].
  split; [exact Hconf |].
  assert (Hbounds : PrimFloat.leb 0 (RAGAgent.confidence final) = true
                    /\ PrimFloat.leb (RAGAgent.confidence final) 0.95 = true).
  { unfold RAGAgent.confidence_values in Hconf. cbn [In] in Hconf.
    repeat (destruct Hconf as [<- | Hconf]; [split; reflexivity |]).
    destruct Hconf. }
  destruct Hbounds as [Hlow Hhigh]. auto.
Qed.

(** The stages after [retrieve] leave context and chunks alone. *)
Lemma later_stages_context (s : RAGAgent.AgentState) (log : Log) :
  forall stage : RAGAgent.AgentState -> M RAGAgent.AgentState,
    stage = _analyze_query \/ stage = _generate_response
    \/ stage = _evaluate_response \/ stage = _improve_response ->
    RAGAgent.context (fst (stage s log)) = RAGAgent.context s
    /\ RAGAgent.retrieved_documents (fst (stage s log))
       = RAGAgent.retrieved_documents s.
Proof.
  intros stage [-> | [-> | [-> | ->]]]; stage_cases; split; reflexivity.
Qed.

(** When retrieval brings no chunk, no configuration of the run has a
    context. *)
Lemma no_chunks_context :
  forall (fuel : nat) (query : string) (log : Log),
    (similarity_search query = Returns []
     \/ exists msg, similarity_search query = Raises msg) ->
    Forall (fun c =>
              RAGAgent.context (snd (fst c)) = ""%string
              /\ RAGAgent.retrieved_documents (snd (fst c)) = [])
           (visited fuel RAGAgent.retrieve (RAGAgent.initial_state query) log).
Proof.
  intros fuel query log Hsearch.
  assert (H : Forall (fun c =>
                        (RAGAgent.context (snd (fst c)) = ""%string
                         /\ RAGAgent.retrieved_documents (snd (fst c)) = [])
                        /\ match fst (fst c) with
                           | RAGAgent.retrieve =>
                               RAGAgent.query (snd (fst c)) = query
                           | _ => True
                           end)
                (visited fuel RAGAgent.retrieve
                   (RAGAgent.initial_state query) log)).
  { apply (visited_invariant backend similarity_search CONFIDENCE_THRESHOLD
             self
             (fun n s _ =>
                (RAGAgent.context s = ""%string
                 /\ RAGAgent.retrieved_documents s = [])
                /\ match n with
                   | RAGAgent.retrieve => RAGAgent.query s = query
                   | _ => True
                   end)); [| now repeat split].
    intros n s l n' s' l' [[Hc Hd] Hq] Hn E. destruct n.
    - rewrite superstep_retrieve in E. injection E as <- <- <-.
      unfold RAGAgent._retrieve_documents, bind, RAGAgent.search.
      cbn [RAGAgent.query RAGAgent.set_step]. rewrite Hq.
      destruct Hsearch as [-> | [msg ->]]; cbn; auto.
    - rewrite superstep_analyze in E. injection E as <- <- <-.
      destruct (later_stages_context s l _analyze_query) as [-> ->]; auto.
    - rewrite superstep_generate in E. injection E as <- <- <-.
      destruct (later_stages_context s l _generate_response) as [-> ->];
        auto.
    - rewrite superstep_evaluate in E. cbn zeta in E.
      destruct (later_stages_context s l _evaluate_response) as [Hc' Hd'];
        [auto |].
      destruct (3 <=? _)%Z; [| destruct (PrimFloat.ltb _ _)];
        injection E as <- <- <-; rewrite Hc', Hd'; auto.
    - rewrite superstep_improve in E. injection E as <- <- <-.
      destruct (later_stages_context s l _improve_response) as [-> ->];
        auto 6.
    - now contradiction Hn. }
  eapply Forall_impl; [| exact H]. intros c Hc. exact (proj1 Hc).
Qed.

End MoreWorkflowFacts.

(** ** [vector_store.py] *)

Section VectorStoreFacts.

Variable TOP_K_RETRIEVAL : Z.
Variable from_documents : list Document -> Outcome vector_store.Chroma.
Variable persist : vector_store.Chroma -> Outcome unit.
Variable chroma_similarity_search :
  vector_store.Chroma -> string -> Z -> Outcome (list Document).
Variable chroma_similarity_search_with_score :
  vector_store.Chroma -> string -> Z -> Outcome (list (Document * float)).
Variable count : vector_store.Chroma -> Outcome Z.
Variable directory_exists sqlite_exists : bool.
Variable open_persisted : Outcome vector_store.Chroma.

Local Abbreviation similarity_search :=
  (vector_store.similarity_search TOP_K_RETRIEVAL chroma_similarity_search).
Local Abbreviation similarity_search_with_score :=
  (vector_store.similarity_search_with_score TOP_K_RETRIEVAL
     chroma_similarity_search_with_score).
Local Abbreviation load_existing_vector_store :=
  (vector_store.load_existing_vector_store count directory_exists
     sqlite_exists open_persisted).
Local Abbreviation create_vector_store :=
  (vector_store.create_vector_store from_documents persist).

(** X15. Both searches raise exactly when no index is loaded, with the
    message "Vector store not initialized". With an index loaded they
    never raise: a failure of the underlying search is turned into an
    empty result, and an omitted [k] is [TOP_K_RETRIEVAL]. *)
Theorem search_raises_iff_no_index :
  forall (self : vector_store.t) (query : string) (k : option Z),
    (vector_store.vector_store self = None ->
     similarity_search self query k = Raises "Vector store not initialized"
     /\ similarity_search_with_score self query k
        = Raises "Vector store not initialized")
    /\ (forall store,
           vector_store.vector_store self = Some store ->
           Py.raised (similarity_search self query k) = false
           /\ Py.raised (similarity_search_with_score self query k) = false
           /\ (Py.raised
                 (chroma_similarity_search store query
                    match k with None => TOP_K_RETRIEVAL | Some k => k end)
               = true ->
               similarity_search self query k = Returns [])
           /\ similarity_search self query None
              = similarity_search self query (Some TOP_K_RETRIEVAL)).
Proof.
  intros self query k.
  unfold vector_store.similarity_search,
    vector_store.similarity_search_with_score.
  split.
  - intros ->. now split.
  - intros store ->. repeat split.
    + now destruct (chroma_similarity_search _ _ _).
    + now destruct (chroma_similarity_search_with_score _ _ _).
    + destruct (chroma_similarity_search _ _ _); [discriminate | reflexivity].
Qed.

(** X16. [load_existing_vector_store] answers [True] only with the
    persisted collection installed and counted. When the index file is
    there but opening or counting fails, it answers [False] and leaves
    the object without any index, also if it held one before; when the
    directory or the file is missing the object is left as it was. *)
Theorem load_existing_outcomes :
  forall (self : vector_store.t),
    let loaded := fst (load_existing_vector_store self) in
    let self' := snd (load_existing_vector_store self) in
    (loaded = true ->
     exists store,
       open_persisted = Returns store
       /\ Py.raised (count store) = false
       /\ vector_store.vector_store self' = Some store)
    /\ (loaded = false ->
        (directory_exists && sqlite_exists)%bool = true ->
        vector_store.vector_store self' = None)
    /\ ((directory_exists && sqlite_exists)%bool = false ->
        loaded = false /\ self' = self).
Proof.
  intros self. unfold vector_store.load_existing_vector_store.
  destruct directory_exists, sqlite_exists; cbn;
    try (repeat split; intros; try discriminate; reflexivity).
  destruct open_persisted as [store | e]; cbn.
  - destruct (count store) as [n | e] eqn:Hc; cbn; repeat split;
      intros; try discriminate; try reflexivity.
    exists store. now rewrite Hc.
  - repeat split; intros; try discriminate; reflexivity.
Qed.

(** X17. [create_vector_store] returns only with the new collection
    installed. If building the collection raises, the object is left as
    it was; if persisting it raises, the exception is passed on although
    the new collection has already replaced the old one. *)
Theorem create_vector_store_outcomes :
  forall (self : vector_store.t) (documents : list Document),
    let r := fst (create_vector_store self documents) in
    let self' := snd (create_vector_store self documents) in
    (Py.raised r = false ->
     exists store,
       from_documents documents = Returns store
       /\ vector_store.vector_store self' = Some store)
    /\ (Py.raised (from_documents documents) = true ->
        Py.raised r = true /\ self' = self)
    /\ (forall store,
           from_documents documents = Returns store ->
           Py.raised (persist store) = true ->
           Py.raised r = true
           /\ vector_store.vector_store self' = Some store).
Proof.
  intros self documents. unfold vector_store.create_vector_store.
  destruct (from_documents documents) as [store | e]; cbn.
  - destruct (persist store) as [[] | e] eqn:Hp; cbn.
    + split; [intros _; now exists store |].
      split; [intros H; discriminate H |].
      intros store' Heq Hr. injection Heq as <-.
      rewrite Hp in Hr. discriminate Hr.
    + split; [intros H; discriminate H |].
      split; [intros H; discriminate H |].
      intros store' Heq Hr. injection Heq as <-. now split.
  - split; [intros H; discriminate H |].
    split; [intros _; now split |].
    intros store Heq. discriminate Heq.
Qed.

End VectorStoreFacts.

(** ** The agent as it is constructed *)

Section ConstructedAgentFacts.

Variable backend : nat -> LLM -> string -> Outcome string.
Variable CONFIDENCE_THRESHOLD : float.
Variable TOP_K_RETRIEVAL : Z.
Variable chroma_similarity_search :
  vector_store.Chroma -> string -> Z -> Outcome (list Document).
Variable GOOGLE_API_KEY OPENAI_API_KEY : option string.
Variable constructor_raises : LLM -> bool.

(** X18. The agent [RAGAgent()] builds holds a vector store of its own
    into which no index is ever loaded. Its retrieval therefore raises
    for every query: the retrieve stage records "Error in document
    retrieval: Vector store not initialized", no stage of any run sees a
    chunk or a context, every result lists no sources, and a run that
    reaches [END] carries the error "No response to evaluate". *)
Theorem constructed_agent_never_retrieves :
  forall (recursion_limit : nat) (final_state_is_dict : bool)
         (query : string) (log : Log),
    let a := rag_agent.new GOOGLE_API_KEY OPENAI_API_KEY constructor_raises in
    let search :=
      rag_agent.similarity_search TOP_K_RETRIEVAL chroma_similarity_search a in
    let r := fst (RAGAgent.process_query backend search CONFIDENCE_THRESHOLD
                    recursion_limit final_state_is_dict (rag_agent.agent a)
                    query log) in
    search query = Raises "Vector store not initialized"
    /\ RAGAgent.error
         (fst (RAGAgent._retrieve_documents search
                 (RAGAgent.initial_state query) log))
       = "Error in document retrieval: Vector store not initialized"%string
    /\ Forall (fun c =>
                 RAGAgent.context (snd (fst c)) = ""%string
                 /\ RAGAgent.retrieved_documents (snd (fst c)) = [])
              (RAGAgent.visited backend search CONFIDENCE_THRESHOLD
                 (rag_agent.agent a) recursion_limit RAGAgent.retrieve
                 (RAGAgent.initial_state query) log)
    /\ QueryResult.sources r = Some []
    /\ (QueryResult.success r = true ->
        QueryResult.error r = Some "No response to evaluate"%string).
Proof.
  intros limit is_dict query log a search r.
  assert (Hs : search query = Raises "Vector store not initialized")
    by reflexivity.
  split; [exact Hs | split; [reflexivity | split]].
  - apply no_chunks_context. right. now exists "Vector store not initialized"%string.
  - unfold r, RAGAgent.process_query, RAGAgent.workflow_invoke, bind.
    destruct (RAGAgent.invoke_from _ _ _ _ _ _ _ _)
      as [[final | e] log'] eqn:Hrun; cbn.
    + pose proof (final_sources backend search CONFIDENCE_THRESHOLD
                    (rag_agent.agent a) limit query log final log' Hrun)
        as Hsrc.
      rewrite Hs in Hsrc. rewrite Hsrc. split; [reflexivity | intros _].
      now rewrite (no_chunks_error backend search CONFIDENCE_THRESHOLD
                     (rag_agent.agent a) limit query log final log'
                     (or_intror (ex_intro _ _ Hs)) Hrun).
    + split; [reflexivity | discriminate].
Qed.

End ConstructedAgentFacts.

(** ** The rest of [system_manager.py] *)

(** Split on every test in the goal. *)
Ltac split_cases :=
  repeat match goal with
    | |- context [let (_, _) := ?c in _] => destruct c eqn:?
    | |- context [if ?b then _ else _] => destruct b eqn:?
    | |- context [match ?x with _ => _ end] => destruct x eqn:?
    end.

Section MoreCoordinatorFacts.

Variable validate_config : Outcome unit.
Variable agent_constructor : Outcome unit.
Variable GOOGLE_API_KEY OPENAI_API_KEY : option string.
Variable constructor_raises : LLM -> bool.
Variable list_pdfs : Outcome (list document_processor.PdfFile).
Variable read_pages : string -> Outcome (list (Outcome string)).
Variable stat_size : string -> Outcome nat.
Variable split_documents : Document -> Outcome (list Document).
Variable from_documents : list Document -> Outcome vector_store.Chroma.
Variable persist : vector_store.Chroma -> Outcome unit.
Variable count : vector_store.Chroma -> Outcome Z.
Variable directory_exists sqlite_exists : bool.
Variable open_persisted : Outcome vector_store.Chroma.

Local Abbreviation process_pdf_documents :=
  (document_processor.process_pdf_documents list_pdfs read_pages stat_size).
Local Abbreviation load_existing_vector_store :=
  (vector_store.load_existing_vector_store count directory_exists
     sqlite_exists open_persisted).
Local Abbreviation _process_documents :=
  (system_manager._process_documents list_pdfs read_pages stat_size
     split_documents from_documents persist).
Local Abbreviation initialize_system :=
  (system_manager.initialize_system validate_config agent_constructor
     GOOGLE_API_KEY OPENAI_API_KEY constructor_raises list_pdfs read_pages
     stat_size split_documents from_documents persist count directory_exists
     sqlite_exists open_persisted).
Local Abbreviation rebuild_vector_store :=
  (system_manager.rebuild_vector_store agent_constructor GOOGLE_API_KEY
     OPENAI_API_KEY constructor_raises list_pdfs read_pages stat_size
     split_documents from_documents persist).
Local Abbreviation new_agent :=
  (rag_agent.new GOOGLE_API_KEY OPENAI_API_KEY constructor_raises).

(** Processing the documents touches only the vector store. *)
Lemma process_documents_frame (self : system_manager.t) :
  let self' := snd (fst (_process_documents self)) in
  system_manager.is_initialized self' = system_manager.is_initialized self
  /\ system_manager.documents_processed self'
     = system_manager.documents_processed self
  /\ system_manager.rag_agent self' = system_manager.rag_agent self.
Proof.
  unfold system_manager._process_documents. split_cases; cbn; auto.
Qed.

(** Processing the documents never looks at the persisted index. *)
Lemma process_documents_calls (self : system_manager.t) :
  ~ In system_manager.load_existing_vector_store_call
       (snd (_process_documents self)).
Proof.
  unfold system_manager._process_documents.
  split_cases; cbn; intuition discriminate.
Qed.

(** Without documents nothing is chunked or indexed. *)
Lemma process_documents_empty (self : system_manager.t) :
  Py.raised process_pdf_documents = true
  \/ process_pdf_documents = Returns [] ->
  _process_documents self
  = (false, self, [system_manager.process_pdf_documents_call]).
Proof.
  unfold system_manager._process_documents.
  intros [H | H].
  - destruct process_pdf_documents; [discriminate H | reflexivity].
  - now rewrite H.
Qed.

(** X19. [initialize_system] reports success exactly when it leaves the
    coordinator ready: initialised, documents marked processed and a
    freshly built agent installed. When it reports failure, an error
    message is given and neither the initialised flag nor the agent has
    changed. *)
Theorem initialize_system_outcomes :
  forall (self : system_manager.t) (force_rebuild : bool),
    let r := fst (fst (initialize_system self force_rebuild)) in
    let self' := snd (fst (initialize_system self force_rebuild)) in
    (system_manager.Result.success r = true ->
     system_manager.is_initialized self' = true
     /\ system_manager.documents_processed self' = true
     /\ system_manager.rag_agent self' = Some new_agent
     /\ system_manager.Result.documents_processed r = Some true)
    /\ (system_manager.Result.success r = false ->
        system_manager.is_initialized self'
        = system_manager.is_initialized self
        /\ system_manager.rag_agent self' = system_manager.rag_agent self
        /\ system_manager.Result.error r <> None).
Proof.
  intros self force.
  unfold system_manager.initialize_system.
  destruct validate_config as [[] | e]; [| cbn; split; [discriminate |];
                                           intros _; repeat split; discriminate].
  destruct force; cbn [negb].
  - destruct (process_documents_frame self) as (Hi & Hd & Ha).
    destruct (_process_documents self) as [[ok self1] calls].
    cbn [fst snd] in *.
    destruct ok; cbn [negb].
    + destruct agent_constructor as [[] | e]; cbn;
        (split; intros; try discriminate; repeat split; auto; discriminate).
    + cbn. split; [discriminate |]. intros _. repeat split; auto. discriminate.
  - destruct (load_existing_vector_store (system_manager.vector_store self))
      as [loaded store].
    destruct loaded.
    + destruct agent_constructor as [[] | e]; cbn;
        (split; intros; try discriminate; repeat split; auto; discriminate).
    + destruct (process_documents_frame
                  (system_manager.set_vector_store self store))
        as (Hi & Hd & Ha).
      destruct (_process_documents
                  (system_manager.set_vector_store self store))
        as [[ok self1] calls].
      cbn [fst snd] in *.
      destruct ok; cbn [negb].
      * destruct agent_constructor as [[] | e]; cbn;
          (split; intros; try discriminate; repeat split; auto; discriminate).
      * cbn. split; [discriminate |]. intros _. repeat split; auto.
        discriminate.
Qed.

(** X20. An empty corpus. When the listing raises or no PDF yields a
    document, and no persisted index is loaded (or a rebuild is forced),
    initialisation fails with "Document processing failed"; nothing is
    chunked or indexed, no agent is built and the coordinator's flags and
    agent are untouched. *)
Theorem initialize_system_empty_corpus :
  forall (self : system_manager.t) (force_rebuild : bool),
    validate_config = Returns tt ->
    (Py.raised process_pdf_documents = true
     \/ process_pdf_documents = Returns []) ->
    (force_rebuild = true
     \/ fst (load_existing_vector_store (system_manager.vector_store self))
        = false) ->
    let r := fst (fst (initialize_system self force_rebuild)) in
    let self' := snd (fst (initialize_system self force_rebuild)) in
    let calls := snd (initialize_system self force_rebuild) in
    r = system_manager.failed "Document processing failed"
          "System initialization failed"
    /\ calls
       = system_manager.validate_config_call
         :: (if force_rebuild then []
             else [system_manager.load_existing_vector_store_call])
         ++ [system_manager.process_pdf_documents_call]
    /\ system_manager.is_initialized self'
       = system_manager.is_initialized self
    /\ system_manager.documents_processed self'
       = system_manager.documents_processed self
    /\ system_manager.rag_agent self' = system_manager.rag_agent self.
Proof.
  intros self force Hv Hdocs Hload.
  unfold system_manager.initialize_system. rewrite Hv.
  destruct force; cbn [negb].
  - rewrite (process_documents_empty self Hdocs). cbn. auto.
  - destruct Hload as [H | H]; [discriminate H |].
    destruct (load_existing_vector_store (system_manager.vector_store self))
      as [loaded store].
    cbn [fst] in H. subst loaded.
    rewrite (process_documents_empty _ Hdocs). cbn. auto.
Qed.

(** X21. What initialisation does with an existing index. Without
    [force_rebuild], when the persisted index loads, the only work is
    validating the configuration, loading the index and building the
    agent: no document is read, chunked or indexed. With [force_rebuild]
    the persisted index is never looked at. *)
Theorem initialize_system_work :
  forall (self : system_manager.t) (force_rebuild : bool),
    let calls := snd (initialize_system self force_rebuild) in
    (force_rebuild = false ->
     validate_config = Returns tt ->
     fst (load_existing_vector_store (system_manager.vector_store self))
     = true ->
     calls = [system_manager.validate_config_call;
              system_manager.load_existing_vector_store_call;
              system_manager.build_agent_call])
    /\ (force_rebuild = true ->
        ~ In system_manager.load_existing_vector_store_call calls).
Proof.
  intros self force. unfold system_manager.initialize_system. split.
  - intros -> Hv Hload. rewrite Hv. cbn [negb].
    destruct (load_existing_vector_store (system_manager.vector_store self))
      as [loaded store].
    cbn [fst] in Hload. subst loaded.
    now destruct agent_constructor as [[] | e].
  - intros ->. cbn [negb].
    destruct validate_config as [[] | e];
      [| cbn; intuition discriminate].
    pose proof (process_documents_calls self) as Hc.
    destruct (_process_documents self) as [[ok self1] calls].
    cbn [snd] in Hc.
    destruct ok; cbn [negb];
      [destruct agent_constructor as [[] | e] |];
      cbn; rewrite ?in_app_iff; cbn; intuition discriminate.
Qed.

(** X22. [rebuild_vector_store] never touches the initialised flag or
    the documents-processed flag, and installs a new agent exactly when
    it reports success. A coordinator that was not initialised is still
    not initialised after a successful rebuild. *)
Theorem rebuild_keeps_flags :
  forall (self : system_manager.t),
    let r := fst (fst (rebuild_vector_store self)) in
    let self' := snd (fst (rebuild_vector_store self)) in
    system_manager.is_initialized self' = system_manager.is_initialized self
    /\ system_manager.documents_processed self'
       = system_manager.documents_processed self
    /\ (if system_manager.Result.success r
        then system_manager.rag_agent self' = Some new_agent
        else system_manager.rag_agent self' = system_manager.rag_agent self
             /\ system_manager.Result.error r <> None).
Proof.
  intros self. unfold system_manager.rebuild_vector_store.
  destruct (process_documents_frame self) as (Hi & Hd & Ha).
  destruct (_process_documents self) as [[ok self1] calls].
  cbn [fst snd] in *.
  destruct ok.
  - destruct agent_constructor as [[] | e]; cbn; repeat split; auto;
      discriminate.
  - cbn. repeat split; auto. discriminate.
Qed.

End MoreCoordinatorFacts.

Section MoreQueryFacts.

Variable backend : nat -> LLM -> string -> Outcome string.
Variable CONFIDENCE_THRESHOLD : float.
Variable recursion_limit : nat.
Variable final_state_is_dict : bool.
Variable TOP_K_RETRIEVAL : Z.
Variable chroma_similarity_search :
  vector_store.Chroma -> string -> Z -> Outcome (list Document).

Local Abbreviation process_query :=
  (system_manager.process_query backend CONFIDENCE_THRESHOLD recursion_limit
     final_state_is_dict TOP_K_RETRIEVAL chroma_similarity_search).
Local Abbreviation test_system :=
  (system_manager.test_system backend CONFIDENCE_THRESHOLD recursion_limit
     final_state_is_dict TOP_K_RETRIEVAL chroma_similarity_search).

(** X23. [test_system] on a coordinator that is not initialised answers
    "System not initialized" without running a query. On an initialised
    coordinator it runs the test query once and reports the success flag
    of its result as [system_working]. With every backend down and a
    positive threshold that flag is [False] whatever the engine's limit:
    no stage reports the failure, the run goes round the improvement
    loop until the engine stops it. *)
Theorem test_system_outcomes :
  forall (self : system_manager.t) (log : Log),
    (system_manager.is_initialized self = false ->
     test_system self log
     = (system_manager.TestResult.mk (Some "System not initialized"%string)
          None None None,
        log))
    /\ (system_manager.is_initialized self = true ->
        system_manager.TestResult.system_working (fst (test_system self log))
        = Some (QueryResult.success
                  (fst (process_query self system_manager.test_query log)))
        /\ system_manager.TestResult.error (fst (test_system self log))
           = None
        /\ snd (test_system self log)
           = snd (process_query self system_manager.test_query log))
    /\ (system_manager.is_initialized self = true ->
        system_manager.rag_agent self <> None ->
        (forall n llm prompt, Py.raised (backend n llm prompt) = true) ->
        PrimFloat.ltb 0.0 CONFIDENCE_THRESHOLD = true ->
        system_manager.TestResult.system_working (fst (test_system self log))
        = Some false).
Proof.
  intros self log. unfold system_manager.test_system.
  split; [| split].
  - intros ->. reflexivity.
  - intros Hinit. rewrite Hinit. cbn [negb]. unfold bind, ret.
    destruct (process_query self system_manager.test_query log)
      as [result log']. repeat split.
  - intros Hinit Hagent Hdown Hthr. rewrite Hinit. cbn [negb].
    unfold bind, ret.
    destruct (process_query self system_manager.test_query log)
      as [result log'] eqn:E.
    cbn [fst]. f_equal.
    unfold system_manager.process_query, SystemManager.process_query,
      system_manager.as_manager in E.
    cbn [SystemManager.is_initialized SystemManager.rag_agent] in E.
    rewrite Hinit in E.
    destruct (system_manager.rag_agent self) as [a |];
      [| now contradiction Hagent].
    cbn [negb option_map] in E.
    pose proof (all_down_never_ends backend
                  (system_manager.agent_search TOP_K_RETRIEVAL
                     chroma_similarity_search self)
                  CONFIDENCE_THRESHOLD (rag_agent.agent a) Hdown Hthr
                  recursion_limit system_manager.test_query log) as Hrun.
    unfold RAGAgent.process_query, RAGAgent.workflow_invoke, bind in E.
    destruct (RAGAgent.invoke_from _ _ _ _ _ _ _ _) as [[final | e] l1];
      [discriminate Hrun |].
    cbn in E. now injection E as <- <-.
Qed.

End MoreQueryFacts.

(** ** Dictionaries *)

Section DictFacts.

Context {V : Type}.

Lemma get_set_same (d : Py.dict V) (k : string) (v : V) :
  Py.get (Py.set d k v) k = Some v.
Proof.
  induction d as [| [k' v'] d IH]; cbn.
  - now rewrite String.eqb_refl.
  - destruct (String.eqb k' k) eqn:E; cbn; rewrite E; [reflexivity | exact IH].
Qed.

Lemma get_set_other (d : Py.dict V) (k k' : string) (v : V) :
  k <> k' -> Py.get (Py.set d k v) k' = Py.get d k'.
Proof.
  intros Hne. induction d as [| [k0 v0] d IH]; cbn.
  - destruct (String.eqb_spec k k'); [contradiction | reflexivity].
  - destruct (String.eqb_spec k0 k) as [-> | Hk]; cbn.
    + destruct (String.eqb_spec k k'); [contradiction | reflexivity].
    + destruct (String.eqb k0 k'); [reflexivity | exact IH].
Qed.

Lemma keys_set (d : Py.dict V) (k : string) (v : V) :
  map fst (Py.set d k v)
  = if Py.is_some (Py.get d k) then map fst d else map fst d ++ [k].
Proof.
  induction d as [| [k' v'] d IH]; cbn; [reflexivity |].
  destruct (String.eqb_spec k' k) as [-> | Hk]; cbn; [reflexivity |].
  rewrite IH. now destruct (Py.is_some (Py.get d k)).
Qed.

Lemma in_keys_iff (d : Py.dict V) (k : string) :
  In k (map fst d) <-> Py.get d k <> None.
Proof.
  induction d as [| [k' v'] d IH]; cbn; [intuition congruence |].
  destruct (String.eqb_spec k' k) as [-> | Hk].
  - split; [discriminate | auto].
  - rewrite <- IH. intuition congruence.
Qed.

End DictFacts.

(** ** [document_processor.py] *)

Lemma sum_counts_set (d : Py.dict Z) (k : string) (v : Z) :
  sum_counts (Py.set d k v) = (sum_counts d - Py.get_or d k 0 + v)%Z.
Proof.
  unfold Py.get_or, sum_counts.
  induction d as [| [k' v'] d IH]; cbn; [lia |].
  destruct (String.eqb_spec k' k) as [-> | Hk]; cbn; [lia |].
  rewrite IH. lia.
Qed.

Lemma count_source_get (d : Py.dict Z) (doc : Document) (k : string) :
  Py.get (document_processor.count_source d doc) k
  = if String.eqb (source_of doc) k
    then Some (Py.get_or d k 0 + 1)%Z
    else Py.get d k.
Proof.
  unfold document_processor.count_source. fold (source_of doc).
  destruct (String.eqb_spec (source_of doc) k) as [<- | Hne].
  - rewrite get_set_same. f_equal. f_equal.
    unfold Py.get_or.
    destruct (Py.get d (source_of doc)) eqn:E; cbn; [now rewrite E |].
    now rewrite get_set_same.
  - rewrite get_set_other by exact Hne.
    destruct (Py.is_some (Py.get d (source_of doc))); [reflexivity |].
    now rewrite get_set_other.
Qed.

Lemma count_source_sum (d : Py.dict Z) (doc : Document) :
  sum_counts (document_processor.count_source d doc) = (sum_counts d + 1)%Z.
Proof.
  unfold document_processor.count_source. fold (source_of doc).
  destruct (Py.get d (source_of doc)) as [v |] eqn:E; cbn [Py.is_some].
  - rewrite sum_counts_set. unfold Py.get_or. rewrite E. lia.
  - rewrite sum_counts_set. unfold Py.get_or. rewrite get_set_same.
    rewrite sum_counts_set. unfold Py.get_or. rewrite E. lia.
Qed.

Lemma count_source_keys (d : Py.dict Z) (doc : Document) :
  NoDup (map fst d) ->
  NoDup (map fst (document_processor.count_source d doc)).
Proof.
  intros Hd. unfold document_processor.count_source. fold (source_of doc).
  destruct (Py.get d (source_of doc)) as [v |] eqn:E; cbn [Py.is_some].
  - rewrite keys_set, E. exact Hd.
  - rewrite keys_set, get_set_same. cbn [Py.is_some].
    rewrite keys_set, E. cbn [Py.is_some].
    apply NoDup_app; [exact Hd | repeat constructor; intros [] |].
    intros x Hx [<- | []]. apply in_keys_iff in Hx. contradiction.
Qed.

(** What the counting loop leaves in the dictionary. *)
Lemma counted_sources (documents : list Document) :
  forall (d : Py.dict Z) (k : string),
    Py.get (fold_left document_processor.count_source documents d) k
    = match occurrences k documents with
      | O => Py.get d k
      | S _ => Some (Py.get_or d k 0 + Z.of_nat (occurrences k documents))%Z
      end.
Proof.
  unfold occurrences.
  induction documents as [| doc documents IH]; intros d k; [reflexivity |].
  cbn [fold_left filter]. rewrite IH.
  unfold Py.get_or at 1. rewrite count_source_get.
  destruct (String.eqb (source_of doc) k); cbn [List.length].
  - destruct (List.length (filter _ documents)) as [| n]; f_equal; lia.
  - destruct (List.length (filter _ documents)) as [| n]; reflexivity.
Qed.

(** X24. [get_document_summary] counts every document once. The counts
    in [sources] add up to [total_chunks]; a source is listed exactly
    when a document names it (a document naming none counts as
    "unknown"), with the number of such documents; the keys are
    distinct; and there are at most [total_documents] of them, which is
    at most [total_chunks]. With no document everything is zero and no
    quotient is formed. *)
Theorem document_summary_counts :
  forall (documents : list Document),
    let summary := document_processor.get_document_summary documents in
    sum_counts (document_processor.sources summary)
    = Z.of_nat (document_processor.total_chunks summary)
    /\ (forall source,
           Py.get (document_processor.sources summary) source
           = match occurrences source documents with
             | O => None
             | S n => Some (Z.of_nat (S n))
             end)
    /\ NoDup (map fst (document_processor.sources summary))
    /\ List.length (document_processor.sources summary)
       <= document_processor.total_documents summary
    /\ document_processor.total_documents summary
       <= document_processor.total_chunks summary
    /\ (documents = [] ->
        summary = document_processor.mkSummary 0 0 0
                    document_processor.zero []).
Proof.
  intros documents summary.
  assert (Hsum : forall docs d,
             sum_counts (fold_left document_processor.count_source docs d)
             = (sum_counts d + Z.of_nat (List.length docs))%Z).
  { induction docs as [| doc docs IH]; intros d; cbn [fold_left List.length];
      [lia |].
    rewrite IH, count_source_sum. lia. }
  assert (Hkeys : forall docs d,
             NoDup (map fst d) ->
             NoDup (map fst (fold_left document_processor.count_source docs d))).
  { induction docs as [| doc docs IH]; intros d Hd; cbn [fold_left];
      [exact Hd |].
    apply IH. now apply count_source_keys. }
  assert (Hget : forall source,
             Py.get (document_processor.sources summary) source
             = match occurrences source documents with
               | O => None
               | S n => Some (Z.of_nat (S n))
               end).
  { intros source. unfold summary. cbn [document_processor.sources
      document_processor.get_document_summary].
    rewrite counted_sources.
    destruct (occurrences source documents); [reflexivity |].
    cbn [Py.get Py.get_or]. f_equal. }
  split; [| split; [| split; [| split; [| split]]]].
  - unfold summary. cbn. rewrite Hsum. cbn. lia.
  - exact Hget.
  - unfold summary. cbn. apply Hkeys. constructor.
  - unfold summary in *.
    cbn [document_processor.total_documents document_processor.sources
           document_processor.get_document_summary] in *.
    rewrite <- (length_map fst).
    rewrite <- (length_map
                  (fun o : option string =>
                     match o with Some s => s | None => "unknown"%string end)
                  (nodup document_processor.option_string_dec _)).
    apply NoDup_incl_length.
    + apply Hkeys. constructor.
    + intros k Hk. apply in_keys_iff in Hk. rewrite Hget in Hk.
      destruct (occurrences k documents) eqn:Ho; [now contradiction Hk |].
      unfold occurrences in Ho.
      destruct (filter _ documents) as [| doc l] eqn:Hf; [discriminate Ho |].
      assert (Hin : In doc (filter (fun doc => String.eqb (source_of doc) k)
                              documents))
        by (rewrite Hf; now left).
      apply filter_In in Hin as [Hin Heq]. apply String.eqb_eq in Heq.
      apply in_map_iff.
      exists (Py.get (metadata doc) "source"). split.
      * rewrite <- Heq. unfold source_of, Py.get_or.
        now destruct (Py.get (metadata doc) "source").
      * apply nodup_In. apply in_map_iff. now exists doc.
  - unfold summary. cbn.
    rewrite <- (length_map (fun doc => Py.get (metadata doc) "source")
                  documents).
    apply NoDup_incl_length; [apply NoDup_nodup |].
    intros x Hx. now apply nodup_In in Hx.
  - intros ->. reflexivity.
Qed.

(** *** Strings *)

Lemma is_word_cons (c : ascii) (w : string) :
  PyStr.is_word (String c w) = true ->
  PyStr.isspace c = false
  /\ (w = ""%string \/ PyStr.is_word w = true).
Proof.
  cbn. intros H. apply andb_prop in H as [Hc Hw].
  split; [now destruct (PyStr.isspace c) |].
  destruct w; [now left | now right].
Qed.

Lemma is_word_intro (c : ascii) (w : string) :
  PyStr.isspace c = false ->
  w = ""%string \/ PyStr.is_word w = true ->
  PyStr.is_word (String c w) = true.
Proof.
  intros Hc [-> | Hw]; cbn; rewrite Hc; [reflexivity |].
  destruct w; [discriminate Hw | exact Hw].
Qed.

Lemma split_words (s : string) :
  Forall (fun w => PyStr.is_word w = true) (PyStr.split s).
Proof.
  induction s as [| c s IH]; [constructor |].
  cbn [PyStr.split]. destruct (PyStr.isspace c) eqn:Hc; [exact IH |].
  destruct s as [| c' s'].
  - repeat constructor. apply is_word_intro; auto.
  - destruct (PyStr.isspace c') eqn:Hc'.
    + constructor; [apply is_word_intro; auto | exact IH].
    + destruct (PyStr.split (String c' s')) as [| w ws].
      * repeat constructor. apply is_word_intro; auto.
      * inversion IH as [| ? ? Hw Hws]; subst.
        constructor; [apply is_word_intro; auto | exact Hws].
Qed.

Lemma split_word_then_space (rest : string) :
  forall w,
    PyStr.is_word w = true ->
    PyStr.split (w ++ String " " rest) = w :: PyStr.split rest.
Proof.
  induction w as [| c w IH]; [discriminate |].
  intros Hw. apply is_word_cons in Hw as [Hc Hw].
  cbn [String.append PyStr.split]. rewrite Hc.
  destruct w as [| c' w'].
  - reflexivity.
  - destruct Hw as [Hw | Hw]; [discriminate Hw |].
    pose proof (is_word_cons _ _ Hw) as [Hc' _].
    cbn [String.append]. rewrite Hc'.
    specialize (IH Hw). cbn [String.append] in IH. now rewrite IH.
Qed.

Lemma split_word (w : string) :
  PyStr.is_word w = true -> PyStr.split w = [w].
Proof.
  induction w as [| c w IH]; [discriminate |].
  intros Hw. apply is_word_cons in Hw as [Hc Hw].
  cbn [PyStr.split]. rewrite Hc.
  destruct w as [| c' w']; [reflexivity |].
  destruct Hw as [Hw | Hw]; [discriminate Hw |].
  pose proof (is_word_cons _ _ Hw) as [Hc' _].
  rewrite Hc'. now rewrite (IH Hw).
Qed.

(** Splitting what joining with single spaces built gives the words
    back. *)
Lemma split_join (ws : list string) :
  Forall (fun w => PyStr.is_word w = true) ws ->
  PyStr.split (String.concat " " ws) = ws.
Proof.
  induction ws as [| w ws IH]; intros H; [reflexivity |].
  inversion H as [| ? ? Hw Hws]; subst.
  cbn [String.concat]. destruct ws as [| w2 ws].
  - now apply split_word.
  - change (w ++ " " ++ String.concat " " (w2 :: ws))%string
      with (w ++ String " " (String.concat " " (w2 :: ws)))%string.
    rewrite split_word_then_space by exact Hw. now rewrite IH.
Qed.

Lemma rstrip_nonspace (c : ascii) (s : string) :
  PyStr.isspace c = false ->
  PyStr.rstrip (String c s) = String c (PyStr.rstrip s).
Proof.
  intros Hc. cbn [PyStr.rstrip]. rewrite Hc.
  now destruct (PyStr.rstrip s).
Qed.

Lemma rstrip_idempotent (s : string) :
  PyStr.rstrip (PyStr.rstrip s) = PyStr.rstrip s.
Proof.
  induction s as [| c s IH]; [reflexivity |].
  cbn [PyStr.rstrip].
  destruct (PyStr.rstrip s) as [| c2 r] eqn:E.
  - destruct (PyStr.isspace c) eqn:Hc; [reflexivity |].
    cbn. now rewrite Hc.
  - cbn [PyStr.rstrip]. cbn [PyStr.rstrip] in IH. now rewrite IH.
Qed.

Lemma lstrip_clean (s : string) : PyStr.starts_clean (PyStr.lstrip s).
Proof.
  induction s as [| c s IH]; [exact I |].
  cbn [PyStr.lstrip]. destruct (PyStr.isspace c) eqn:Hc; [exact IH | exact Hc].
Qed.

Lemma lstrip_id (s : string) : PyStr.starts_clean s -> PyStr.lstrip s = s.
Proof. destruct s as [| c s]; cbn; [reflexivity |]. now intros ->. Qed.

Lemma rstrip_clean (s : string) :
  PyStr.starts_clean s -> PyStr.starts_clean (PyStr.rstrip s).
Proof.
  destruct s as [| c s]; [exact id |].
  intros Hc. rewrite rstrip_nonspace by exact Hc. exact Hc.
Qed.

(** Stripping twice is stripping once. *)
Lemma strip_idempotent (s : string) :
  PyStr.strip (PyStr.strip s) = PyStr.strip s.
Proof.
  unfold PyStr.strip.
  rewrite (lstrip_id (PyStr.rstrip (PyStr.lstrip s)))
    by (apply rstrip_clean, lstrip_clean).
  apply rstrip_idempotent.
Qed.

Lemma rstrip_word (w : string) :
  PyStr.is_word w = true -> PyStr.rstrip w = w.
Proof.
  induction w as [| c w IH]; [discriminate |].
  intros Hw. apply is_word_cons in Hw as [Hc [-> | Hw]].
  - cbn. now rewrite Hc.
  - rewrite rstrip_nonspace by exact Hc. now rewrite IH.
Qed.

Lemma rstrip_before_word (w : string) :
  PyStr.is_word w = true ->
  forall s, PyStr.rstrip (s ++ w) = (s ++ w)%string.
Proof.
  intros Hw. induction s as [| c s IH]; [now apply rstrip_word |].
  cbn [String.append PyStr.rstrip]. rewrite IH.
  destruct (s ++ w)%string eqn:E; [| reflexivity].
  destruct s; destruct w; discriminate.
Qed.

Lemma append_assoc (a b c : string) :
  ((a ++ b) ++ c = a ++ (b ++ c))%string.
Proof. induction a as [| x a IH]; cbn; [reflexivity | now rewrite IH]. Qed.

Lemma append_empty_r (a : string) : (a ++ "" = a)%string.
Proof. induction a as [| x a IH]; cbn; [reflexivity | now rewrite IH]. Qed.

(** Words joined by single spaces are already stripped. *)
Lemma strip_join (ws : list string) :
  Forall (fun w => PyStr.is_word w = true) ws ->
  PyStr.strip (String.concat " " ws) = String.concat " " ws.
Proof.
  intros H. unfold PyStr.strip.
  assert (Hshape : ws = []
                   \/ exists s w, String.concat " " ws = (s ++ w)%string
                                  /\ PyStr.is_word w = true).
  { induction ws as [| w ws IH]; [now left |]. right.
    inversion H as [| ? ? Hw Hws]; subst.
    destruct (IH Hws) as [-> | (s & w' & Hs & Hw')].
    - exists ""%string, w. now split.
    - destruct ws as [| w2 ws];
        [destruct s, w'; cbn in Hs; (discriminate Hs || discriminate Hw') |].
      cbn [String.concat]. cbn [String.concat] in Hs. rewrite Hs.
      exists (w ++ " " ++ s)%string, w'. split; [| exact Hw'].
      now rewrite !append_assoc. }
  assert (Hclean : PyStr.starts_clean (String.concat " " ws)).
  { destruct ws as [| w ws]; [exact I |].
    inversion H as [| ? ? Hw Hws]; subst.
    destruct w as [| c w]; [discriminate Hw |].
    apply is_word_cons in Hw as [Hc _].
    cbn [String.concat]. now destruct ws. }
  rewrite lstrip_id by exact Hclean.
  destruct Hshape as [-> | (s & w & -> & Hw)]; [reflexivity |].
  now apply rstrip_before_word.
Qed.

Lemma occurs_append (c : ascii) (a b : string) :
  PyStr.occurs c (a ++ b) = (PyStr.occurs c a || PyStr.occurs c b)%bool.
Proof.
  induction a as [| x a IH]; cbn; [reflexivity |].
  rewrite IH. now rewrite orb_assoc.
Qed.

Lemma occurs_remove (c : ascii) (s : string) :
  PyStr.occurs c (PyStr.remove c s) = false.
Proof.
  induction s as [| x s IH]; cbn; [reflexivity |].
  destruct (Ascii.eqb x c) eqn:E; [exact IH |]. cbn. now rewrite E.
Qed.

Lemma remove_absent (c : ascii) (s : string) :
  PyStr.occurs c s = false -> PyStr.remove c s = s.
Proof.
  induction s as [| x s IH]; cbn; [reflexivity |].
  destruct (Ascii.eqb x c); [discriminate |].
  cbn. intros H. now rewrite IH.
Qed.

Lemma occurs_lstrip (c : ascii) (s : string) :
  PyStr.occurs c s = false -> PyStr.occurs c (PyStr.lstrip s) = false.
Proof.
  induction s as [| x s IH]; cbn; [reflexivity |].
  intros H. apply orb_false_elim in H as [Hx Hs].
  destruct (PyStr.isspace x); [now apply IH |]. cbn. now rewrite Hx, Hs.
Qed.

Lemma occurs_rstrip (c : ascii) (s : string) :
  PyStr.occurs c s = false -> PyStr.occurs c (PyStr.rstrip s) = false.
Proof.
  induction s as [| x s IH]; cbn; [reflexivity |].
  intros H. apply orb_false_elim in H as [Hx Hs].
  specialize (IH Hs).
  destruct (PyStr.rstrip s) as [| y r].
  - destruct (PyStr.isspace x); cbn; [reflexivity | now rewrite Hx].
  - cbn [PyStr.occurs]. cbn [PyStr.occurs] in IH. now rewrite Hx, IH.
Qed.

Lemma occurs_split (c : ascii) (s : string) :
  PyStr.occurs c s = false ->
  Forall (fun w => PyStr.occurs c w = false) (PyStr.split s).
Proof.
  induction s as [| x s IH]; [constructor |].
  cbn [PyStr.occurs]. intros H. apply orb_false_elim in H as [Hx Hs].
  specialize (IH Hs).
  cbn [PyStr.split]. destruct (PyStr.isspace x); [exact IH |].
  destruct s as [| x' s'].
  - repeat constructor. cbn. now rewrite Hx.
  - destruct (PyStr.isspace x').
    + constructor; [cbn; now rewrite Hx | exact IH].
    + destruct (PyStr.split (String x' s')) as [| w ws].
      * repeat constructor. cbn. now rewrite Hx.
      * inversion IH as [| ? ? Hw Hws]; subst.
        constructor; [cbn; now rewrite Hx, Hw | exact Hws].
Qed.

Lemma occurs_join (c : ascii) (sep : string) (ws : list string) :
  PyStr.occurs c sep = false ->
  Forall (fun w => PyStr.occurs c w = false) ws ->
  PyStr.occurs c (String.concat sep ws) = false.
Proof.
  intros Hsep. induction ws as [| w ws IH]; intros H; [reflexivity |].
  inversion H as [| ? ? Hw Hws]; subst.
  cbn [String.concat]. destruct ws as [| w2 ws]; [exact Hw |].
  rewrite !occurs_append, Hw, Hsep. now rewrite (IH Hws).
Qed.

(** X25. [preprocess_text] returns a text without NUL characters that is
    already stripped. On a text without NUL characters it returns the
    words of the text joined by single spaces; applying it again changes
    nothing, and the words of the result are the words of the text. *)
Theorem preprocess_text_normal_form :
  forall (text : string),
    let r := document_processor.preprocess_text text in
    PyStr.occurs (ascii_of_nat 0) r = false
    /\ PyStr.strip r = r
    /\ (PyStr.occurs (ascii_of_nat 0) text = false ->
        r = String.concat " " (PyStr.split text)
        /\ PyStr.split r = PyStr.split text
        /\ document_processor.preprocess_text r = r).
Proof.
  intros text r. unfold r, document_processor.preprocess_text.
  split; [| split].
  - unfold PyStr.strip. apply occurs_rstrip, occurs_lstrip, occurs_remove.
  - apply strip_idempotent.
  - intros Hnul.
    assert (Hr : PyStr.strip
                   (PyStr.remove (ascii_of_nat 0)
                      (String.concat " " (PyStr.split text)))
                 = String.concat " " (PyStr.split text)).
    { rewrite remove_absent.
      - apply strip_join, split_words.
      - apply occurs_join; [reflexivity | now apply occurs_split]. }
    rewrite Hr. split; [reflexivity |].
    rewrite split_join by apply split_words.
    split; [reflexivity | exact Hr].
Qed.

Section ProcessingFacts.

Variable list_pdfs : Outcome (list document_processor.PdfFile).
Variable read_pages : string -> Outcome (list (Outcome string)).
Variable stat_size : string -> Outcome nat.
Variable split_documents : Document -> Outcome (list Document).

Local Abbreviation chunks_of := (document_processor.chunks_of split_documents).
Local Abbreviation document_of :=
  (document_processor.document_of read_pages stat_size).
Local Abbreviation process_pdf_documents :=
  (document_processor.process_pdf_documents list_pdfs read_pages stat_size).

(** The metadata of a stamped chunk. *)
Lemma stamp_metadata (total i : nat) (chunk : Document) :
  let c := document_processor.stamp total i chunk in
  page_content c = page_content chunk
  /\ Py.get (metadata c) "chunk_id" = Some (Py.str_of_nat i)
  /\ Py.get (metadata c) "total_chunks" = Some (Py.str_of_nat total)
  /\ Py.get (metadata c) "chunk_size"
     = Some (Py.str_of_nat (String.length (page_content chunk)))
  /\ (forall k,
         ~ In k ["chunk_id"; "total_chunks"; "chunk_size"]%string ->
         Py.get (metadata c) k = Py.get (metadata chunk) k).
Proof.
  unfold document_processor.stamp, PyStr.update.
  cbn [metadata page_content fold_left fst snd].
  repeat split.
  - rewrite !get_set_other by discriminate. apply get_set_same.
  - rewrite get_set_other by discriminate. apply get_set_same.
  - apply get_set_same.
  - intros k Hk. rewrite !get_set_other; [reflexivity | | |];
      intros <-; apply Hk; cbn; auto.
Qed.

Lemma stamped_from (total : nat) (chunks : list Document) :
  forall i,
    let out := map (fun ic => document_processor.stamp total (fst ic) (snd ic))
                   (PyStr.enumerate_from i chunks) in
    map page_content out = map page_content chunks
    /\ map (fun c => Py.get (metadata c) "chunk_id") out
       = map (fun j => Some (Py.str_of_nat j)) (seq i (List.length chunks))
    /\ map source_of out = map source_of chunks
    /\ Forall (fun c =>
                 Py.get (metadata c) "total_chunks"
                 = Some (Py.str_of_nat total)
                 /\ Py.get (metadata c) "chunk_size"
                    = Some (Py.str_of_nat (String.length (page_content c))))
              out.
Proof.
  induction chunks as [| chunk chunks IH]; intros i.
  - cbn. repeat split; constructor.
  - destruct (IH (S i)) as (H1 & H2 & H3 & H4).
    destruct (stamp_metadata total i chunk) as (Hc & Hid & Htot & Hsize & Hk).
    cbn [PyStr.enumerate_from map fst snd List.length seq].
    repeat split.
    + now rewrite Hc, H1.
    + now rewrite Hid, H2.
    + rewrite H3. f_equal. unfold source_of, Py.get_or.
      rewrite Hk; [reflexivity |]. cbn. intuition discriminate.
    + constructor; [| exact H4]. rewrite Hc. now split.
Qed.

(** X26. [chunk_documents] keeps what the splitter returns and numbers
    it: the chunks of one document keep their text and their source,
    carry the ids 0, 1, 2, ... in order, all carry the number of chunks
    of that document as "total_chunks" and their own length as
    "chunk_size". A document whose splitting raises contributes no
    chunk, the others being unaffected. *)
Theorem chunk_documents_numbering :
  forall (documents : list Document),
    (forall doc chunks,
        split_documents doc = Returns chunks ->
        map page_content (chunks_of doc) = map page_content chunks
        /\ map (fun c => Py.get (metadata c) "chunk_id") (chunks_of doc)
           = map (fun j => Some (Py.str_of_nat j))
                 (seq 0 (List.length chunks))
        /\ map source_of (chunks_of doc) = map source_of chunks
        /\ Forall (fun c =>
                     Py.get (metadata c) "total_chunks"
                     = Some (Py.str_of_nat (List.length chunks))
                     /\ Py.get (metadata c) "chunk_size"
                        = Some (Py.str_of_nat
                                  (String.length (page_content c))))
                  (chunks_of doc))
    /\ document_processor.chunk_documents split_documents documents
       = document_processor.chunk_documents split_documents
           (filter (fun doc => negb (Py.raised (split_documents doc)))
                   documents)
    /\ List.length
         (document_processor.chunk_documents split_documents documents)
       = list_sum
           (map (fun doc => match split_documents doc with
                            | Returns chunks => List.length chunks
                            | Raises _ => 0
                            end) documents).
Proof.
  intros documents. split; [| split].
  - intros doc chunks H. unfold document_processor.chunks_of. rewrite H.
    apply (stamped_from (List.length chunks) chunks 0).
  - unfold document_processor.chunk_documents.
    induction documents as [| doc documents IH]; [reflexivity |].
    cbn [flat_map filter]. rewrite IH.
    unfold document_processor.chunks_of at 1.
    destruct (split_documents doc) as [chunks | e] eqn:E; cbn [Py.raised negb].
    + cbn [flat_map]. unfold document_processor.chunks_of at 2.
      now rewrite E.
    + reflexivity.
  - unfold document_processor.chunk_documents.
    induction documents as [| doc documents IH]; [reflexivity |].
    cbn [flat_map map list_sum fold_right]. rewrite length_app, IH.
    f_equal. unfold document_processor.chunks_of.
    destruct (split_documents doc) as [chunks | e]; [| reflexivity].
    rewrite length_map.
    clear. generalize 0 as i.
    induction chunks as [| c chunks IH]; intros i; cbn; [reflexivity |].
    now rewrite IH.
Qed.

Lemma join_pages_raises (pages : list (Outcome string)) :
  forall text e,
    In (Raises e) pages ->
    Py.raised (document_processor.join_pages pages text) = true.
Proof.
  induction pages as [| [t | e0] pages IH]; intros text e Hin;
    [destruct Hin | |].
  - destruct Hin as [H | H]; [discriminate H |].
    cbn [document_processor.join_pages]. now apply (IH _ e).
  - reflexivity.
Qed.

Lemma join_pages_returns (texts : list string) :
  forall text,
    document_processor.join_pages (map Returns texts) text
    = Returns (text ++ String.concat ""
                         (map (fun t => t ++ Py.nl) texts))%string.
Proof.
  induction texts as [| t texts IH]; intros text.
  - cbn. now rewrite append_empty_r.
  - cbn [map document_processor.join_pages]. rewrite IH.
    destruct texts as [| t' texts].
    + cbn. now rewrite append_empty_r.
    + cbn [map String.concat]. cbn [append]. now rewrite append_assoc.
Qed.

(** X27. [process_pdf_documents] returns one document per listed file
    whose text and size could be read, in listing order, named after the
    file and typed "pdf", its text already stripped. A file all of whose
    pages and whose size can be read gives the document holding the
    pages' texts, a newline after each, stripped as a whole, with the
    file's name, path and size. A file is skipped as a whole when the
    reader, any one of its pages or the size lookup raises; if the
    listing itself raises, so does the call. *)
Theorem process_pdf_documents_outcomes :
  (forall pdf_files,
      list_pdfs = Returns pdf_files ->
      exists documents,
        process_pdf_documents = Returns documents
        /\ map source_of documents
           = map document_processor.name
               (filter (fun f => Py.is_some (document_of f)) pdf_files)
        /\ Forall (fun doc =>
                     PyStr.strip (page_content doc) = page_content doc
                     /\ Py.get (metadata doc) "type" = Some "pdf"%string)
                  documents)
  /\ (forall f texts size,
         read_pages (document_processor.path f) = Returns (map Returns texts) ->
         stat_size (document_processor.path f) = Returns size ->
         document_of f
         = Some (mkDocument
                   (PyStr.strip
                      (String.concat "" (map (fun t => t ++ Py.nl) texts)))
                   [("source", document_processor.name f);
                    ("file_path", document_processor.path f);
                    ("file_size", Py.str_of_nat size);
                    ("type", "pdf")])%string)
  /\ (forall f pages e,
         read_pages (document_processor.path f) = Returns pages ->
         In (Raises e) pages ->
         document_of f = None)
  /\ (forall f,
         Py.raised (read_pages (document_processor.path f)) = true
         \/ Py.raised (stat_size (document_processor.path f)) = true ->
         document_of f = None)
  /\ (Py.raised list_pdfs = true -> Py.raised process_pdf_documents = true).
Proof.
  split; [| split; [| split; [| split]]].
  - intros pdf_files Hl. unfold document_processor.process_pdf_documents.
    rewrite Hl. eexists. split; [reflexivity |]. clear Hl.
    induction pdf_files as [| f files [IH1 IH2]];
      [split; [reflexivity | constructor] |].
    cbn [flat_map filter].
    destruct (document_of f) as [doc |] eqn:E; cbn [Py.is_some app map].
    + unfold document_processor.document_of,
        document_processor.extract_text_from_pdf in E.
      destruct (read_pages (document_processor.path f)) as [pages | e];
        [| discriminate E].
      destruct (document_processor.join_pages pages "") as [text | e];
        [| discriminate E].
      destruct (stat_size (document_processor.path f)) as [size | e];
        [| discriminate E].
      injection E as <-. split.
      * cbn. now rewrite IH1.
      * constructor; [| exact IH2]. cbn [page_content metadata].
        split; [apply strip_idempotent | reflexivity].
    + now split.
  - intros f texts size Hr Hsize.
    unfold document_processor.document_of,
      document_processor.extract_text_from_pdf.
    now rewrite Hr, join_pages_returns, Hsize.
  - intros f pages e Hr Hin.
    unfold document_processor.document_of,
      document_processor.extract_text_from_pdf.
    rewrite Hr.
    pose proof (join_pages_raises pages "" e Hin) as Hj.
    now destruct (document_processor.join_pages pages "").
  - intros f H.
    unfold document_processor.document_of,
      document_processor.extract_text_from_pdf.
    destruct (read_pages (document_processor.path f)) as [pages | e];
      [| reflexivity].
    destruct H as [H | H]; [discriminate H |].
    destruct (document_processor.join_pages pages ""); [| reflexivity].
    now destruct (stat_size (document_processor.path f)).
  - unfold document_processor.process_pdf_documents.
    now destruct list_pdfs.
Qed.

End ProcessingFacts.

(** ** The status report *)

Section StatusFacts.

Variable DATA_DIR VECTOR_STORE_DIR : string.
Variable CHUNK_SIZE CHUNK_OVERLAP TOP_K_RETRIEVAL : Z.
Variable CONFIDENCE_THRESHOLD : float.
Variable EMBEDDING_MODEL : string.
Variable DEFAULT_MODEL FALLBACK_MODEL OLLAMA_MODEL OLLAMA_BASE_URL : string.
Variable count : vector_store.Chroma -> Outcome Z.
Variable embed_query : string -> Outcome (list float).

Local Abbreviation get_system_status :=
  (system_manager.get_system_status DATA_DIR VECTOR_STORE_DIR CHUNK_SIZE
     CHUNK_OVERLAP TOP_K_RETRIEVAL CONFIDENCE_THRESHOLD EMBEDDING_MODEL
     DEFAULT_MODEL FALLBACK_MODEL OLLAMA_MODEL OLLAMA_BASE_URL count
     embed_query).

(** X28. The status report of the coordinator. Before initialisation (or
    without an agent) it has three entries and its "config" names the two
    directories. Once the system is initialised the agent's report is
    merged over it: two entries are added after the first three, and
    "config" is replaced by the agent's, so the two directories are no
    longer reported. The "vector_store" entry describes the agent's own
    store, not the coordinator's: for an agent as constructed it is the
    error "Vector store not initialized", whatever the coordinator has
    indexed. *)
Theorem system_status_merge :
  forall (self : system_manager.t),
    let status := get_system_status self in
    (forall a,
        system_manager.is_initialized self = true ->
        system_manager.rag_agent self = Some a ->
        map fst status
        = ["system_initialized"; "documents_processed"; "config";
           "vector_store"; "llm_models"]%string
        /\ Py.get status "config"
           = Some (VDict [("chunk_size", VInt CHUNK_SIZE);
                          ("chunk_overlap", VInt CHUNK_OVERLAP);
                          ("top_k_retrieval", VInt TOP_K_RETRIEVAL);
                          ("confidence_threshold",
                           VFloat CONFIDENCE_THRESHOLD)]%string)
        /\ (rag_agent.vector_store a = vector_store.new ->
            Py.get status "vector_store"
            = Some (VDict [("error",
                            VStr "Vector store not initialized")]%string)))
    /\ (system_manager.is_initialized self = false
        \/ system_manager.rag_agent self = None ->
        map fst status
        = ["system_initialized"; "documents_processed"; "config"]%string
        /\ Py.get status "config"
           = Some (VDict [("data_directory", VStr DATA_DIR);
                          ("vector_store_directory", VStr VECTOR_STORE_DIR);
                          ("chunk_size", VInt CHUNK_SIZE);
                          ("chunk_overlap", VInt CHUNK_OVERLAP);
                          ("top_k_retrieval", VInt TOP_K_RETRIEVAL);
                          ("confidence_threshold",
                           VFloat CONFIDENCE_THRESHOLD)]%string)).
Proof.
  intros self status. subst status.
  unfold system_manager.get_system_status. split.
  - intros a Hinit Hagent. rewrite Hinit, Hagent.
    unfold rag_agent.get_system_status.
    repeat split.
    intros Hstore. rewrite Hstore. reflexivity.
  - intros [Hinit | Hagent].
    + rewrite Hinit. split; reflexivity.
    + rewrite Hagent. destruct (system_manager.is_initialized self);
        split; reflexivity.
Qed.

End StatusFacts.

(** * Instances *)

(** A witness of [system_status_merge]: the ready coordinator reports the
    agent's configuration and the agent's empty store. *)
Lemma system_status_merge_witness :
  let status :=
    system_manager.get_system_status "Data" "vector_store" 1000 200 5
      0.7%float "all-MiniLM-L6-v2" "gemini" "gpt" "mistral"
      "http://localhost:11434" World.count World.embed_query World.ready in
  Py.get status "vector_store"
  = Some (VDict [("error", VStr "Vector store not initialized")]%string).
Proof.
  exact (proj2 (proj2 (proj1
           (system_status_merge "Data" "vector_store" 1000 200 5 0.7%float
              "all-MiniLM-L6-v2" "gemini" "gpt" "mistral"
              "http://localhost:11434" World.count World.embed_query
              World.ready)
           (rag_agent.new (Some "g-key"%string) None (fun _ => false))
           eq_refl eq_refl)) eq_refl).
Defined.

(** A witness of [retrieve_records_chunks]. *)
Lemma retrieve_records_chunks_witness :
  RAGAgent.sources
    (fst (RAGAgent._retrieve_documents Scenario.one_document
            (RAGAgent.initial_state "q") []))
  = ["pharm.pdf"%string].
Proof.
  assert (Hne : [World.aspirin] <> []) by discriminate.
  exact (proj1 (proj2
           (retrieve_records_chunks Scenario.one_document
              (RAGAgent.initial_state "q") [] [World.aspirin] eq_refl Hne))).
Defined.

(** A witness of [generate_stage_effect]: every backend is down. *)
Lemma generate_stage_effect_witness :
  let s := RAGAgent.set_context (RAGAgent.initial_state "q") "Source: a" in
  snd (RAGAgent._generate_response Scenario.all_down
         (RAGAgent.mk Scenario.google_only) s [])
  = snd (LLMManager.generate_medical_response Scenario.all_down
           Scenario.google_only "q" "Source: a" []).
Proof.
  assert (Hne : "Source: a"%string <> ""%string) by discriminate.
  exact (proj1 (generate_stage_effect Scenario.all_down
                  (RAGAgent.mk Scenario.google_only)
                  (RAGAgent.set_context (RAGAgent.initial_state "q")
                     "Source: a") [] Hne)).
Defined.

(** A witness of [error_is_sticky]: a successful generation keeps the
    error of the retrieve stage. *)
Lemma error_is_sticky_witness :
  RAGAgent.error
    (fst (RAGAgent._generate_response (Scenario.always "Good answer")
            (RAGAgent.mk Scenario.google_only)
            (RAGAgent.set_error (RAGAgent.initial_state "q")
               "No relevant documents found") []))
  <> ""%string.
Proof.
  assert (Hne : "No relevant documents found"%string <> ""%string)
    by discriminate.
  exact (proj1 (proj2 (proj2
           (error_is_sticky (Scenario.always "Good answer")
              Scenario.no_documents 0.7%float
              (RAGAgent.mk Scenario.google_only)
              (RAGAgent.set_error (RAGAgent.initial_state "q")
                 "No relevant documents found") [] Hne)))).
Defined.

(** A witness of [zero_retry_fast_path]. *)
Lemma zero_retry_fast_path_witness :
  exists s3 l3,
    nth_error (RAGAgent.visited (Scenario.always "Good answer")
                 Scenario.one_document 0.7%float
                 (RAGAgent.mk Scenario.google_only) 25 RAGAgent.retrieve
                 (RAGAgent.initial_state "q") []) 3
    = Some (RAGAgent.evaluate, s3, l3)
    /\ RAGAgent.improvement_count s3 = 0%Z.
Proof.
  assert (Hfuel : 4 <= 25) by lia.
  destruct (zero_retry_fast_path (Scenario.always "Good answer")
              Scenario.one_document 0.7%float
              (RAGAgent.mk Scenario.google_only) "q" [] 25 Hfuel)
    as (s3 & l3 & Hnth & Hcount & _).
  exists s3, l3. split; [exact Hnth | exact Hcount].
Defined.

(** A witness of [process_query_cost]. *)
Lemma process_query_cost_witness :
  exists events,
    snd (RAGAgent.process_query Scenario.all_down Scenario.one_document
           0.7%float 25 true (RAGAgent.mk Scenario.all_three) "q" [])
    = [] ++ events
    /\ searches events = ["q"%string]
    /\ List.length (invoked events) <= 4 * (25 - 1).
Proof.
  assert (Hlimit : 1 <= 25) by lia.
  exact (process_query_cost Scenario.all_down Scenario.one_document
           0.7%float (RAGAgent.mk Scenario.all_three) 25 true "q" [] Hlimit).
Defined.

(** The bound of [process_query_cost] is reached: only the last
    fallback answers, its answers never satisfy the evaluation, and the
    24 generation calls of a run of 25 supersteps take four invocations
    each. *)
Example process_query_cost_reached :
  List.length
    (invoked
       (snd (RAGAgent.process_query World.only_ollama Scenario.one_document
               0.7%float 25 true (RAGAgent.mk Scenario.all_three) "q" [])))
  = 4 * (25 - 1).
Proof. vm_compute. reflexivity. Qed.

(** A witness of [result_sources]. *)
Lemma result_sources_witness :
  QueryResult.sources
    (fst (RAGAgent.process_query (Scenario.always "Good answer")
            Scenario.one_document 0.7%float 25 true
            (RAGAgent.mk Scenario.google_only) "q" []))
  = Some ["pharm.pdf"%string].
Proof.
  assert (Hok : QueryResult.success
                  (fst (RAGAgent.process_query (Scenario.always "Good answer")
                          Scenario.one_document 0.7%float 25 true
                          (RAGAgent.mk Scenario.google_only) "q" []))
                = true) by (vm_compute; reflexivity).
  exact (proj1 (proj2 (result_sources (Scenario.always "Good answer")
                         Scenario.one_document 0.7%float
                         (RAGAgent.mk Scenario.google_only) 25 true "q" []))
           Hok).
Defined.

(** A witness of [result_step_and_confidence]. *)
Lemma result_step_and_confidence_witness :
  QueryResult.workflow_steps
    (fst (RAGAgent.process_query (Scenario.always "Good answer")
            Scenario.one_document 0.7%float 25 true
            (RAGAgent.mk Scenario.google_only) "q" []))
  = Some "evaluate"%string.
Proof.
  assert (Hok : QueryResult.success
                  (fst (RAGAgent.process_query (Scenario.always "Good answer")
                          Scenario.one_document 0.7%float 25 true
                          (RAGAgent.mk Scenario.google_only) "q" []))
                = true) by (vm_compute; reflexivity).
  exact (proj1 (proj1 (result_step_and_confidence
                         (Scenario.always "Good answer")
                         Scenario.one_document 0.7%float
                         (RAGAgent.mk Scenario.google_only) 25 true "q" [])
                  Hok)).
Defined.

(** A witness of [search_raises_iff_no_index]: a failing index search is
    answered with an empty list. *)
Lemma search_raises_iff_no_index_witness :
  vector_store.similarity_search 5 World.chroma_down World.loaded "q" None
  = Returns [].
Proof.
  exact (proj1 (proj2 (proj2
           (proj2 (search_raises_iff_no_index 5 World.chroma_down
                     World.chroma_scores World.loaded "q" None)
              (vector_store.collection 0) eq_refl))) eq_refl).
Defined.

(** A witness of [load_existing_outcomes]: the index file is there but
    cannot be opened, and the index held before is dropped. *)
Lemma load_existing_outcomes_witness :
  vector_store.vector_store
    (snd (vector_store.load_existing_vector_store World.count true true
            (Raises "corrupt database") World.loaded))
  = None.
Proof.
  exact (proj1 (proj2
           (load_existing_outcomes World.count true true
              (Raises "corrupt database") World.loaded))
           eq_refl eq_refl).
Defined.

(** A witness of [create_vector_store_outcomes]: persisting fails after
    the collection was replaced. *)
Lemma create_vector_store_outcomes_witness :
  let r := vector_store.create_vector_store World.from_documents
             World.persist_fails World.loaded [World.aspirin] in
  Py.raised (fst r) = true
  /\ vector_store.vector_store (snd r) = Some (vector_store.collection 1).
Proof.
  exact (proj2 (proj2
           (create_vector_store_outcomes World.from_documents
              World.persist_fails World.loaded [World.aspirin]))
           (vector_store.collection 1) eq_refl eq_refl).
Defined.

(** A witness of [constructed_agent_never_retrieves]: the index answers
    every query, the constructed agent never asks it. *)
Lemma constructed_agent_never_retrieves_witness :
  QueryResult.error
    (fst (RAGAgent.process_query (Scenario.always "Good answer")
            (rag_agent.similarity_search 5 World.chroma_search
               (rag_agent.new (Some "g-key"%string) None (fun _ => false)))
            0.7%float 25 true
            (rag_agent.agent
               (rag_agent.new (Some "g-key"%string) None (fun _ => false)))
            "q" []))
  = Some "No response to evaluate"%string.
Proof.
  assert (Hok : QueryResult.success
                  (fst (RAGAgent.process_query (Scenario.always "Good answer")
                          (rag_agent.similarity_search 5 World.chroma_search
                             (rag_agent.new (Some "g-key"%string) None
                                (fun _ => false)))
                          0.7%float 25 true
                          (rag_agent.agent
                             (rag_agent.new (Some "g-key"%string) None
                                (fun _ => false)))
                          "q" []))
                = true) by (vm_compute; reflexivity).
  exact (proj2 (proj2 (proj2 (proj2
           (constructed_agent_never_retrieves (Scenario.always "Good answer")
              0.7%float 5 World.chroma_search (Some "g-key"%string) None
              (fun _ => false) 25 true "q" [])))) Hok).
Defined.

(** A witness of [initialize_system_outcomes]: a first start on a corpus
    of two files. *)
Lemma initialize_system_outcomes_witness :
  let self' :=
    snd (fst (system_manager.initialize_system (Returns tt) (Returns tt)
                (Some "g-key"%string) None (fun _ => false) World.pdfs
                World.read_pages World.stat_size World.splitter
                World.from_documents World.persist World.count false false
                (Raises "no index") system_manager.new false)) in
  system_manager.is_initialized self' = true
  /\ system_manager.documents_processed self' = true.
Proof.
  destruct (proj1
              (initialize_system_outcomes (Returns tt) (Returns tt)
                 (Some "g-key"%string) None (fun _ => false) World.pdfs
                 World.read_pages World.stat_size World.splitter
                 World.from_documents World.persist World.count false false
                 (Raises "no index") system_manager.new false) eq_refl)
    as (Hinit & Hdocs & _).
  split; [exact Hinit | exact Hdocs].
Defined.

(** A witness of [initialize_system_empty_corpus]: no PDF file, no
    persisted index. *)
Lemma initialize_system_empty_corpus_witness :
  fst (fst (system_manager.initialize_system (Returns tt) (Returns tt)
              (Some "g-key"%string) None (fun _ => false) World.no_pdfs
              World.read_pages World.stat_size World.splitter
              World.from_documents World.persist World.count false false
              (Raises "no index") system_manager.new false))
  = system_manager.failed "Document processing failed"
      "System initialization failed".
Proof.
  exact (proj1
           (initialize_system_empty_corpus (Returns tt) (Returns tt)
              (Some "g-key"%string) None (fun _ => false) World.no_pdfs
              World.read_pages World.stat_size World.splitter
              World.from_documents World.persist World.count false false
              (Raises "no index") system_manager.new false
              eq_refl (or_intror eq_refl) (or_intror eq_refl))).
Defined.

(** A witness of [initialize_system_work]: the persisted index loads and
    the corpus is not read. *)
Lemma initialize_system_work_witness :
  snd (system_manager.initialize_system (Returns tt) (Returns tt)
         (Some "g-key"%string) None (fun _ => false) World.pdfs
         World.read_pages World.stat_size World.splitter
         World.from_documents World.persist World.count true true
         (Returns (vector_store.collection 7)) system_manager.new false)
  = [system_manager.validate_config_call;
     system_manager.load_existing_vector_store_call;
     system_manager.build_agent_call].
Proof.
  exact (proj1
           (initialize_system_work (Returns tt) (Returns tt)
              (Some "g-key"%string) None (fun _ => false) World.pdfs
              World.read_pages World.stat_size World.splitter
              World.from_documents World.persist World.count true true
              (Returns (vector_store.collection 7)) system_manager.new false)
           eq_refl eq_refl eq_refl).
Defined.

(** A witness of [test_system_outcomes]: every backend is down and the
    system is reported as not working. *)
Lemma test_system_outcomes_witness :
  system_manager.TestResult.system_working
    (fst (system_manager.test_system Scenario.all_down 0.7%float 25 true 5
            World.chroma_search World.ready []))
  = Some false.
Proof.
  assert (Hagent : system_manager.rag_agent World.ready <> None)
    by discriminate.
  exact (proj2 (proj2
                  (test_system_outcomes Scenario.all_down 0.7%float 25 true 5
                     World.chroma_search World.ready []))
           eq_refl Hagent (fun _ _ _ => eq_refl) eq_refl).
Defined.

(** A witness of [document_summary_counts]. *)
Lemma document_summary_counts_witness :
  document_processor.get_document_summary []
  = document_processor.mkSummary 0 0 0 document_processor.zero [].
Proof.
  exact (proj2 (proj2 (proj2 (proj2 (proj2
           (document_summary_counts []))))) eq_refl).
Defined.

(** A witness of [preprocess_text_normal_form]. *)
Lemma preprocess_text_normal_form_witness :
  document_processor.preprocess_text "  Aspirin   inhibits "
  = String.concat " " (PyStr.split "  Aspirin   inhibits ").
Proof.
  exact (proj1 (proj2 (proj2
           (preprocess_text_normal_form "  Aspirin   inhibits ")) eq_refl)).
Defined.

(** A witness of [chunk_documents_numbering]. *)
Lemma chunk_documents_numbering_witness :
  map (fun c => Py.get (metadata c) "chunk_id")
      (document_processor.chunks_of World.splitter World.aspirin)
  = [Some "0"; Some "1"]%string.
Proof.
  exact (proj1 (proj2
           (proj1 (chunk_documents_numbering World.splitter [World.aspirin])
              World.aspirin
              [mkDocument "Aspirin" (metadata World.aspirin);
               mkDocument "inhibits" (metadata World.aspirin)]
              eq_refl))).
Defined.

(** A witness of [process_pdf_documents_outcomes]: the file with a
    damaged page is skipped. *)
Lemma process_pdf_documents_outcomes_witness :
  document_processor.document_of World.read_pages World.stat_size
    (document_processor.mkPdf "b.pdf" "Data/b.pdf")
  = None.
Proof.
  exact (proj1 (proj2 (proj2
           (process_pdf_documents_outcomes World.pdfs World.read_pages
              World.stat_size)))
           (document_processor.mkPdf "b.pdf" "Data/b.pdf")
           [Returns "x"%string; Raises "damaged page"%string]
           "damaged page"%string eq_refl (or_intror (or_introl eq_refl))).
Defined.

(** ** The document pipeline on small inputs *)

Example split_example :
  PyStr.split "  hello   big world " = ["hello"; "big"; "world"]%string.
Proof. reflexivity. Qed.

Example preprocess_text_example :
  document_processor.preprocess_text
    ("  a " ++ String (ascii_of_nat 9) "b" ++ Py.nl)%string
  = "a b"%string.
Proof. reflexivity. Qed.

(** A NUL character standing alone between two spaces leaves two spaces
    behind: the result is then not in normal form. *)
Example preprocess_text_nul :
  document_processor.preprocess_text
    ("a " ++ String (ascii_of_nat 0) " b")%string
  = "a  b"%string
  /\ document_processor.preprocess_text "a  b" = "a b"%string.
Proof. split; reflexivity. Qed.

Example process_pdf_documents_example :
  document_processor.process_pdf_documents World.pdfs World.read_pages
    World.stat_size
  = Returns [mkDocument ("Aspirin" ++ Py.nl ++ "inhibits")%string
               [("source", "a.pdf"); ("file_path", "Data/a.pdf");
                ("file_size", "1024"); ("type", "pdf")]%string].
Proof. reflexivity. Qed.

Example get_document_summary_example :
  document_processor.get_document_summary
    [World.aspirin; World.aspirin; mkDocument "xy" [];
     mkDocument "z" [("source", "unknown")]]%string
  = document_processor.mkSummary 3 4 79 (document_processor.quotient 79 4)
      [("pharm.pdf", 2%Z); ("unknown", 2%Z)]%string.
Proof. reflexivity. Qed.

Example first_start_example :
  snd (system_manager.initialize_system (Returns tt) (Returns tt)
         (Some "g-key"%string) None (fun _ => false) World.pdfs
         World.read_pages World.stat_size World.splitter
         World.from_documents World.persist World.count false false
         (Raises "no index") system_manager.new false)
  = [system_manager.validate_config_call;
     system_manager.load_existing_vector_store_call;
     system_manager.process_pdf_documents_call;
     system_manager.chunk_documents_call;
     system_manager.create_vector_store_call;
     system_manager.build_agent_call].
Proof. reflexivity. Qed.
